(** * KiteSublime, [lib/handlers.py]: a shallow embedding and its properties

    The five listeners of [lib/handlers.py] (EventDispatcher,
    CompletionsHandler, SignaturesHandler, HoverHandler, StatusHandler) are
    embedded as programs of a state-and-exception monad over one [World]
    record that holds the class attributes of the handlers together with the
    history of everything the handlers did to the outside (deferred tasks,
    requests, popups, status text, log lines, lock operations).

    What the module only calls and does not define (the editor's view API,
    [os.path.realpath], [json.loads], [hashlib], the templates, the settings
    and the key map, and of the built-ins [str] of a decoded value and
    [str.capitalize] outside ASCII) is taken through the [View] record and
    the [Host] class.  What a response holds is kept as [json.loads] gives
    it, and every subscript can fail as it does in Python. *)

From Stdlib Require Import ZArith List String Ascii Bool Floats Lia.
From Stdlib Require Import DecimalString.
Import ListNotations.

Local Open Scope string_scope.
Local Open Scope Z_scope.

Set Implicit Arguments.
Set Warnings "-register-all".

(* ================================================================== *)
(** * Python values *)
(* ================================================================== *)

Definition bytes := list Byte.byte.

(** What [json.loads] returns: None, bool, int, float, str, list, dict.  A
    dict keeps its keys in insertion order. *)
Inductive json : Type :=
| JNull
| JBool (b : bool)
| JInt (n : Z)
| JFloat (f : float)
| JStr (s : string)
| JList (l : list json)
| JDict (d : list (string * json)).

(** The exceptions that can travel through the handlers. *)
Inductive exn : Type :=
| TypeError
| KeyError
| IndexError
| AttributeError
| ValueError (msg : string)
| ConnectionRefusedError
| CannotSendRequest (msg : string).

Inductive outcome (A : Type) : Type :=
| Ret (a : A)
| Raise (e : exn).
Arguments Raise {A} e.

(** Python truth value of a decoded value. *)
Definition truthy (v : json) : bool :=
  match v with
  | JNull => false
  | JBool b => b
  | JInt n => negb (n =? 0)
  | JFloat f => negb (PrimFloat.eqb f 0%float)
  | JStr s => negb (s =? "")%string
  | JList l => match l with [] => false | _ => true end
  | JDict d => match d with [] => false | _ => true end
  end.

(** [x or []] *)
Definition or_empty_list (v : json) : json :=
  if truthy v then v else JList [].

Fixpoint dict_get (k : string) (d : list (string * json)) : option json :=
  match d with
  | [] => None
  | (k', v) :: d' => if (k' =? k)%string then Some v else dict_get k d'
  end.

Fixpoint dict_set (k : string) (v : json) (d : list (string * json))
  : list (string * json) :=
  match d with
  | [] => [(k, v)]
  | (k', v') :: d' =>
      if (k' =? k)%string then (k', v) :: d' else (k', v') :: dict_set k v d'
  end.

(** [o[k]] for a string key. *)
Definition py_getitem (o : json) (k : string) : outcome json :=
  match o with
  | JDict d => match dict_get k d with
               | Some v => Ret v
               | None => Raise KeyError
               end
  | _ => Raise TypeError
  end.

(** [o[0]]; of a str, its first character (here its first byte). *)
Definition py_getitem0 (o : json) : outcome json :=
  match o with
  | JList (x :: _) => Ret x
  | JList [] => Raise IndexError
  | JStr (String c _) => Ret (JStr (String c ""))
  | JStr "" => Raise IndexError
  | JDict _ => Raise KeyError
  | _ => Raise TypeError
  end.

(** [o[k] = v] for a string key; the result is the object after the store. *)
Definition py_setitem (o : json) (k : string) (v : json) : outcome json :=
  match o with
  | JDict d => Ret (JDict (dict_set k v d))
  | _ => Raise TypeError
  end.

(** [o.update({k1: v1, ...})] *)
Definition py_update (o : json) (kvs : list (string * json)) : outcome json :=
  match o with
  | JDict d => Ret (JDict (fold_left (fun acc kv => dict_set (fst kv) (snd kv) acc) kvs d))
  | _ => Raise AttributeError
  end.

(** [len(o)] *)
Definition py_len (o : json) : outcome Z :=
  match o with
  | JList l => Ret (Z.of_nat (List.length l))
  | JDict d => Ret (Z.of_nat (List.length d))
  | JStr s => Ret (Z.of_nat (String.length s))
  | _ => Raise TypeError
  end.

Fixpoint chars (s : string) : list json :=
  match s with
  | "" => []
  | String c s' => JStr (String c "") :: chars s'
  end.

(** The elements a [for] loop over [o] visits. *)
Definition py_iter (o : json) : outcome (list json) :=
  match o with
  | JList l => Ret l
  | JDict d => Ret (map (fun kv => JStr (fst kv)) d)
  | JStr s => Ret (chars s)
  | _ => Raise TypeError
  end.

(** [o == n] for an int literal [n] whose float is [nf]. *)
Definition py_eq_int (o : json) (n : Z) (nf : float) : bool :=
  match o with
  | JInt m => m =? n
  | JFloat f => PrimFloat.eqb f nf
  | JBool b => (if b then 1 else 0) =? n
  | _ => false
  end.

(** [o == s] for a str literal [s]. *)
Definition py_eq_str (o : json) (s : string) : bool :=
  match o with
  | JStr t => (t =? s)%string
  | _ => false
  end.

Definition is_None (o : json) : bool :=
  match o with JNull => true | _ => false end.

(** The object [o] after [o[k1]...[kn] = v], when the path runs through
    dicts; what sits beside the path is kept. *)
Fixpoint set_path (path : list string) (v : json) (o : json) : json :=
  match path with
  | [] => v
  | k :: rest =>
      match o with
      | JDict d =>
          match dict_get k d with
          | Some child => JDict (dict_set k (set_path rest v child) d)
          | None => match rest with
                    | [] => JDict (dict_set k v d)
                    | _ => o
                    end
          end
      | _ => o
      end
  end.

(* ================================================================== *)
(** * Strings *)
(* ================================================================== *)

Definition TAB : string := String (ascii_of_nat 9) "".

(** [s.endswith(suffix)] *)
Definition endswith (s suffix : string) : bool :=
  let n := String.length s in
  let m := String.length suffix in
  (m <=? n)%nat && (substring (n - m)%nat m s =? suffix)%string.

(** [s.replace(c, d)] for one-character [c] and [d]. *)
Fixpoint replace_char (c d : ascii) (s : string) : string :=
  match s with
  | "" => ""
  | String x s' => String (if Ascii.eqb x c then d else x) (replace_char c d s')
  end.

Definition upper_ascii (c : ascii) : ascii :=
  let n := nat_of_ascii c in
  if ((97 <=? n) && (n <=? 122))%nat then ascii_of_nat (n - 32) else c.

Definition lower_ascii (c : ascii) : ascii :=
  let n := nat_of_ascii c in
  if ((65 <=? n) && (n <=? 90))%nat then ascii_of_nat (n + 32) else c.

Fixpoint lower (s : string) : string :=
  match s with
  | "" => ""
  | String c s' => String (lower_ascii c) (lower s')
  end.

(** Whether a text, held as its UTF-8 bytes, is in ASCII. *)
Fixpoint ascii_only (s : string) : bool :=
  match s with
  | "" => true
  | String c s' => (nat_of_ascii c <? 128)%nat && ascii_only s'
  end.

(** [s.capitalize()] for a text in ASCII: the first letter in upper case, the
    others in lower case. *)
Definition capitalize (s : string) : string :=
  match s with
  | "" => ""
  | String c s' => String (upper_ascii c) (lower s')
  end.

(** [f == g] for two results of [view.file_name()]. *)
Definition same_file (f g : option string) : bool :=
  match f, g with
  | Some x, Some y => (x =? y)%string
  | None, None => true
  | _, _ => false
  end.

(** [str(n)] for an int. *)
Definition str_of_int (n : Z) : string :=
  NilZero.string_of_int (Z.to_int n).

(* ================================================================== *)
(** * The editor's view *)
(* ================================================================== *)

(** [sublime.Region]: [a] and [b] are the two ends as given, [begin] and
    [end] the smaller and the larger. *)
Record Region : Type := mkRegion { region_a : Z; region_b : Z }.

Definition region_begin (r : Region) : Z := Z.min (region_a r) (region_b r).
Definition region_end (r : Region) : Z := Z.max (region_a r) (region_b r).

(** A view, through the methods the handlers call on it. *)
Record View : Type := mkView {
  view_id : Z;
  file_name : option string;
  size : Z;
  sel : list Region;
  substr : Region -> string;
  match_selector : Z -> string -> bool
}.

Definition _is_view_supported (view : View) : bool :=
  match file_name view with
  | None => false
  | Some f => endswith f ".py"
  end.

Definition _check_view_size (view : View) : bool :=
  size view <=? Z.shiftl 1 20.

Definition _in_function_call (view : View) (point : Z) : bool :=
  match_selector view point "meta.function-call.python" &&
  negb (match_selector view point "variable.function.python").

(* ================================================================== *)
(** * Data that travels between the handlers *)
(* ================================================================== *)

(** The dict [EventDispatcher._view_region] builds. *)
Record ViewRegion : Type := mkViewRegion {
  vr_file : option string;
  vr_begin : Z;
  vr_end : Z
}.

(** The first component of what [_edit_info] returns, when it is not None. *)
Inductive edit_type : Type := insertion | deletion.

(** The dict [EventDispatcher._event_data] builds. *)
Record EventData : Type := mkEventData {
  ed_source : string;
  ed_filename : string;
  ed_text : string;
  ed_action : string;
  ed_selections : list (Z * Z)
}.

(** The dict [CompletionsHandler._event_data] and
    [SignaturesHandler._event_data] build. *)
Record FetchData : Type := mkFetchData {
  fd_filename : string;
  fd_editor : string;
  fd_text : string;
  fd_cursor_runes : Z
}.

(** The options [SignaturesHandler._render] passes to the template. *)
Record SigOpts : Type := mkSigOpts {
  show_popular_patterns : json;
  show_keyword_arguments : json;
  keyword_argument_highlighted : json;
  keyword_arguments_keys : json;
  popular_patterns_keys : json
}.

(** What a call of [requests.kited_post] or [requests.kited_get] comes back
    with: a response and its body, or one of the two transport exceptions
    [StatusHandler] knows of. *)
Record Response : Type := mkResponse { status : Z }.

Inductive Answer : Type :=
| Responded (resp : Response) (body : bytes)
| Refused
| CannotSend (msg : string).

(** What the module calls and does not define. *)
Class Host : Type := {
  (** [os.path.realpath] *)
  realpath : string -> string;
  (** [json.loads(body.decode('utf-8'))]: the value, or the message of the
      ValueError *)
  json_loads : bytes -> string + json;
  (** [str(v)], which ['{}'.format(v)] gives for a decoded value [v] that is
      not a str *)
  py_str : json -> string;
  (** [s.capitalize()] for a text that is not in ASCII, where the method
      follows the Unicode tables *)
  py_capitalize : string -> string;
  (** [hashlib.md5(str.encode(text)).hexdigest()] *)
  md5_hexdigest : string -> string;
  (** [settings.get] *)
  settings_get : string -> json;
  (** [keymap.get] *)
  keymap_get : string -> json;
  (** the signature template, rendered and minified *)
  render_signature_panel : SigOpts -> json -> string;
  (** the hover template, rendered and minified *)
  render_hover_panel : json -> json -> string
}.

(* ================================================================== *)
(** * The world: class attributes and history *)
(* ================================================================== *)

(** What [deferred.defer] is given. *)
Inductive Task : Type :=
| TaskKitedPost (path : string) (data : EventData)
| TaskRequestCompletions (view : View) (data : FetchData)
| TaskRequestSignatures (view : View) (data : FetchData)
| TaskRequestHover (view : View) (point : Z)
| TaskStatusHandle (view : View).

(** The lines [logger.log] is given. *)
Inductive LogMessage : Type :=
| LocationMismatch (last : option Z) (requested : Z)
    (* 'completions location mismatch: {} != {}' *)
| ErrorDecodingJson (ex : string)
    (* 'error decoding json: {}' *)
| CallIndex (in_kwargs : bool) (arg_index : json)
    (* 'call: {} index = {}', 'kwarg' when in_kwargs and 'arg' otherwise *)
| CouldNotRequestStatus (ex : string).
    (* 'could not request status: {}' *)

(** The attributes of SignaturesHandler that its lock guards. *)
Inductive SigField : Type := F_activated | F_view | F_call.

(** What a handler does besides assigning class attributes, as an entry of
    the history: the calls out of the module and, for SignaturesHandler, the
    taking and giving back of its lock and each assignment to an attribute
    the lock guards. *)
Inductive Event : Type :=
| Defer (t : Task)
| Log (m : LogMessage)
| HttpPost (path : string) (data : FetchData)
| HttpGet (url : string)
| RunCommand (view : View) (cmd : string)
| ShowPopup (view : View) (content : string) (location : option Z)
| HidePopup (view : View)
| SetStatus (view : View) (key value : string)
| EraseStatus (view : View) (key : string)
| Acquire            (* SignaturesHandler._lock taken *)
| Release            (* SignaturesHandler._lock given back *)
| Write (f : SigField).

Record World : Type := mkWorld {
  (** EventDispatcher._last_selection_region *)
  ED_last_selection_region : option ViewRegion;
  (** CompletionsHandler._received_completions, ._last_location; the first
      is what a response had under ['completions'], as decoded *)
  CH_received_completions : json;
  CH_last_location : option Z;
  (** SignaturesHandler._activated, ._view, ._call *)
  SH_activated : bool;
  SH_view : option View;
  SH_call : json;
  (** SignaturesHandler._lock: true while some thread holds it *)
  SH_lock : bool;
  (** what has been done so far, oldest first *)
  trace : list Event
}.

Definition init_world : World :=
  mkWorld None (JList []) None false None JNull false [].

Definition set_ED_last_selection_region (x : option ViewRegion) (w : World) :=
  mkWorld x (CH_received_completions w) (CH_last_location w) (SH_activated w)
          (SH_view w) (SH_call w) (SH_lock w) (trace w).
Definition set_CH_received_completions (x : json) (w : World) :=
  mkWorld (ED_last_selection_region w) x (CH_last_location w) (SH_activated w)
          (SH_view w) (SH_call w) (SH_lock w) (trace w).
Definition set_CH_last_location (x : option Z) (w : World) :=
  mkWorld (ED_last_selection_region w) (CH_received_completions w) x
          (SH_activated w) (SH_view w) (SH_call w) (SH_lock w) (trace w).
Definition set_SH_activated (x : bool) (w : World) :=
  mkWorld (ED_last_selection_region w) (CH_received_completions w)
          (CH_last_location w) x (SH_view w) (SH_call w) (SH_lock w) (trace w).
Definition set_SH_view (x : option View) (w : World) :=
  mkWorld (ED_last_selection_region w) (CH_received_completions w)
          (CH_last_location w) (SH_activated w) x (SH_call w) (SH_lock w)
          (trace w).
Definition set_SH_call (x : json) (w : World) :=
  mkWorld (ED_last_selection_region w) (CH_received_completions w)
          (CH_last_location w) (SH_activated w) (SH_view w) x (SH_lock w)
          (trace w).
Definition set_SH_lock (x : bool) (w : World) :=
  mkWorld (ED_last_selection_region w) (CH_received_completions w)
          (CH_last_location w) (SH_activated w) (SH_view w) (SH_call w) x
          (trace w).
Definition set_trace (x : list Event) (w : World) :=
  mkWorld (ED_last_selection_region w) (CH_received_completions w)
          (CH_last_location w) (SH_activated w) (SH_view w) (SH_call w)
          (SH_lock w) x.

(* ================================================================== *)
(** * The monad of the handlers: state and exceptions *)
(* ================================================================== *)

(** A handler runs from a world to a value or an exception, and a world:
    what was done before an exception stays done. *)
Definition M (A : Type) : Type := World -> outcome A * World.

Definition ret {A : Type} (a : A) : M A := fun w => (Ret a, w).

Definition bind {A B : Type} (m : M A) (f : A -> M B) : M B :=
  fun w => match m w with
           | (Ret a, w') => f a w'
           | (Raise e, w') => (Raise e, w')
           end.

Definition raise {A : Type} (e : exn) : M A := fun w => (Raise e, w).

Definition lift {A : Type} (o : outcome A) : M A := fun w => (o, w).

Definition gets {A : Type} (f : World -> A) : M A := fun w => (Ret (f w), w).

Definition modify (f : World -> World) : M unit := fun w => (Ret tt, f w).

(** [try: m except ...: h]; [h] answers None for an exception that no
    clause catches. *)
Definition try_except {A : Type} (m : M A) (h : exn -> option (M A)) : M A :=
  fun w => match m w with
           | (Ret a, w') => (Ret a, w')
           | (Raise e, w') => match h e with
                              | Some k => k w'
                              | None => (Raise e, w')
                              end
           end.

Declare Scope py_scope.
Delimit Scope py_scope with py.
Bind Scope py_scope with M.

Notation "x <- m ;; k" := (bind m (fun x => k))
  (at level 61, m at next level, right associativity) : py_scope.
Notation "m ;; k" := (bind m (fun _ => k))
  (at level 61, right associativity) : py_scope.

Local Open Scope py_scope.

Definition emit (e : Event) : M unit :=
  modify (fun w => set_trace (trace w ++ [e])%list w).

Definition when (b : bool) (m : M unit) : M unit :=
  if b then m else ret tt.

(** [o[k1][k2]...] *)
Fixpoint getpath (o : json) (path : list string) : M json :=
  match path with
  | [] => ret o
  | k :: rest => (v <- lift (py_getitem o k) ;; getpath v rest)
  end.

(** The calls out of the module. *)
Definition defer (t : Task) : M unit := emit (Defer t).
Definition log (m : LogMessage) : M unit := emit (Log m).
Definition run_command (view : View) (cmd : string) : M unit :=
  emit (RunCommand view cmd).
Definition show_popup (view : View) (content : string) (location : option Z)
  : M unit := emit (ShowPopup view content location).
Definition hide_popup (view : View) : M unit := emit (HidePopup view).
Definition set_status (view : View) (key value : string) : M unit :=
  emit (SetStatus view key value).
Definition erase_status (view : View) (key : string) : M unit :=
  emit (EraseStatus view key).

Definition answer_of (a : Answer) : M (Response * bytes) :=
  match a with
  | Responded resp body => ret (resp, body)
  | Refused => raise ConnectionRefusedError
  | CannotSend msg => raise (CannotSendRequest msg)
  end.

(** [requests.kited_post(path, data)], answered by [a]. *)
Definition kited_post (path : string) (data : FetchData) (a : Answer)
  : M (Response * bytes) :=
  emit (HttpPost path data) ;; answer_of a.

(** [requests.kited_get(url)], answered by [a]. *)
Definition kited_get (url : string) (a : Answer) : M (Response * bytes) :=
  emit (HttpGet url) ;; answer_of a.

(** [not body] *)
Definition not_body (body : bytes) : bool :=
  match body with [] => true | _ => false end.

Section WithHost.
Context `{Host}.

(** [realpath(view.file_name())]: a TypeError when there is no file name. *)
Definition realpath_of (view : View) : M string :=
  match file_name view with
  | Some f => ret (realpath f)
  | None => raise TypeError
  end.

Definition loads (body : bytes) : M json :=
  match json_loads body with
  | inl msg => raise (ValueError msg)
  | inr v => ret v
  end.

Definition md5 (text : string) : string := md5_hexdigest text.

End WithHost.

(** [view.substr(sublime.Region(0, view.size()))] *)
Definition whole_text (view : View) : string :=
  substr view (mkRegion 0 (size view)).

(* ================================================================== *)
(** * CompletionsHandler *)
(* ================================================================== *)

(** [CompletionsHandler._lock] is taken with [with], which waits for it: the
    sections it guards run one after the other, and each is one step here. *)
Module CompletionsHandler.
Section WithHost.
Context `{Host}.

(** [cls._last_location == location] *)
Definition at_location (last : option Z) (location : Z) : bool :=
  match last with Some l => l =? location | None => false end.

(** What ['{}'.format(v)] puts for [v]: the text itself for a str. *)
Definition format_value (v : json) : string :=
  match v with
  | JStr s => s
  | _ => py_str v
  end.

Definition _brand_completion (symbol hint : json) : string :=
  if truthy hint
  then format_value symbol ++ TAB ++ format_value hint ++ " ⟠"
  else format_value symbol ++ TAB ++ "⟠".

Definition _event_data (view : View) (location : Z) : M FetchData :=
  filename <- realpath_of view ;;
  ret (mkFetchData filename "sublime3" (whole_text view) location).

(** One element of the list comprehension:
    [(self._brand_completion(c['display'], c['hint']), c['insert'])]. *)
Definition completion_pair (c : json) : M (string * json) :=
  display <- lift (py_getitem c "display") ;;
  hint <- lift (py_getitem c "hint") ;;
  insert <- lift (py_getitem c "insert") ;;
  ret (_brand_completion display hint, insert).

(** [[f(c) for c in l]]: the first exception ends it. *)
Fixpoint for_each {A B : Type} (f : A -> M B) (l : list A) : M (list B) :=
  match l with
  | [] => ret []
  | x :: rest =>
      y <- f x ;;
      ys <- for_each f rest ;;
      ret (y :: ys)
  end.

(** An exception in the list comprehension leaves the [with] block before
    the two assignments that empty the cache. *)
Definition on_query_completions (view : View) (prefix : string)
  (locations : list Z) : M (option (list (string * json))) :=
  if negb (_is_view_supported view) then ret None
  else if negb (_check_view_size view) then ret None
  else match locations with
       | [location] =>
           last <- gets CH_last_location ;;
           received <- gets CH_received_completions ;;
           when (negb (at_location last location) && truthy received)
                (log (LocationMismatch last location)) ;;
           completions <-
             (if at_location last location && truthy received
              then (entries <- lift (py_iter received) ;;
                    pairs <- for_each completion_pair entries ;;
                    ret (Some pairs))
              else ret None) ;;
           modify (set_CH_received_completions (JList [])) ;;
           modify (set_CH_last_location None) ;;
           ret completions
       | _ => ret None
       end.

Definition queue_completions (view : View) (location : Z) : M unit :=
  data <- _event_data view location ;;
  defer (TaskRequestCompletions view data).

Definition hide_completions (view : View) : M unit :=
  modify (set_CH_received_completions (JList [])) ;;
  modify (set_CH_last_location None) ;;
  run_command view "hide_auto_complete".

Definition _run_auto_complete (view : View) : M unit :=
  run_command view "auto_complete".

Definition _request_completions (view : View) (data : FetchData)
  (answer : Answer) : M unit :=
  rb <- kited_post "/clientapi/editor/completions" data answer ;;
  let resp := fst rb in
  let body := snd rb in
  if negb (status resp =? 200) || not_body body then ret tt
  else
    try_except
      (resp_data <- loads body ;;
       completions_ <- lift (py_getitem resp_data "completions") ;;
       let completions := or_empty_list completions_ in
       modify (set_CH_received_completions completions) ;;
       modify (set_CH_last_location (Some (fd_cursor_runes data))) ;;
       _run_auto_complete view)
      (fun ex => match ex with
                 | ValueError msg => Some (log (ErrorDecodingJson msg))
                 | _ => None
                 end).

End WithHost.
End CompletionsHandler.

(* ================================================================== *)
(** * SignaturesHandler *)
(* ================================================================== *)

Module SignaturesHandler.
Section WithHost.
Context `{Host}.

(** [cls._lock.acquire(blocking=False)] *)
Definition try_acquire : M bool :=
  held <- gets SH_lock ;;
  if held then ret false
  else (modify (set_SH_lock true) ;; emit Acquire ;; ret true).

(** [cls._lock.release()] *)
Definition release : M unit :=
  modify (set_SH_lock false) ;; emit Release.

Definition set_activated (b : bool) : M unit :=
  modify (set_SH_activated b) ;; emit (Write F_activated).
Definition set_view (v : option View) : M unit :=
  modify (set_SH_view v) ;; emit (Write F_view).
Definition set_call (c : json) : M unit :=
  modify (set_SH_call c) ;; emit (Write F_call).

Definition _event_data (view : View) (location : Z) : M FetchData :=
  filename <- realpath_of view ;;
  ret (mkFetchData filename "sublime3" (whole_text view) location).

Definition queue_signatures (view : View) (location : Z) : M unit :=
  data <- _event_data view location ;;
  defer (TaskRequestSignatures view data).

Definition hide_signatures (view : View) : M unit :=
  acquired <- try_acquire ;;
  reset <- (if acquired
            then (set_activated false ;;
                  set_view None ;;
                  set_call JNull ;;
                  release ;;
                  ret true)
            else ret false) ;;
  when reset (hide_popup view).

Definition is_activated : M bool := gets SH_activated.

Definition _kwarg_highlighted : M json :=
  activated <- gets SH_activated ;;
  if negb activated then ret (JBool false)
  else
    call <- gets SH_call ;;
    in_kwargs <- getpath call ["language_details"; "python"; "in_kwargs"] ;;
    if negb (truthy in_kwargs) then ret in_kwargs
    else
      arg_index <- lift (py_getitem call "arg_index") ;;
      ret (JBool (negb (py_eq_int arg_index (-1) (-1)%float))).

Definition _render (call : json) : M string :=
  highlighted <- _kwarg_highlighted ;;
  let opts :=
    mkSigOpts (settings_get "show_popular_patterns")
              (settings_get "show_keyword_arguments")
              highlighted
              (keymap_get "toggle_keyword_arguments")
              (keymap_get "toggle_popular_patterns") in
  ret (render_signature_panel opts call).

(** The loop that separates out the keyword-only parameters; [func] already
    has its two empty lists. *)
Fixpoint partition_parameters (params : list json) (func : json) : M json :=
  match params with
  | [] => ret func
  | param :: rest =>
      param_details <- getpath param ["language_details"; "python"] ;;
      keyword_only <- lift (py_getitem param_details "keyword_only") ;;
      let key := if negb (truthy keyword_only)
                 then "positional_parameters"
                 else "keyword_only_parameters" in
      group <- lift (py_getitem func key) ;;
      match group with
      | JList l =>
          func' <- lift (py_setitem func key (JList (l ++ [param])%list)) ;;
          partition_parameters rest func'
      | _ => raise AttributeError
      end
  end.

Definition _request_signatures (view : View) (data : FetchData)
  (answer : Answer) : M unit :=
  rb <- kited_post "/clientapi/editor/signatures" data answer ;;
  let resp := fst rb in
  let body := snd rb in
  if negb (status resp =? 200) || not_body body then
    when ((status resp =? 400) || (status resp =? 404)) (hide_signatures view)
  else
    try_except
      (resp_data <- loads body ;;
       calls_ <- lift (py_getitem resp_data "calls") ;;
       let calls := or_empty_list calls_ in
       n <- lift (py_len calls) ;;
       if n =? 0 then ret tt
       else
         call <- lift (py_getitem0 calls) ;;
         kind <- getpath call ["callee"; "kind"] ;;
         let is_type := py_eq_str kind "type" in
         call <- (if is_type
                  then
                    constructor <- getpath call ["callee"; "details"; "type";
                                                 "language_details"; "python";
                                                 "constructor"] ;;
                    details <- getpath call ["callee"; "details"] ;;
                    _ <- lift (py_setitem details "function" constructor) ;;
                    ret (set_path ["callee"; "details"; "function"]
                                  constructor call)
                  else ret call) ;;
         func <- getpath call ["callee"; "details"; "function"] ;;
         func <- lift (py_update func [("positional_parameters", JList []);
                                       ("keyword_only_parameters", JList [])]) ;;
         parameters <- lift (py_getitem func "parameters") ;;
         params <- lift (py_iter (or_empty_list parameters)) ;;
         func <- partition_parameters params func ;;
         (* [func] is the object under ['function'], and under
            ['constructor'] too when the callee is a type *)
         let call := set_path ["callee"; "details"; "function"] func call in
         let call := if is_type
                     then set_path ["callee"; "details"; "type";
                                    "language_details"; "python";
                                    "constructor"] func call
                     else call in
         in_kwargs <- getpath call ["language_details"; "python"; "in_kwargs"] ;;
         arg_index <- lift (py_getitem call "arg_index") ;;
         log (CallIndex (truthy in_kwargs) arg_index) ;;
         acquired <- try_acquire ;;
         content <- (if acquired
                     then (set_activated true ;;
                           set_view (Some view) ;;
                           set_call call ;;
                           content <- _render call ;;
                           release ;;
                           ret (Some content))
                     else ret None) ;;
         match content with
         | Some c => show_popup view c None
         | None => ret tt
         end)
      (fun ex => match ex with
                 | ValueError msg => Some (log (ErrorDecodingJson msg))
                 | _ => None
                 end).

(** [_rerender] has two parts.  The first runs up to the release of the
    lock and gives the content to show, if any. *)
Definition _rerender_content : M (option string) :=
  acquired <- try_acquire ;;
  if acquired
  then
    activated <- gets SH_activated ;;
    content <- (if activated
                then (call <- gets SH_call ;;
                      c <- _render call ;;
                      ret (Some c))
                else ret None) ;;
    release ;;
    ret content
  else ret None.

(** The second part reads [cls._view] with the lock no longer held:
    [None.show_popup] is an AttributeError. *)
Definition _rerender_popup (content : option string) : M unit :=
  match content with
  | Some c =>
      view <- gets SH_view ;;
      match view with
      | Some v => show_popup v c None
      | None => raise AttributeError
      end
  | None => ret tt
  end.

(** [_rerender] while other threads change the world by [others] between
    its two parts. *)
Definition _rerender_amid (others : World -> World) : M unit :=
  content <- _rerender_content ;;
  modify others ;;
  _rerender_popup content.

(** [_rerender] with no other thread between its two parts. *)
Definition _rerender : M unit :=
  content <- _rerender_content ;;
  _rerender_popup content.

Definition on_post_text_command (view : View) (command_name : string) : M unit :=
  if (command_name =? "toggle_popular_patterns")%string ||
     (command_name =? "toggle_keyword_arguments")%string
  then _rerender
  else ret tt.

End WithHost.
End SignaturesHandler.

(* ================================================================== *)
(** * HoverHandler *)
(* ================================================================== *)

Module HoverHandler.
Section WithHost.
Context `{Host}.

Definition on_hover (view : View) (point : Z) (hover_zone : Z) : M unit :=
  if _is_view_supported view && _check_view_size view &&
     (Z.of_nat (List.length (sel view)) =? 1)
  then defer (TaskRequestHover view point)
  else ret tt.

Definition _event_url (view : View) (point : Z) : M string :=
  let editor := "sublime3" in
  path <- realpath_of view ;;
  let filename := replace_char "/"%char ":"%char path in
  let hash_ := md5 (whole_text view) in
  ret ("/api/buffer/" ++ editor ++ "/" ++ filename ++ "/" ++ hash_ ++
       "/hover?cursor_runes=" ++ str_of_int point)%string.

Definition _request_hover (view : View) (point : Z) (answer : Answer) : M unit :=
  url <- _event_url view point ;;
  rb <- kited_get url answer ;;
  let resp := fst rb in
  let body := snd rb in
  if negb (status resp =? 200) || not_body body then ret tt
  else
    try_except
      (resp_data <- loads body ;;
       symbols <- lift (py_getitem resp_data "symbol") ;;
       if is_None symbols then ret tt
       else
         symbol <- lift (py_getitem0 symbols) ;;
         value <- lift (py_getitem symbol "value") ;;
         value0 <- lift (py_getitem0 value) ;;
         kind <- lift (py_getitem value0 "kind") ;;
         hint <- (if negb (py_eq_str kind "instance")
                  then ret kind
                  else lift (py_getitem value0 "type")) ;;
         symbol <- lift (py_setitem symbol "hint" hint) ;;
         report <- lift (py_getitem resp_data "report") ;;
         show_popup view (render_hover_panel symbol report) (Some point))
      (fun ex => match ex with
                 | ValueError msg => Some (log (ErrorDecodingJson msg))
                 | _ => None
                 end).

End WithHost.
End HoverHandler.

(* ================================================================== *)
(** * StatusHandler *)
(* ================================================================== *)

Module StatusHandler.
Section WithHost.
Context `{Host}.

Definition _status_key : string := "kite".

Definition _brand_status (status : string) : string :=
  ("𝕜𝕚𝕥𝕖: " ++ status)%string.

(** [resp_data['status'].capitalize()]: worked out for a text in ASCII, the
    host's for any other text. *)
Definition capitalized (v : json) : M string :=
  match v with
  | JStr s => ret (if ascii_only s then capitalize s else py_capitalize s)
  | _ => raise AttributeError
  end.

Definition _handle (view : View) (answer : Answer) : M unit :=
  if negb (_is_view_supported view) then erase_status view _status_key
  else if negb (_check_view_size view)
  then set_status view _status_key (_brand_status "File too large")
  else
    try_except
      (path <- realpath_of view ;;
       let url := ("/clientapi/status?filename=" ++ path)%string in
       rb <- kited_get url answer ;;
       let resp := fst rb in
       let body := snd rb in
       if negb (status resp =? 200) || not_body body
       then set_status view _status_key (_brand_status "Server error")
       else
         resp_data <- loads body ;;
         st <- lift (py_getitem resp_data "status") ;;
         text <- capitalized st ;;
         set_status view _status_key (_brand_status text))
      (fun ex => match ex with
                 | ConnectionRefusedError =>
                     Some (set_status view _status_key
                                      (_brand_status "Connection error"))
                 | CannotSendRequest msg =>
                     Some (log (CouldNotRequestStatus msg))
                 | ValueError msg => Some (log (ErrorDecodingJson msg))
                 | _ => None
                 end).

Definition on_activated (view : View) : M unit :=
  defer (TaskStatusHandle view).

Definition on_selection_modified (view : View) : M unit :=
  defer (TaskStatusHandle view).

End WithHost.
End StatusHandler.

(* ================================================================== *)
(** * EventDispatcher *)
(* ================================================================== *)

Module EventDispatcher.
Section WithHost.
Context `{Host}.

Definition _view_region (view : View) : option ViewRegion :=
  match sel view with
  | [r] => Some (mkViewRegion (file_name view) (region_begin r) (region_end r))
  | _ => None
  end.

Definition _edit_info (selection edit : option ViewRegion)
  : option edit_type * option Z :=
  let no_info := (None, None) in
  match selection, edit with
  | Some s, Some e =>
      if negb (same_file (vr_file s) (vr_file e))
      then no_info
      else if vr_end e >? vr_end s
      then (Some insertion, Some (vr_end e - vr_end s))
      else if vr_end e <? vr_end s
      then (Some deletion, Some (vr_end s - vr_end e))
      else no_info
  | _, _ => no_info
  end.

Definition _event_data (view : View) (action : string) : M EventData :=
  let text := whole_text view in
  let action := if negb (_check_view_size view) then "skip" else action in
  let text := if negb (_check_view_size view) then "" else text in
  filename <- realpath_of view ;;
  ret (mkEventData "sublime3" filename text action
                   (map (fun r => (region_a r, region_b r)) (sel view))).

(** [region['end']]: a TypeError when the region is None. *)
Definition end_of (region : option ViewRegion) : M Z :=
  match region with
  | Some r => ret (vr_end r)
  | None => raise TypeError
  end.

(** [edit_type == 'insertion'], [edit_type == 'deletion'] *)
Definition is_insertion (t : option edit_type) : bool :=
  match t with Some insertion => true | _ => false end.
Definition is_deletion (t : option edit_type) : bool :=
  match t with Some deletion => true | _ => false end.

(** [num_chars == 1] *)
Definition equals_1 (n : option Z) : bool :=
  match n with Some k => k =? 1 | None => false end.

(** [num_chars > 1]: a TypeError when [num_chars] is None. *)
Definition greater_than_1 (n : option Z) : M bool :=
  match n with Some k => ret (k >? 1) | None => raise TypeError end.

Definition _handle (view : View) (action : string) : M unit :=
  if negb (_is_view_supported view) then ret tt
  else
    data <- _event_data view action ;;
    defer (TaskKitedPost "/clientapi/editor/event" data) ;;
    (if (action =? "selection")%string
     then
       let select_region := _view_region view in
       modify (set_ED_last_selection_region select_region) ;;
       point <- end_of select_region ;;
       if _in_function_call view point
       then
         activated <- SignaturesHandler.is_activated ;;
         if activated
         then (point <- end_of select_region ;;
               SignaturesHandler.queue_signatures view point)
         else ret tt
       else SignaturesHandler.hide_signatures view
     else ret tt) ;;
    (if (action =? "edit")%string && _check_view_size view
     then
       let edit_region := _view_region view in
       last <- gets ED_last_selection_region ;;
       let info := _edit_info last edit_region in
       let edit_type_ := fst info in
       let num_chars := snd info in
       (if is_insertion edit_type_ && equals_1 num_chars
        then (point <- end_of edit_region ;;
              CompletionsHandler.queue_completions view point)
        else if is_deletion edit_type_
        then (more <- greater_than_1 num_chars ;;
              if more then CompletionsHandler.hide_completions view
              else ret tt)
        else ret tt) ;;
       point <- end_of edit_region ;;
       if _in_function_call view point
       then (point <- end_of edit_region ;;
             SignaturesHandler.queue_signatures view point)
       else SignaturesHandler.hide_signatures view
     else ret tt).

Definition on_modified (view : View) : M unit := _handle view "edit".

Definition on_selection_modified (view : View) : M unit :=
  _handle view "selection".

End WithHost.
End EventDispatcher.

(* ================================================================== *)
(** * Runs of the plugin *)
(* ================================================================== *)

(** The entry points: what the editor calls, what the task queue runs with
    the answer of the service, and another thread taking or giving back
    [SignaturesHandler._lock]. *)
Inductive Op : Type :=
| OnModified (view : View)
| OnSelectionModified (view : View)
| OnQueryCompletions (view : View) (prefix : string) (locations : list Z)
| RunRequestCompletions (view : View) (data : FetchData) (answer : Answer)
| RunRequestSignatures (view : View) (data : FetchData) (answer : Answer)
| OnPostTextCommand (view : View) (command_name : string)
| OnHover (view : View) (point : Z) (hover_zone : Z)
| RunRequestHover (view : View) (point : Z) (answer : Answer)
| StatusOnActivated (view : View)
| StatusOnSelectionModified (view : View)
| RunStatusHandle (view : View) (answer : Answer)
| OtherThreadLock (held : bool).

Definition world_after {A : Type} (m : M A) (w : World) : World := snd (m w).

Section WithHost.
Context `{Host}.

Definition run_op (op : Op) (w : World) : World :=
  match op with
  | OnModified view => world_after (EventDispatcher.on_modified view) w
  | OnSelectionModified view =>
      world_after (EventDispatcher.on_selection_modified view) w
  | OnQueryCompletions view prefix locations =>
      world_after (CompletionsHandler.on_query_completions view prefix locations) w
  | RunRequestCompletions view data answer =>
      world_after (CompletionsHandler._request_completions view data answer) w
  | RunRequestSignatures view data answer =>
      world_after (SignaturesHandler._request_signatures view data answer) w
  | OnPostTextCommand view command_name =>
      world_after (SignaturesHandler.on_post_text_command view command_name) w
  | OnHover view point hover_zone =>
      world_after (HoverHandler.on_hover view point hover_zone) w
  | RunRequestHover view point answer =>
      world_after (HoverHandler._request_hover view point answer) w
  | StatusOnActivated view => world_after (StatusHandler.on_activated view) w
  | StatusOnSelectionModified view =>
      world_after (StatusHandler.on_selection_modified view) w
  | RunStatusHandle view answer =>
      world_after (StatusHandler._handle view answer) w
  | OtherThreadLock held => set_SH_lock held w
  end.

Definition run_ops (ops : list Op) (w : World) : World :=
  fold_left (fun w op => run_op op w) ops w.

Inductive reachable : World -> Prop :=
| reachable_init : reachable init_world
| reachable_step : forall w op, reachable w -> reachable (run_op op w).

(** A completions fetch that gets as far as storing what it received. *)
Definition fetch_completes (op : Op) : bool :=
  match op with
  | RunRequestCompletions _ _ (Responded resp body) =>
      (status resp =? 200) && negb (not_body body) &&
      match json_loads body with
      | inr resp_data =>
          match py_getitem resp_data "completions" with
          | Ret _ => true
          | Raise _ => false
          end
      | inl _ => false
      end
  | _ => false
  end.

End WithHost.

(* ================================================================== *)
(** * Predicates of the statements *)
(* ================================================================== *)

(** [SignaturesHandler._call] is not None exactly when [_activated] is
    true. *)
Definition call_iff_activated (w : World) : Prop :=
  SH_call w <> JNull <-> SH_activated w = true.

(** Every write to a guarded attribute of SignaturesHandler comes after an
    [Acquire] with no [Release] in between; [held] is whether the lock is
    held where the history starts. *)
Fixpoint locked_writes (held : bool) (tr : list Event) : bool :=
  match tr with
  | [] => true
  | Acquire :: t => locked_writes true t
  | Release :: t => locked_writes false t
  | Write _ :: t => held && locked_writes held t
  | _ :: t => locked_writes held t
  end.

Fixpoint held_after (held : bool) (tr : list Event) : bool :=
  match tr with
  | [] => held
  | Acquire :: t => held_after true t
  | Release :: t => held_after false t
  | _ :: t => held_after held t
  end.

Definition signatures_invariant (w : World) : Prop :=
  call_iff_activated w /\ locked_writes false (trace w) = true.

(** What the user can see: popups, status text, the completion list. *)
Definition user_visible (e : Event) : bool :=
  match e with
  | RunCommand _ _ | ShowPopup _ _ _ | HidePopup _
  | SetStatus _ _ _ | EraseStatus _ _ => true
  | _ => false
  end.

(** A completions, signatures or hover request handed to the task queue. *)
Definition queues_request (e : Event) : bool :=
  match e with
  | Defer (TaskRequestCompletions _ _)
  | Defer (TaskRequestSignatures _ _)
  | Defer (TaskRequestHover _ _) => true
  | _ => false
  end.

(** What the dispatcher does to completions: queue a fetch, or hide. *)
Definition completions_action (e : Event) : bool :=
  match e with
  | Defer (TaskRequestCompletions _ _) => true
  | RunCommand _ _ => true
  | _ => false
  end.

(** A cached entry as the editor is to present it.  An entry is an object
    with a text under ['display'], a text or null under ['hint'] and the
    insertion under ['insert']; its label is the display text and a tab,
    then the hint and a space when there is a hint that is not empty, then
    the brand sign.  An entry of any other shape has no presentation. *)
Definition labelled (display : string) (hint : option string) : string :=
  match hint with
  | Some (String c h) => display ++ TAB ++ String c h ++ " ⟠"
  | _ => display ++ TAB ++ "⟠"
  end.

Definition presented (c : json) : option (string * json) :=
  match c with
  | JDict fields =>
      match dict_get "display" fields, dict_get "hint" fields,
            dict_get "insert" fields with
      | Some (JStr display), Some (JStr hint), Some insert =>
          Some (labelled display (Some hint), insert)
      | Some (JStr display), Some JNull, Some insert =>
          Some (labelled display None, insert)
      | _, _, _ => None
      end
  | _ => None
  end.

Fixpoint all_presented (entries : list json) : option (list (string * json)) :=
  match entries with
  | [] => Some []
  | c :: rest =>
      match presented c, all_presented rest with
      | Some shown, Some others => Some (shown :: others)
      | _, _ => None
      end
  end.

(** The exception the list comprehension of [on_query_completions] ends in,
    if any: a TypeError at the first entry that is not an object, a KeyError
    at the first object without ['display'], ['hint'] or ['insert']. *)
Definition entry_error (c : json) : option exn :=
  match c with
  | JDict fields =>
      match dict_get "display" fields, dict_get "hint" fields,
            dict_get "insert" fields with
      | Some _, Some _, Some _ => None
      | _, _, _ => Some KeyError
      end
  | _ => Some TypeError
  end.

Fixpoint first_error (entries : list json) : option exn :=
  match entries with
  | [] => None
  | c :: rest =>
      match entry_error c with
      | Some e => Some e
      | None => first_error rest
      end
  end.

Definition is_2xx (status : Z) : bool := (200 <=? status) && (status <? 300).

(** [m] keeps [I], whether it returns or raises. *)
Definition pres {A : Type} (I : World -> Prop) (m : M A) : Prop :=
  forall w, I w -> I (world_after m w).

(** [m] leaves the world as it found it. *)
Definition reads_only {A : Type} (m : M A) : Prop :=
  forall w, world_after m w = w.

(** From [w] to [w'] no attribute changed and nothing the user can see was
    done. *)
Definition silent (w w' : World) : Prop :=
  exists events,
    w' = set_trace (trace w ++ events)%list w /\
    filter user_visible events = [].

(** From [w0] on, the dispatcher's actions on completions were [actions],
    and the cache is [received] at [location]. *)
Definition completions_effect (w0 : World) (actions : list Event)
  (received : json) (location : option Z) (w : World) : Prop :=
  (exists events,
     trace w = (trace w0 ++ events)%list /\
     filter completions_action events = actions) /\
  CH_received_completions w = received /\
  CH_last_location w = location.

(** The event record [EventDispatcher._event_data] builds for a view whose
    file name is [f]. *)
Definition event_record `{Host} (view : View) (f : string) (action : string)
  : EventData :=
  mkEventData "sublime3" (realpath f)
              (if _check_view_size view then whole_text view else "")
              (if _check_view_size view then action else "skip")
              (map (fun r => (region_a r, region_b r)) (sel view)).

(** The request data the handlers build for a view whose file name is [f]. *)
Definition request_data `{Host} (view : View) (f : string) (location : Z)
  : FetchData :=
  mkFetchData (realpath f) "sublime3" (whole_text view) location.

Definition cache_empty (w : World) : Prop :=
  CH_received_completions w = JList [] /\ CH_last_location w = None.

(* ================================================================== *)
(** * A concrete host, views and answers *)
(* ================================================================== *)

Module Scenario.

(** One call of [f(x, *, key)] with the caret on the first argument. *)
Definition call_parameter (name : string) (keyword_only : bool) : json :=
  JDict [("name", JStr name);
         ("language_details",
          JDict [("python", JDict [("keyword_only", JBool keyword_only)])])].

Definition call_f : json :=
  JDict [("callee",
          JDict [("kind", JStr "function");
                 ("details",
                  JDict [("function",
                          JDict [("parameters",
                                  JList [call_parameter "x" false;
                                         call_parameter "key" true])])])]);
         ("language_details", JDict [("python", JDict [("in_kwargs", JBool false)])]);
         ("arg_index", JInt 0)].

Definition signatures_response : json := JDict [("calls", JList [call_f])].

Definition item_foo : json :=
  JDict [("display", JStr "foo"); ("hint", JStr "function");
         ("insert", JStr "foo()")].

Definition completions_response : json :=
  JDict [("completions", JList [item_foo])].

Definition no_completions_response : json :=
  JDict [("completions", JList [])].

(** JSON text, written with ['] where the text has its double quote. *)
Definition json_text (s : string) : bytes :=
  list_byte_of_string (replace_char "'"%char (ascii_of_nat 34) s).

Definition same_bytes (a b : bytes) : bool :=
  (string_of_list_byte a =? string_of_list_byte b)%string.

Definition signatures_body : bytes :=
  json_text
    ("{'calls':[{'callee':{'kind':'function','details':{'function':" ++
     "{'parameters':[" ++
     "{'name':'x','language_details':{'python':{'keyword_only':false}}}," ++
     "{'name':'key','language_details':{'python':{'keyword_only':true}}}" ++
     "]}}}," ++
     "'language_details':{'python':{'in_kwargs':false}},'arg_index':0}]}").

Definition completions_body : bytes :=
  json_text
    "{'completions':[{'display':'foo','hint':'function','insert':'foo()'}]}".

Definition no_completions_body : bytes := json_text "{'completions':[]}".

(** A completions response whose one entry has no ['hint']. *)
Definition item_without_hint : json :=
  JDict [("display", JStr "foo"); ("insert", JStr "foo()")].

Definition hintless_response : json :=
  JDict [("completions", JList [item_without_hint])].

Definition hintless_body : bytes :=
  json_text "{'completions':[{'display':'foo','insert':'foo()'}]}".

(** [str(v)] for None, a bool and an int. *)
Definition str_of (v : json) : string :=
  match v with
  | JNull => "None"
  | JBool true => "True"
  | JBool false => "False"
  | JInt n => str_of_int n
  | _ => ""
  end.

(** A host that decodes the bodies above as [json.loads] does and takes any
    other body as malformed. *)
Definition scenario_host : Host := {|
  realpath := fun p => p;
  json_loads := fun body =>
    if same_bytes body signatures_body then inr signatures_response
    else if same_bytes body completions_body then inr completions_response
    else if same_bytes body no_completions_body
    then inr no_completions_response
    else if same_bytes body hintless_body then inr hintless_response
    else inl "Expecting value: line 1 column 1 (char 0)";
  py_str := str_of;
  py_capitalize := fun s => s;
  md5_hexdigest := fun _ => "d41d8cd98f00b204e9800998ecf8427e";
  settings_get := fun _ => JBool true;
  keymap_get := fun _ => JStr "ctrl+alt+k";
  render_signature_panel := fun _ _ => "<div>f(x, *, key)</div>";
  render_hover_panel := fun _ _ => "<div>f</div>"
|}.

(** A Python file of [n] characters with one caret at [point], inside the
    argument list of a call. *)
Definition python_view (n point : Z) : View :=
  mkView 1 (Some "/home/user/a.py") n [mkRegion point point]
         (fun _ => "f(x)")
         (fun _ selector => (selector =? "meta.function-call.python")%string).

(** The same with the caret outside any call. *)
Definition python_view_outside (n point : Z) : View :=
  mkView 1 (Some "/home/user/a.py") n [mkRegion point point]
         (fun _ => "x = 1")
         (fun _ _ => false).

Definition small_view : View := python_view 100 5.
Definition oversized_view : View := python_view (Z.shiftl 1 20 + 1) 5.

Definition fetch_data (view : View) (location : Z) : FetchData :=
  mkFetchData "/home/user/a.py" "sublime3" (whole_text view) location.

(** The world once a signatures fetch for [small_view] has come back with
    [call_f]. *)
Definition world_with_signatures : World :=
  run_op (H := scenario_host)
         (RunRequestSignatures small_view (fetch_data small_view 5)
                               (Responded (mkResponse 200) signatures_body))
         init_world.

(** The world once a completions fetch at location 5 has come back with
    [item_foo], and once it has come back with no entries. *)
Definition world_with_completions : World :=
  run_op (H := scenario_host)
         (RunRequestCompletions small_view (fetch_data small_view 5)
                                (Responded (mkResponse 200) completions_body))
         init_world.

Definition world_with_no_completions : World :=
  run_op (H := scenario_host)
         (RunRequestCompletions small_view (fetch_data small_view 5)
                                (Responded (mkResponse 200) no_completions_body))
         init_world.

(** The world once it has come back with the entry that has no hint. *)
Definition world_with_hintless_entry : World :=
  run_op (H := scenario_host)
         (RunRequestCompletions small_view (fetch_data small_view 5)
                                (Responded (mkResponse 200) hintless_body))
         init_world.

End Scenario.

(* ================================================================== *)
(** * Further predicates and data *)
(* ================================================================== *)

(** The value of [o[k1][k2]...], which does not depend on the world. *)
Fixpoint getpath_value (o : json) (path : list string) : outcome json :=
  match path with
  | [] => Ret o
  | k :: rest =>
      match py_getitem o k with
      | Ret v => getpath_value v rest
      | Raise e => Raise e
      end
  end.

(** The other kind of edit. *)
Definition mirrored (t : edit_type) : edit_type :=
  match t with insertion => deletion | deletion => insertion end.

(** [events] were added to the history of [w] and nothing else changed. *)
Definition added (events : list Event) (w : World) : World :=
  set_trace (trace w ++ events)%list w.

(** [param['language_details']['python']['keyword_only']] *)
Definition keyword_only_flag (param : json) : outcome json :=
  getpath_value param ["language_details"; "python"; "keyword_only"].

(** The truth value of that flag; false for a parameter that has none. *)
Definition is_keyword_only (param : json) : bool :=
  match keyword_only_flag param with
  | Ret v => truthy v
  | Raise _ => false
  end.

Definition is_positional (param : json) : bool := negb (is_keyword_only param).

Definition has_keyword_only_flag (param : json) : Prop :=
  exists v, keyword_only_flag param = Ret v.

(** A function object after the two groups have been filled from
    [params]. *)
Definition with_groups (positional keyword_only : list json)
  (func : list (string * json)) : json :=
  JDict (dict_set "keyword_only_parameters" (JList keyword_only)
           (dict_set "positional_parameters" (JList positional) func)).

(** The places in a call that [_request_signatures] reads and writes. *)
Definition function_path : list string := ["callee"; "details"; "function"].
Definition constructor_path : list string :=
  ["callee"; "details"; "type"; "language_details"; "python"; "constructor"].
Definition in_kwargs_path : list string :=
  ["language_details"; "python"; "in_kwargs"].

(** What [_kwarg_highlighted] returns while signatures are active, for the
    ['in_kwargs'] and the ['arg_index'] of the active call. *)
Definition highlighted (in_kwargs arg_index : json) : json :=
  if truthy in_kwargs
  then JBool (negb (py_eq_int arg_index (-1) (-1)%float))
  else in_kwargs.

(** The popup content [_render] produces for [call] then. *)
Definition panel `{Host} (in_kwargs arg_index call : json) : string :=
  render_signature_panel
    (mkSigOpts (settings_get "show_popular_patterns")
               (settings_get "show_keyword_arguments")
               (highlighted in_kwargs arg_index)
               (keymap_get "toggle_keyword_arguments")
               (keymap_get "toggle_popular_patterns"))
    call.

(** The popup content for the stored call of [w]; empty when the call has
    not what rendering reads. *)
Definition stored_panel `{Host} (w : World) : string :=
  match getpath_value (SH_call w) in_kwargs_path,
        py_getitem (SH_call w) "arg_index" with
  | Ret in_kwargs, Ret arg_index => panel in_kwargs arg_index (SH_call w)
  | _, _ => ""
  end.

(** What the first part of [_rerender] gives and leaves in a state that is
    ready: it skips when the lock is held. *)
Definition rerender_content `{Host} (w : World) : option string :=
  if SH_lock w then None
  else if SH_activated w then Some (stored_panel w) else None.

Definition rerender_released (w : World) : World :=
  if SH_lock w then w else added [Acquire; Release] w.

(** [call] has what rendering reads from the active call. *)
Definition renders (call : json) : Prop :=
  exists in_kwargs arg_index,
    getpath_value call in_kwargs_path = Ret in_kwargs /\
    py_getitem call "arg_index" = Ret arg_index.

(** While signatures are active there is a view to show them on and a call
    that renders. *)
Definition signatures_ready (w : World) : Prop :=
  SH_activated w = true -> SH_view w <> None /\ renders (SH_call w).

(** From [w0] to [w] the signatures state and its lock are the same and
    nothing the user can see was done. *)
Definition signatures_untouched (w0 w : World) : Prop :=
  SH_activated w = SH_activated w0 /\ SH_view w = SH_view w0 /\
  SH_call w = SH_call w0 /\ SH_lock w = SH_lock w0 /\
  exists events,
    trace w = (trace w0 ++ events)%list /\ filter user_visible events = [].

(** [m] keeps [I] whenever it ends in an exception. *)
Definition raises_clean {A : Type} (I : World -> Prop) (m : M A) : Prop :=
  forall w, I w -> forall e w', m w = (Raise e, w') -> I w'.

(** [m] never ends in an exception. *)
Definition returns {A : Type} (m : M A) : Prop :=
  forall w, exists a w', m w = (Ret a, w').

(** The state of SignaturesHandler is ready and its lock is [held]. *)
Definition ready_with_lock (held : bool) (w : World) : Prop :=
  signatures_ready w /\ SH_lock w = held.

(** A signatures fetch whose response passes the status test. *)
Definition signatures_answered (op : Op) : bool :=
  match op with
  | RunRequestSignatures _ _ (Responded resp body) =>
      (status resp =? 200) && negb (not_body body)
  | _ => false
  end.

Definition signatures_inactive (w : World) : Prop := SH_activated w = false.

(* ================================================================== *)
(** * Clicks on the links of a popup *)
(* ================================================================== *)

(** [s.startswith(p)] *)
Definition startswith (s p : string) : bool := prefix p s.

(** [s.find(c)] for a one-character [c]: where [c] first occurs, or -1. *)
Fixpoint find_char (c : ascii) (s : string) : Z :=
  match s with
  | "" => -1
  | String x s' =>
      if Ascii.eqb x c then 0
      else let r := find_char c s' in
           if r =? -1 then -1 else r + 1
  end.

(** [s.rfind(c)] for a one-character [c]: where [c] last occurs, or -1. *)
Fixpoint rfind_char (c : ascii) (s : string) : Z :=
  match s with
  | "" => -1
  | String x s' =>
      let r := rfind_char c s' in
      if r =? -1 then (if Ascii.eqb x c then 0 else -1) else r + 1
  end.

(** [s[:n]] and [s[n:]] for an index [n] that is not negative, the only
    ones the handlers take. *)
Definition slice_to (n : Z) (s : string) : string :=
  substring 0 (Z.to_nat n) s.
Definition slice_from (n : Z) (s : string) : string :=
  substring (Z.to_nat n) (String.length s - Z.to_nat n) s.

Definition is_digit (c : ascii) : bool :=
  let n := nat_of_ascii c in ((48 <=? n) && (n <=? 57))%nat.

Fixpoint all_digits (s : string) : bool :=
  match s with
  | "" => true
  | String c s' => is_digit c && all_digits s'
  end.

(** [s.isdigit()], for text in ASCII. *)
Definition isdigit (s : string) : bool :=
  match s with
  | "" => false
  | _ => all_digits s
  end.

(** What a click handler calls besides [_rerender]. *)
Inductive LinkCall : Type :=
| SettingsSet (key : string) (value : bool)
    (* settings.set(key, value) *)
| OpenBrowser (ident : string)
    (* link_opener.open_browser(ident) *)
| OpenCopilot (ident : string)
    (* link_opener.open_copilot(ident) *)
| OpenFile (dest : string)
    (* sublime.active_window().open_file(dest, flags=sublime.ENCODED_POSITION) *)
| LogInvalidLink (target : string)
    (* logger.log('invalid open link format: {}'.format(target)) *)
| LogInvalidDefinition (target : string).
    (* logger.log('invalid open definition format: {}'.format(target)) *)

(** The world together with the calls the click handlers made, oldest
    first. *)
Record Desk : Type := mkDesk {
  desk_world : World;
  desk_calls : list LinkCall
}.

Definition ML (A : Type) : Type := Desk -> outcome A * Desk.

Definition call_out (c : LinkCall) : ML unit :=
  fun d => (Ret tt, mkDesk (desk_world d) (desk_calls d ++ [c])%list).

Definition then_ {A B : Type} (m : ML A) (k : ML B) : ML B :=
  fun d => match m d with
           | (Ret _, d') => k d'
           | (Raise e, d') => (Raise e, d')
           end.

Definition done : ML unit := fun d => (Ret tt, d).

(** A handler of the world, run on the desk. *)
Definition on_world {A : Type} (m : M A) : ML A :=
  fun d => (fst (m (desk_world d)), mkDesk (snd (m (desk_world d))) (desk_calls d)).

(** The part both click handlers share: 'open_browser:ident' and
    'open_copilot:ident'. *)
Definition open_link (target : string) : ML unit :=
  let idx := find_char ":"%char target in
  if idx =? -1 then call_out (LogInvalidLink target)
  else
    let action := slice_to idx target in
    let ident := slice_from (idx + 1) target in
    if (action =? "open_browser")%string
    then call_out (OpenBrowser ident)
    else call_out (OpenCopilot ident).

Module SignaturesLinks.
Section WithSettings.

(** The host as it is once the given calls have been made: [settings.set]
    is not part of the module, and what [settings.get] answers after it is
    left open. *)
Variable host_after : list LinkCall -> Host.

(** What other threads do to the world while [_rerender] is between the
    release of the lock and the popup. *)
Variable others : World -> World.

(** [cls._rerender()], with the settings as they are by now. *)
Definition rerender : ML unit :=
  fun d =>
    on_world (SignaturesHandler._rerender_amid
                (H := host_after (desk_calls d)) others) d.

Definition _handle_link_click (target : string) : ML unit :=
  if (target =? "hide_popular_patterns")%string
  then then_ (call_out (SettingsSet "show_popular_patterns" false)) rerender
  else if (target =? "show_popular_patterns")%string
  then then_ (call_out (SettingsSet "show_popular_patterns" true)) rerender
  else if (target =? "hide_keyword_arguments")%string
  then then_ (call_out (SettingsSet "show_keyword_arguments" false)) rerender
  else if (target =? "show_keyword_arguments")%string
  then then_ (call_out (SettingsSet "show_keyword_arguments" true)) rerender
  else if startswith target "open_browser" || startswith target "open_copilot"
  then open_link target
  else done.

End WithSettings.
End SignaturesLinks.

Module HoverLinks.

Definition _handle_link_click (target : string) : ML unit :=
  if startswith target "open_browser" || startswith target "open_copilot"
  then open_link target
  else if startswith target "open_definition"
  then
    let idx := find_char ":"%char target in
    if idx =? -1 then call_out (LogInvalidDefinition target)
    else
      let dest := slice_from (idx + 1) target in
      if negb (isdigit (slice_from (rfind_char ":"%char dest + 1) dest))
      then call_out (LogInvalidDefinition target)
      else call_out (OpenFile dest)
  else done.

End HoverLinks.

(* ================================================================== *)
(** * More views, more answers, and a desk to click on *)
(* ================================================================== *)

Module Session.

(** A Python file with two carets, and a file that is not Python. *)
Definition two_caret_view : View :=
  mkView 2 (Some "/home/user/a.py") 100 [mkRegion 5 5; mkRegion 9 9]
         (fun _ => "f(x)")
         (fun _ selector => (selector =? "meta.function-call.python")%string).

Definition text_view : View :=
  mkView 3 (Some "/home/user/notes.txt") 100 [mkRegion 5 5]
         (fun _ => "notes")
         (fun _ _ => false).

(** A hover response for the function [f]. *)
Definition hover_symbol : list (string * json) :=
  [("name", JStr "f"); ("value", JList [JDict [("kind", JStr "function")]])].

Definition hover_report : json := JDict [("description_text", JStr "adds")].

Definition hover_response : json :=
  JDict [("symbol", JList [JDict hover_symbol]); ("report", hover_report)].

Definition hover_body : bytes :=
  Scenario.json_text
    ("{'symbol':[{'name':'f','value':[{'kind':'function'}]}]," ++
     "'report':{'description_text':'adds'}}").

(** A status response, and two signatures responses without a call. *)
Definition status_response : json := JDict [("status", JStr "ready")].
Definition status_body : bytes := Scenario.json_text "{'status':'ready'}".

Definition no_calls_response : json := JDict [("calls", JNull)].
Definition no_calls_body : bytes := Scenario.json_text "{'calls':null}".

Definition bare_response : json := JDict [].
Definition bare_body : bytes := Scenario.json_text "{}".

(** One call of the class [C(x, *, key)]: the callee is a type, which has
    its constructor and no function object. *)
Definition call_C : json :=
  JDict [("callee",
          JDict [("kind", JStr "type");
                 ("details",
                  JDict [("type",
                          JDict [("language_details",
                                  JDict [("python",
                                          JDict [("constructor",
                                                  JDict [("parameters",
                                                          JList [Scenario.call_parameter "x" false;
                                                                 Scenario.call_parameter "key" true])])])])])])]);
         ("language_details", JDict [("python", JDict [("in_kwargs", JBool false)])]);
         ("arg_index", JInt 0)].

Definition type_response : json := JDict [("calls", JList [call_C])].

Definition type_body : bytes :=
  Scenario.json_text
    ("{'calls':[{'callee':{'kind':'type','details':{'type':" ++
     "{'language_details':{'python':{'constructor':{'parameters':[" ++
     "{'name':'x','language_details':{'python':{'keyword_only':false}}}," ++
     "{'name':'key','language_details':{'python':{'keyword_only':true}}}" ++
     "]}}}}}}," ++
     "'language_details':{'python':{'in_kwargs':false}},'arg_index':0}]}").

(** A body that is no JSON. *)
Definition broken_body : bytes := Scenario.json_text "<html>".

(** The host of [Scenario], which now decodes these bodies as well. *)
Definition session_host : Host := {|
  realpath := fun p => p;
  json_loads := fun body =>
    if Scenario.same_bytes body hover_body then inr hover_response
    else if Scenario.same_bytes body status_body then inr status_response
    else if Scenario.same_bytes body no_calls_body then inr no_calls_response
    else if Scenario.same_bytes body bare_body then inr bare_response
    else if Scenario.same_bytes body type_body then inr type_response
    else json_loads (Host := Scenario.scenario_host) body;
  py_str := Scenario.str_of;
  py_capitalize := fun s => s;
  md5_hexdigest := md5_hexdigest (Host := Scenario.scenario_host);
  settings_get := settings_get (Host := Scenario.scenario_host);
  keymap_get := keymap_get (Host := Scenario.scenario_host);
  render_signature_panel :=
    render_signature_panel (Host := Scenario.scenario_host);
  render_hover_panel := fun symbol _ =>
    match py_getitem symbol "hint" with
    | Ret (JStr hint) => ("<div>" ++ hint ++ "</div>")%string
    | _ => "<div></div>"
    end
|}.

(** Settings that answer with what was set last, True before that; the
    panel shows the popular patterns when their setting says so. *)
Fixpoint setting_after (key : string) (calls : list LinkCall) (value : json)
  : json :=
  match calls with
  | [] => value
  | SettingsSet k v :: rest =>
      setting_after key rest (if (k =? key)%string then JBool v else value)
  | _ :: rest => setting_after key rest value
  end.

Definition host_after_clicks (calls : list LinkCall) : Host := {|
  realpath := fun p => p;
  json_loads := json_loads (Host := Scenario.scenario_host);
  py_str := Scenario.str_of;
  py_capitalize := fun s => s;
  md5_hexdigest := md5_hexdigest (Host := Scenario.scenario_host);
  settings_get := fun key => setting_after key calls (JBool true);
  keymap_get := keymap_get (Host := Scenario.scenario_host);
  render_signature_panel := fun opts _ =>
    if truthy (show_popular_patterns opts)
    then "<div>f(x, *, key)<ul>f(1, key=2)</ul></div>"
    else "<div>f(x, *, key)</div>";
  render_hover_panel := render_hover_panel (Host := Scenario.scenario_host)
|}.

(** The signatures popup of [Scenario] is up and nothing was clicked yet. *)
Definition desk : Desk := mkDesk Scenario.world_with_signatures [].

End Session.
(* ================================================================== *)
(** * Properties *)
(* ================================================================== *)

Unset Implicit Arguments.

(** ** The edit classifier *)

Lemma same_file_true (f g : option string) : same_file f g = true <-> f = g.
Proof.
  destruct f as [x|], g as [y|]; simpl; split; intro E;
    try discriminate; try reflexivity.
  - apply String.eqb_eq in E. now subst.
  - injection E as ->. apply String.eqb_refl.
Qed.

Lemma same_file_false (f g : option string) : same_file f g = false <-> f <> g.
Proof.
  rewrite <- same_file_true. destruct (same_file f g); split; congruence.
Qed.

(** C4. [_edit_info] is a function of its two regions alone.  It answers
    (None, None) when a region is absent or the files differ; for two
    regions of one file it answers insertion with [current.end -
    previous.end] when the end moved right, deletion with [previous.end -
    current.end] when it moved left, and (None, None) when it stayed. *)
Theorem edit_info_classifies (previous current : option ViewRegion) :
  (previous = None \/ current = None ->
   EventDispatcher._edit_info previous current = (None, None)) /\
  (forall p c, previous = Some p -> current = Some c ->
     (vr_file p <> vr_file c ->
      EventDispatcher._edit_info previous current = (None, None)) /\
     (vr_file p = vr_file c -> vr_end c > vr_end p ->
      EventDispatcher._edit_info previous current
      = (Some insertion, Some (vr_end c - vr_end p))) /\
     (vr_file p = vr_file c -> vr_end c < vr_end p ->
      EventDispatcher._edit_info previous current
      = (Some deletion, Some (vr_end p - vr_end c))) /\
     (vr_file p = vr_file c -> vr_end c = vr_end p ->
      EventDispatcher._edit_info previous current = (None, None))).
Proof.
  split.
  - intros [-> | ->]; [reflexivity | now destruct previous].
  - intros p c -> ->. unfold EventDispatcher._edit_info. rewrite Z.gtb_ltb.
    destruct (same_file (vr_file p) (vr_file c)) eqn:F; cbn [negb].
    + apply same_file_true in F.
      repeat split; intros;
        destruct (Z.ltb_spec (vr_end p) (vr_end c)),
                 (Z.ltb_spec (vr_end c) (vr_end p));
        try lia; try contradiction; reflexivity.
    + apply same_file_false in F.
      repeat split; intros; try contradiction; reflexivity.
Qed.

Lemma edit_info_classifies_witness :
  let a10 := mkViewRegion (Some "a.py") 10 10 in
  let a11 := mkViewRegion (Some "a.py") 11 11 in
  let a20 := mkViewRegion (Some "a.py") 20 20 in
  let a15 := mkViewRegion (Some "a.py") 15 15 in
  let b11 := mkViewRegion (Some "b.py") 11 11 in
  EventDispatcher._edit_info None (Some a11) = (None, None) /\
  EventDispatcher._edit_info (Some a10) (Some b11) = (None, None) /\
  EventDispatcher._edit_info (Some a10) (Some a11) = (Some insertion, Some 1) /\
  EventDispatcher._edit_info (Some a20) (Some a15) = (Some deletion, Some 5) /\
  EventDispatcher._edit_info (Some a10) (Some a10) = (None, None).
Proof.
  intros a10 a11 a20 a15 b11.
  refine (conj _ (conj _ (conj _ (conj _ _)))).
  - destruct (edit_info_classifies None (Some a11)) as [absent _].
    apply absent. left. reflexivity.
  - destruct (edit_info_classifies (Some a10) (Some b11)) as [_ present].
    destruct (present a10 b11 eq_refl eq_refl) as (differ & _).
    apply differ. discriminate.
  - destruct (edit_info_classifies (Some a10) (Some a11)) as [_ present].
    destruct (present a10 a11 eq_refl eq_refl) as (_ & longer & _).
    apply longer; [reflexivity | simpl; lia].
  - destruct (edit_info_classifies (Some a20) (Some a15)) as [_ present].
    destruct (present a20 a15 eq_refl eq_refl) as (_ & _ & shorter & _).
    apply shorter; [reflexivity | simpl; lia].
  - destruct (edit_info_classifies (Some a10) (Some a10)) as [_ present].
    destruct (present a10 a10 eq_refl eq_refl) as (_ & _ & _ & same).
    apply same; reflexivity.
Defined.

(** ** Rules for what a handler keeps *)

Section Rules.
Variable I : World -> Prop.

Lemma pres_ret {A : Type} (a : A) : pres I (ret a).
Proof. intros w Hw. exact Hw. Qed.

Lemma pres_raise {A : Type} (e : exn) : pres I (raise (A := A) e).
Proof. intros w Hw. exact Hw. Qed.

Lemma pres_lift {A : Type} (o : outcome A) : pres I (lift o).
Proof. intros w Hw. exact Hw. Qed.

Lemma pres_gets {A : Type} (f : World -> A) : pres I (gets f).
Proof. intros w Hw. exact Hw. Qed.

Lemma pres_bind {A B : Type} (m : M A) (f : A -> M B) :
  pres I m -> (forall a, pres I (f a)) -> pres I (bind m f).
Proof.
  intros Hm Hf w Hw. unfold world_after, bind.
  specialize (Hm w Hw). unfold world_after in Hm.
  destruct (m w) as [[a|e] w']; cbn in *; [ apply Hf; exact Hm | exact Hm ].
Qed.

(** The same, with the value [m] returned known to the rest. *)
Lemma pres_bind_lift {A B : Type} (o : outcome A) (f : A -> M B) :
  (forall a, o = Ret a -> pres I (f a)) -> pres I (bind (lift o) f).
Proof.
  intros Hf w Hw. unfold world_after, bind, lift.
  destruct o as [a|e]; cbn; [ apply (Hf a eq_refl); exact Hw | exact Hw ].
Qed.

Lemma pres_try_except {A : Type} (m : M A) (h : exn -> option (M A)) :
  pres I m -> (forall e k, h e = Some k -> pres I k) ->
  pres I (try_except m h).
Proof.
  intros Hm Hh w Hw. unfold world_after, try_except.
  specialize (Hm w Hw). unfold world_after in Hm.
  destruct (m w) as [[a|e] w']; cbn in *; [ exact Hm | ].
  destruct (h e) as [k|] eqn:E; cbn; [ apply (Hh e k E); exact Hm | exact Hm ].
Qed.

Lemma pres_when (b : bool) (m : M unit) : pres I m -> pres I (when b m).
Proof. destruct b; [ trivial | intros _; apply pres_ret ]. Qed.

Lemma pres_reads_only {A : Type} (m : M A) : reads_only m -> pres I m.
Proof. intros Hm w Hw. rewrite Hm. exact Hw. Qed.

End Rules.

Lemma reads_only_bind {A B : Type} (m : M A) (f : A -> M B) :
  reads_only m -> (forall a, reads_only (f a)) -> reads_only (bind m f).
Proof.
  intros Hm Hf w. unfold world_after, bind.
  specialize (Hm w). unfold world_after in Hm.
  destruct (m w) as [[a|e] w']; cbn in *; subst; [ apply Hf | reflexivity ].
Qed.

Lemma reads_only_lift {A : Type} (o : outcome A) : reads_only (lift o).
Proof. intros w. reflexivity. Qed.

Lemma reads_only_getpath (path : list string) :
  forall o, reads_only (getpath o path).
Proof.
  induction path as [|k rest IH]; intros o.
  - intros w. reflexivity.
  - cbn [getpath]. apply reads_only_bind; [ apply reads_only_lift | exact IH ].
Qed.

(** The value of a handler that only reads does not need its world. *)
Lemma reads_only_run {A : Type} (m : M A) (w : World) :
  reads_only m -> m w = (fst (m w), w).
Proof.
  intros Hm. specialize (Hm w). unfold world_after in Hm.
  destruct (m w) as [r w']. cbn in *. now subst.
Qed.

Section Purity.
Context `{Host}.

Lemma reads_only_partition_parameters (params : list json) :
  forall func, reads_only (SignaturesHandler.partition_parameters params func).
Proof.
  induction params as [|param rest IH]; intros func.
  - intros w. reflexivity.
  - cbn [SignaturesHandler.partition_parameters].
    apply reads_only_bind; [ apply reads_only_getpath | intros param_details ].
    apply reads_only_bind; [ apply reads_only_lift | intros keyword_only ].
    apply reads_only_bind; [ apply reads_only_lift | intros group ].
    destruct group; try (intros w; reflexivity).
    apply reads_only_bind; [ apply reads_only_lift | intros func' ].
    apply IH.
Qed.

Lemma reads_only_realpath_of (view : View) : reads_only (realpath_of view).
Proof. intros w. unfold realpath_of. now destruct (file_name view). Qed.

Lemma reads_only_loads (body : bytes) : reads_only (loads body).
Proof. intros w. unfold loads. now destruct (json_loads body). Qed.

Lemma reads_only_kwarg_highlighted :
  reads_only SignaturesHandler._kwarg_highlighted.
Proof.
  unfold SignaturesHandler._kwarg_highlighted.
  apply reads_only_bind; [ intros w; reflexivity | intros activated ].
  destruct activated; cbn [negb]; [ | intros w; reflexivity ].
  apply reads_only_bind; [ intros w; reflexivity | intros call ].
  apply reads_only_bind; [ apply reads_only_getpath | intros in_kwargs ].
  destruct (truthy in_kwargs); cbn [negb]; [ | intros w; reflexivity ].
  apply reads_only_bind; [ apply reads_only_lift | intros arg_index ].
  intros w; reflexivity.
Qed.

Lemma reads_only_render (call : json) :
  reads_only (SignaturesHandler._render call).
Proof.
  unfold SignaturesHandler._render.
  apply reads_only_bind; [ apply reads_only_kwarg_highlighted | intros h ].
  intros w; reflexivity.
Qed.

Lemma reads_only_completion_pair (c : json) :
  reads_only (CompletionsHandler.completion_pair c).
Proof.
  unfold CompletionsHandler.completion_pair.
  apply reads_only_bind; [ apply reads_only_lift | intros display ].
  apply reads_only_bind; [ apply reads_only_lift | intros hint ].
  apply reads_only_bind; [ apply reads_only_lift | intros insert ].
  intros w. reflexivity.
Qed.

Lemma reads_only_for_each (entries : list json) :
  reads_only (CompletionsHandler.for_each CompletionsHandler.completion_pair
                                          entries).
Proof.
  induction entries as [|c rest IH]; [ intros w; reflexivity | ].
  cbn [CompletionsHandler.for_each].
  apply reads_only_bind; [ apply reads_only_completion_pair | intros shown ].
  apply reads_only_bind; [ exact IH | intros others ].
  intros w. reflexivity.
Qed.

End Purity.

(** Takes a handler apart down to its writes and its calls out. *)
Ltac pres_step :=
  match goal with
  | |- pres _ (ret _) => apply pres_ret
  | |- pres _ (raise _) => apply pres_raise
  | |- pres _ (lift _) => apply pres_lift
  | |- pres _ (gets _) => apply pres_gets
  | |- pres _ (getpath _ _) => apply pres_reads_only, reads_only_getpath
  | |- pres _ (loads _) => apply pres_reads_only, reads_only_loads
  | |- pres _ (realpath_of _) => apply pres_reads_only, reads_only_realpath_of
  | |- pres _ (SignaturesHandler._render _) =>
      apply pres_reads_only, reads_only_render
  | |- pres _ (SignaturesHandler.partition_parameters _ _) =>
      apply pres_reads_only, reads_only_partition_parameters
  | |- pres _ (CompletionsHandler.for_each _ _) =>
      apply pres_reads_only, reads_only_for_each
  | |- pres _ (bind _ _) => apply pres_bind; [ | intros ? ]
  | |- pres _ (when _ _) => apply pres_when
  | |- pres _ (try_except _ _) =>
      apply pres_try_except;
      [ | let e := fresh "e" in let k := fresh "k" in let E := fresh "E" in
          intros e k E; destruct e; cbn in E; try discriminate E;
          injection E as <- ]
  | |- pres _ (if ?b then _ else _) => destruct b
  | |- pres _ (match ?x with _ => _ end) => destruct x
  end.

Ltac unfold_handlers :=
  unfold EventDispatcher.on_modified, EventDispatcher.on_selection_modified,
    EventDispatcher._handle, EventDispatcher._event_data,
    EventDispatcher.end_of, EventDispatcher.greater_than_1,
    CompletionsHandler.on_query_completions,
    CompletionsHandler.queue_completions, CompletionsHandler.hide_completions,
    CompletionsHandler._run_auto_complete, CompletionsHandler._event_data,
    CompletionsHandler._request_completions,
    SignaturesHandler.queue_signatures, SignaturesHandler.hide_signatures,
    SignaturesHandler.is_activated, SignaturesHandler._event_data,
    SignaturesHandler._request_signatures, SignaturesHandler._rerender,
    SignaturesHandler._rerender_content, SignaturesHandler._rerender_popup,
    SignaturesHandler.on_post_text_command,
    SignaturesHandler.try_acquire, SignaturesHandler.release,
    SignaturesHandler.set_activated, SignaturesHandler.set_view,
    SignaturesHandler.set_call,
    HoverHandler.on_hover, HoverHandler._event_url,
    HoverHandler._request_hover,
    StatusHandler._handle, StatusHandler.on_activated,
    StatusHandler.on_selection_modified, StatusHandler.capitalized,
    kited_post, kited_get, answer_of,
    defer, log, run_command, show_popup, hide_popup, set_status, erase_status.

Ltac pres_auto leaf :=
  repeat first [ pres_step | progress unfold_handlers | leaf ].

(** ** The completions cache *)

Section Completions.
Context `{Host}.

(** The label of an entry whose display and hint are texts. *)
Lemma brand_completion_labelled (display : string) (hint : option string) :
  CompletionsHandler._brand_completion
    (JStr display) (match hint with Some h => JStr h | None => JNull end)
  = labelled display hint.
Proof.
  unfold CompletionsHandler._brand_completion, labelled.
  destruct hint as [[|c h]|]; reflexivity.
Qed.

Lemma completion_pair_presented (c : json) (shown : string * json) (w : World) :
  presented c = Some shown ->
  CompletionsHandler.completion_pair c w = (Ret shown, w).
Proof.
  unfold presented, CompletionsHandler.completion_pair. intros found.
  destruct c as [| | | | | |fields]; try discriminate found.
  unfold bind, lift, ret. cbn [py_getitem].
  destruct (dict_get "display" fields) as [[| | | |display| |]|];
    try discriminate found.
  destruct (dict_get "hint" fields) as [[| | | |hint| |]|];
    try discriminate found;
    (destruct (dict_get "insert" fields) as [insert|];
     [ | discriminate found ]);
    injection found as <-.
  - now rewrite (brand_completion_labelled display None).
  - now rewrite (brand_completion_labelled display (Some hint)).
Qed.

Lemma completion_pair_error (c : json) (e : exn) (w : World) :
  entry_error c = Some e ->
  CompletionsHandler.completion_pair c w = (Raise e, w).
Proof.
  unfold entry_error, CompletionsHandler.completion_pair. intros failed.
  destruct c as [| | | | | |fields];
    try (injection failed as <-; reflexivity).
  unfold bind, lift, ret. cbn [py_getitem].
  destruct (dict_get "display" fields);
    [ | injection failed as <-; reflexivity ].
  destruct (dict_get "hint" fields);
    [ | injection failed as <-; reflexivity ].
  destruct (dict_get "insert" fields);
    [ discriminate failed | injection failed as <-; reflexivity ].
Qed.

Lemma completion_pair_no_error (c : json) (w : World) :
  entry_error c = None ->
  exists shown, CompletionsHandler.completion_pair c w = (Ret shown, w).
Proof.
  unfold entry_error, CompletionsHandler.completion_pair. intros fine.
  destruct c as [| | | | | |fields]; try discriminate fine.
  unfold bind, lift, ret. cbn [py_getitem].
  destruct (dict_get "display" fields); [ | discriminate fine ].
  destruct (dict_get "hint" fields); [ | discriminate fine ].
  destruct (dict_get "insert" fields); [ | discriminate fine ].
  eexists. reflexivity.
Qed.

Lemma for_each_presented (entries : list json) :
  forall (pairs : list (string * json)) (w : World),
    all_presented entries = Some pairs ->
    CompletionsHandler.for_each CompletionsHandler.completion_pair entries w
    = (Ret pairs, w).
Proof.
  induction entries as [|c rest IH]; intros pairs w found.
  - injection found as <-. reflexivity.
  - cbn [all_presented] in found.
    destruct (presented c) as [shown|] eqn:first; [ | discriminate found ].
    destruct (all_presented rest) as [others|]; [ | discriminate found ].
    injection found as <-.
    cbn [CompletionsHandler.for_each]. unfold bind at 1.
    rewrite (completion_pair_presented c shown w first).
    unfold bind at 1. rewrite (IH others w eq_refl). reflexivity.
Qed.

Lemma for_each_error (entries : list json) :
  forall (e : exn) (w : World),
    first_error entries = Some e ->
    CompletionsHandler.for_each CompletionsHandler.completion_pair entries w
    = (Raise e, w).
Proof.
  induction entries as [|c rest IH]; intros e w failed;
    [ discriminate failed | ].
  cbn [first_error] in failed.
  cbn [CompletionsHandler.for_each]. unfold bind at 1.
  destruct (entry_error c) as [e0|] eqn:first.
  - injection failed as <-.
    now rewrite (completion_pair_error c e0 w first).
  - destruct (completion_pair_no_error c w first) as [shown ran].
    rewrite ran. unfold bind at 1. now rewrite (IH e w failed).
Qed.

(** The world once the two assignments at the end of the locked section are
    done. *)
Lemma consume_run (view : View) (prefix : string) (location : Z) (w : World) :
  _is_view_supported view = true ->
  _check_view_size view = true ->
  let matching :=
    CompletionsHandler.at_location (CH_last_location w) location in
  let received := CH_received_completions w in
  let emptied w :=
    set_CH_last_location None (set_CH_received_completions (JList []) w) in
  CompletionsHandler.on_query_completions view prefix [location] w =
  if matching && truthy received
  then match py_iter received with
       | Ret entries =>
           match fst (CompletionsHandler.for_each
                        CompletionsHandler.completion_pair entries w) with
           | Ret pairs => (Ret (Some pairs), emptied w)
           | Raise e => (Raise e, w)
           end
       | Raise e => (Raise e, w)
       end
  else (Ret None,
        emptied (if negb matching && truthy received
                 then set_trace
                        (trace w ++ [Log (LocationMismatch (CH_last_location w)
                                                           location)])%list w
                 else w)).
Proof.
  intros supported size_ok matching received emptied.
  unfold CompletionsHandler.on_query_completions.
  rewrite supported, size_ok. cbn [negb].
  unfold bind at 1 2. unfold gets at 1 2. cbn [fst snd].
  fold matching. fold received.
  destruct matching; cbn [negb andb].
  - unfold when, bind at 1, ret at 1.
    destruct (truthy received); [ | reflexivity ].
    unfold bind, lift.
    destruct (py_iter received) as [entries|e]; [ | reflexivity ].
    rewrite (reads_only_run
               (CompletionsHandler.for_each CompletionsHandler.completion_pair
                                            entries)
               w (reads_only_for_each entries)).
    destruct (fst (CompletionsHandler.for_each
                     CompletionsHandler.completion_pair entries w));
      reflexivity.
  - unfold when. destruct (truthy received); reflexivity.
Qed.

(** With nothing cached, a consume returns no items, whatever the view and
    the locations. *)
Lemma consume_nothing_cached (view : View) (prefix : string)
  (locations : list Z) (w : World) :
  CH_received_completions w = JList [] ->
  fst (CompletionsHandler.on_query_completions view prefix locations w)
  = Ret None.
Proof.
  intros empty. unfold CompletionsHandler.on_query_completions.
  destruct (_is_view_supported view) eqn:supported; [ | reflexivity ].
  destruct (_check_view_size view) eqn:size_ok; [ | reflexivity ].
  destruct locations as [|location [|]]; try reflexivity.
  cbn [negb].
  pose proof (consume_run view prefix location w supported size_ok) as ran.
  unfold CompletionsHandler.on_query_completions in ran.
  rewrite supported, size_ok in ran. cbn [negb] in ran.
  rewrite ran, empty. cbn [truthy]. now rewrite !andb_false_r.
Qed.

(** A consume that reaches the locked section and returns has emptied the
    cache. *)
Lemma consume_returned_resets (view : View) (prefix : string) (location : Z)
  (result : option (list (string * json))) (w : World) :
  _is_view_supported view = true ->
  _check_view_size view = true ->
  fst (CompletionsHandler.on_query_completions view prefix [location] w)
  = Ret result ->
  cache_empty
    (snd (CompletionsHandler.on_query_completions view prefix [location] w)).
Proof.
  intros supported size_ok.
  rewrite (consume_run view prefix location w supported size_ok).
  destruct (CompletionsHandler.at_location (CH_last_location w) location
            && truthy (CH_received_completions w));
    [ | intros _; split; reflexivity ].
  destruct (py_iter (CH_received_completions w)) as [entries|e];
    [ | discriminate ].
  destruct (fst (CompletionsHandler.for_each
                   CompletionsHandler.completion_pair entries w));
    [ intros _; split; reflexivity | discriminate ].
Qed.

(** What a consume at the cached location gives for entries that can all be
    presented, and for entries of which one cannot be read. *)
Lemma consume_presented (view : View) (prefix : string) (L : Z)
  (entries : list json) (pairs : list (string * json)) (w : World) :
  _is_view_supported view = true ->
  _check_view_size view = true ->
  CH_last_location w = Some L ->
  CH_received_completions w = JList entries ->
  entries <> [] ->
  all_presented entries = Some pairs ->
  CompletionsHandler.on_query_completions view prefix [L] w
  = (Ret (Some pairs),
     set_CH_last_location None (set_CH_received_completions (JList []) w)).
Proof.
  intros supported size_ok located cached some found.
  rewrite (consume_run view prefix L w supported size_ok).
  rewrite located, cached. unfold CompletionsHandler.at_location.
  rewrite Z.eqb_refl.
  destruct entries as [|c rest]; [ contradiction | ].
  cbn [truthy andb py_iter].
  now rewrite (for_each_presented (c :: rest) pairs w found).
Qed.

Lemma consume_error (view : View) (prefix : string) (L : Z)
  (entries : list json) (e : exn) (w : World) :
  _is_view_supported view = true ->
  _check_view_size view = true ->
  CH_last_location w = Some L ->
  CH_received_completions w = JList entries ->
  first_error entries = Some e ->
  CompletionsHandler.on_query_completions view prefix [L] w = (Raise e, w).
Proof.
  intros supported size_ok located cached failed.
  rewrite (consume_run view prefix L w supported size_ok).
  rewrite located, cached. unfold CompletionsHandler.at_location.
  rewrite Z.eqb_refl.
  destruct entries as [|c rest]; [ discriminate failed | ].
  cbn [truthy andb py_iter].
  now rewrite (for_each_error (c :: rest) e w failed).
Qed.

Lemma pres_cache_empty_emit (e : Event) : pres cache_empty (emit e).
Proof. intros w Hw. exact Hw. Qed.

Ltac cache_leaf :=
  idtac;
  match goal with
  | |- pres cache_empty (emit _) => apply pres_cache_empty_emit
  | |- pres cache_empty (modify _) =>
      let w := fresh "w" in
      intros w [? ?]; split; cbn; solve [ assumption | reflexivity ]
  end.

(** Only a fetch that gets to its store can fill the cache. *)
Lemma run_op_keeps_cache_empty (op : Op) :
  fetch_completes op = false -> pres cache_empty (fun w => (Ret tt, run_op op w)).
Proof.
  intros quiet w Hw. unfold world_after. cbn [snd].
  destruct op; cbn [run_op];
    try (revert w Hw;
         match goal with
         | |- forall w, _ -> cache_empty (world_after ?m w) =>
             change (pres cache_empty m)
         end;
         pres_auto cache_leaf; fail).
  - (* a completions fetch that does not store *)
    destruct answer as [resp body | | msg]; try exact Hw.
    cbn [fetch_completes] in quiet.
    unfold world_after, CompletionsHandler._request_completions, kited_post,
      answer_of, try_except, bind, emit, modify, ret, raise, log, loads, lift.
    cbn.
    destruct (status resp =? 200), (not_body body); cbn in *; try exact Hw.
    destruct (json_loads body) as [msg|resp_data]; cbn in *; [ exact Hw | ].
    destruct (py_getitem resp_data "completions") as [stored|e]; cbn in *;
      [ discriminate quiet | ].
    destruct e; exact Hw.
  - exact Hw.
Qed.

Lemma run_ops_keep_cache_empty (ops : list Op) :
  forallb (fun op => negb (fetch_completes op)) ops = true ->
  forall w, cache_empty w -> cache_empty (run_ops ops w).
Proof.
  unfold run_ops.
  induction ops as [|op ops IH]; cbn [forallb fold_left]; intros quiet w Hw.
  - exact Hw.
  - apply andb_prop in quiet. destruct quiet as [quiet_op quiet_ops].
    apply (IH quiet_ops).
    apply (run_op_keeps_cache_empty op); [ | exact Hw ].
    now destruct (fetch_completes op).
Qed.

(** C6, as the code has it.  When the cache holds items at location L, each
    an object with a display text, a hint (a text or null) and an
    insertion, a consume at L on a supported view of permitted size returns
    those items, each as its label and its insertion, and leaves the cache
    empty with no location; a second consume at L that follows at once
    returns no items. *)
Theorem completions_cache_one_shot (view view' : View) (prefix prefix' : string)
  (L : Z) (entries : list json) (pairs : list (string * json)) (w : World) :
  _is_view_supported view = true ->
  _check_view_size view = true ->
  CH_received_completions w = JList entries ->
  entries <> [] ->
  CH_last_location w = Some L ->
  all_presented entries = Some pairs ->
  let first := CompletionsHandler.on_query_completions view prefix [L] w in
  fst first = Ret (Some pairs) /\
  List.length pairs = List.length entries /\
  CH_received_completions (snd first) = JList [] /\
  CH_last_location (snd first) = None /\
  fst (CompletionsHandler.on_query_completions view' prefix' [L] (snd first))
  = Ret None.
Proof.
  intros supported size_ok cached some_items located shown first.
  subst first.
  rewrite (consume_presented view prefix L entries pairs w
             supported size_ok located cached some_items shown).
  cbn [fst snd].
  refine (conj eq_refl (conj _ (conj eq_refl (conj eq_refl _)))).
  - clear - shown. revert pairs shown.
    induction entries as [|c rest IH]; intros pairs shown.
    + injection shown as <-. reflexivity.
    + cbn [all_presented] in shown.
      destruct (presented c); [ | discriminate shown ].
      destruct (all_presented rest) as [others|]; [ | discriminate shown ].
      injection shown as <-. cbn [List.length]. now rewrite (IH others).
  - apply consume_nothing_cached. reflexivity.
Qed.

(** C10 fails on an entry that cannot be read.  When the cache holds, at
    location L, a list with an entry that is not an object or that lacks
    ['display'], ['hint'] or ['insert'], a consume at L that reaches the
    locked section ends in the exception of the first such entry before the
    two assignments that empty the cache: the world is as it was, the cache
    and its location included, and the next consume at L ends in the same
    exception. *)
Theorem unreadable_entry_blocks_reset (view view' : View)
  (prefix prefix' : string) (L : Z) (entries : list json) (e : exn)
  (w : World) :
  _is_view_supported view = true ->
  _check_view_size view = true ->
  _is_view_supported view' = true ->
  _check_view_size view' = true ->
  CH_received_completions w = JList entries ->
  CH_last_location w = Some L ->
  first_error entries = Some e ->
  let first := CompletionsHandler.on_query_completions view prefix [L] w in
  first = (Raise e, w) /\
  (e = KeyError \/ e = TypeError) /\
  CH_received_completions (snd first) = JList entries /\
  CH_last_location (snd first) = Some L /\
  CompletionsHandler.on_query_completions view' prefix' [L] (snd first)
  = (Raise e, w).
Proof.
  intros supported size_ok supported' size_ok' cached located failed first.
  subst first.
  rewrite (consume_error view prefix L entries e w
             supported size_ok located cached failed).
  cbn [snd].
  refine (conj eq_refl (conj _ (conj cached (conj located _)))).
  - clear - failed. induction entries as [|c rest IH];
      [ discriminate failed | ].
    cbn [first_error] in failed.
    destruct (entry_error c) as [e0|] eqn:first; [ | exact (IH failed) ].
    injection failed as <-. unfold entry_error in first.
    destruct c as [| | | | | |fields];
      try (injection first as <-; now right).
    destruct (dict_get "display" fields), (dict_get "hint" fields),
             (dict_get "insert" fields);
      try discriminate first; injection first as <-; now left.
  - exact (consume_error view' prefix' L entries e w
             supported' size_ok' located cached failed).
Qed.

(** What a fetch does when the service answers 200 with a body that decodes
    to an object with ['completions']. *)
Lemma fetch_run (view : View) (data : FetchData) (resp : Response)
  (body : bytes) (resp_data stored : json) (w : World) :
  status resp = 200 ->
  body <> [] ->
  json_loads body = inr resp_data ->
  py_getitem resp_data "completions" = Ret stored ->
  CompletionsHandler._request_completions view data (Responded resp body) w =
  (Ret tt,
   set_trace (trace w ++ [HttpPost "/clientapi/editor/completions" data;
                          RunCommand view "auto_complete"])%list
     (set_CH_last_location (Some (fd_cursor_runes data))
        (set_CH_received_completions (or_empty_list stored) w))).
Proof.
  intros ok some_body decoded found.
  unfold CompletionsHandler._request_completions, kited_post, answer_of,
    try_except, bind, emit, modify, ret, CompletionsHandler._run_auto_complete,
    run_command, loads, lift.
  cbn. rewrite ok.
  destruct body as [|b bs]; [ contradiction | ]. cbn.
  rewrite decoded. cbn. rewrite found. cbn.
  unfold set_trace, set_CH_last_location, set_CH_received_completions. cbn.
  rewrite <- app_assoc. reflexivity.
Qed.

(** C2, as the code has it.  After a completions fetch has stored the
    entries it received for location L1, each an object with a display
    text, a hint (a text or null) and an insertion, a consume at location
    L2 (supported view of permitted size, one location) returns items if
    and only if L1 = L2 and the stored list is not empty, and then it
    returns the stored entries, each as its label and its insertion; when
    L1 and L2 differ it returns no items, and it logs the location mismatch
    exactly when the stored list is not empty. *)
Theorem completions_location_exact (fetch_view view : View) (data : FetchData)
  (resp : Response) (body : bytes) (resp_data stored : json)
  (entries : list json) (pairs : list (string * json))
  (prefix : string) (L2 : Z) (w : World) :
  status resp = 200 ->
  body <> [] ->
  json_loads body = inr resp_data ->
  py_getitem resp_data "completions" = Ret stored ->
  or_empty_list stored = JList entries ->
  all_presented entries = Some pairs ->
  _is_view_supported view = true ->
  _check_view_size view = true ->
  let L1 := fd_cursor_runes data in
  let fetched :=
    snd (CompletionsHandler._request_completions fetch_view data
                                                 (Responded resp body) w) in
  let consumed :=
    CompletionsHandler.on_query_completions view prefix [L2] fetched in
  (CH_received_completions fetched = JList entries /\
   CH_last_location fetched = Some L1) /\
  ((exists l, fst consumed = Ret (Some l)) <-> (L1 = L2 /\ entries <> [])) /\
  (L1 = L2 -> entries <> [] -> fst consumed = Ret (Some pairs)) /\
  (L1 <> L2 -> fst consumed = Ret None) /\
  (L1 <> L2 -> entries <> [] ->
   trace (snd consumed)
   = (trace fetched ++ [Log (LocationMismatch (Some L1) L2)])%list) /\
  (L1 = L2 \/ entries = [] -> trace (snd consumed) = trace fetched).
Proof.
  intros ok some_body decoded found listed shown supported size_ok
         L1 fetched consumed.
  subst consumed fetched.
  rewrite (fetch_run fetch_view data resp body resp_data stored w
             ok some_body decoded found).
  cbn [snd]. rewrite listed. rewrite consume_run by assumption.
  cbn [fst snd CH_received_completions CH_last_location set_trace
       set_CH_last_location set_CH_received_completions trace].
  fold L1. unfold CompletionsHandler.at_location.
  destruct (Z.eqb_spec L1 L2) as [same | differ];
    destruct entries as [|c cs] eqn:held;
    cbn [truthy andb negb py_iter];
    try rewrite (for_each_presented (c :: cs) pairs _ shown);
    cbn [fst snd CH_received_completions CH_last_location set_trace
         set_CH_last_location set_CH_received_completions trace];
    (split; [ split; reflexivity | ]);
    (split; [ split; [ intros [l E]; discriminate E || (split; [ assumption | discriminate ])
                     | intros [E1 E2]; try contradiction; eauto ] | ]);
    repeat split; intros; try contradiction; try reflexivity;
    try match goal with
        | D : _ \/ _ |- _ => destruct D; [ contradiction | discriminate ]
        end.
Qed.

End Completions.

Lemma completions_location_exact_witness :
  let fetched := Scenario.world_with_completions in
  let consumed :=
    CompletionsHandler.on_query_completions (H := Scenario.scenario_host)
      Scenario.small_view "fo" [5] fetched in
  CH_last_location fetched = Some 5 /\
  fst consumed
  = Ret (Some [("foo" ++ TAB ++ "function ⟠", JStr "foo()")%string]) /\
  fst (CompletionsHandler.on_query_completions (H := Scenario.scenario_host)
         Scenario.small_view "fo" [6] fetched) = Ret None.
Proof.
  pose proof (completions_location_exact (H := Scenario.scenario_host)
                Scenario.small_view Scenario.small_view
                (Scenario.fetch_data Scenario.small_view 5)
                (mkResponse 200) Scenario.completions_body
                Scenario.completions_response (JList [Scenario.item_foo])
                [Scenario.item_foo]
                [("foo" ++ TAB ++ "function ⟠", JStr "foo()")%string] "fo")
    as exact.
  split; [ reflexivity | split ].
  - apply (exact 5 init_world); try reflexivity; discriminate.
  - apply (exact 6 init_world); try reflexivity; discriminate.
Defined.

(** C2 as stated fails: a fetch that stored an empty list at location 5 is
    followed by a consume at location 5 that returns no items. *)
Lemma location_match_returns_nothing :
  let fetched := Scenario.world_with_no_completions in
  let consumed :=
    CompletionsHandler.on_query_completions (H := Scenario.scenario_host)
      Scenario.small_view "fo" [5] fetched in
  CH_last_location fetched = Some 5 /\
  fst consumed = Ret None /\
  ~ ((exists l, fst consumed = Ret (Some l)) <-> 5 = 5).
Proof.
  split; [ reflexivity | split; [ reflexivity | ] ].
  intros [_ returned]. destruct (returned eq_refl) as [l E].
  vm_compute in E. discriminate E.
Qed.

Lemma completions_cache_one_shot_witness :
  let w := Scenario.world_with_completions in
  let first :=
    CompletionsHandler.on_query_completions (H := Scenario.scenario_host)
      Scenario.small_view "fo" [5] w in
  fst first
  = Ret (Some [("foo" ++ TAB ++ "function ⟠", JStr "foo()")%string]) /\
  CH_received_completions (snd first) = JList [] /\
  CH_last_location (snd first) = None /\
  fst (CompletionsHandler.on_query_completions (H := Scenario.scenario_host)
         Scenario.small_view "fo" [5] (snd first)) = Ret None.
Proof.
  destruct (completions_cache_one_shot (H := Scenario.scenario_host)
              Scenario.small_view Scenario.small_view "fo" "fo" 5
              [Scenario.item_foo]
              [("foo" ++ TAB ++ "function ⟠", JStr "foo()")%string]
              Scenario.world_with_completions)
    as (returned & _ & no_items & no_location & second);
    try reflexivity; [ discriminate | ].
  exact (conj returned (conj no_items (conj no_location second))).
Defined.

(** C6 as stated fails: the cache holds an item at location 5, and a consume
    at location 5 on a view over the size ceiling returns no items and
    leaves the cache as it is. *)
Lemma oversized_consume_keeps_cache :
  let w := Scenario.world_with_completions in
  let first :=
    CompletionsHandler.on_query_completions (H := Scenario.scenario_host)
      Scenario.oversized_view "fo" [5] w in
  CH_received_completions w = JList [Scenario.item_foo] /\
  CH_last_location w = Some 5 /\
  fst first = Ret None /\
  CH_received_completions (snd first) = JList [Scenario.item_foo] /\
  CH_last_location (snd first) = Some 5 /\
  ~ (exists items, fst first = Ret (Some items)) /\
  ~ cache_empty (snd first).
Proof.
  repeat split; try reflexivity.
  - intros [items E]. discriminate E.
  - intros [E _]. discriminate E.
Qed.

Lemma unreadable_entry_blocks_reset_witness :
  let w := Scenario.world_with_hintless_entry in
  let first :=
    CompletionsHandler.on_query_completions (H := Scenario.scenario_host)
      Scenario.small_view "fo" [5] w in
  CH_received_completions w = JList [Scenario.item_without_hint] /\
  CH_last_location w = Some 5 /\
  first = (Raise KeyError, w) /\
  CompletionsHandler.on_query_completions (H := Scenario.scenario_host)
    Scenario.small_view "fo" [5] (snd first)
  = (Raise KeyError, w).
Proof.
  destruct (unreadable_entry_blocks_reset (H := Scenario.scenario_host)
              Scenario.small_view Scenario.small_view "fo" "fo" 5
              [Scenario.item_without_hint] KeyError
              Scenario.world_with_hintless_entry)
    as (raised & _ & _ & _ & again);
    try reflexivity.
  exact (conj eq_refl (conj eq_refl (conj raised again))).
Defined.

(** ** The signatures state *)

Lemma locked_writes_app (a b : list Event) :
  forall held,
    locked_writes held (a ++ b)
    = locked_writes held a && locked_writes (held_after held a) b.
Proof.
  induction a as [|e a IH]; intros held; [ reflexivity | ].
  destruct e; cbn [app locked_writes held_after]; rewrite ?IH;
    try reflexivity.
  now rewrite andb_assoc.
Qed.

Lemma pres_invariant_emit (e : Event) :
  (forall f, e <> Write f) -> pres signatures_invariant (emit e).
Proof.
  intros not_write w [Hcall Hlocked]. split; [ exact Hcall | ].
  unfold world_after, emit, modify. cbn.
  rewrite locked_writes_app, Hlocked.
  destruct e; try reflexivity. now elim (not_write f).
Qed.

Ltac invariant_leaf :=
  idtac;
  match goal with
  | |- pres signatures_invariant (emit _) =>
      apply pres_invariant_emit; intros ?; discriminate
  | |- pres signatures_invariant (modify _) =>
      let w := fresh "w" in
      let Hcall := fresh "Hcall" in
      let Hlocked := fresh "Hlocked" in
      intros w [Hcall Hlocked]; split; [ exact Hcall | exact Hlocked ]
  end.

(** What [hide_signatures] does: nothing when the lock is held elsewhere,
    the reset and the closing of the popup when it is free. *)
Lemma hide_signatures_run (view : View) (w : World) :
  SignaturesHandler.hide_signatures view w =
  (Ret tt,
   if SH_lock w then w
   else mkWorld (ED_last_selection_region w) (CH_received_completions w)
                (CH_last_location w) false None JNull false
                (trace w ++ [Acquire; Write F_activated; Write F_view;
                             Write F_call; Release; HidePopup view])%list).
Proof.
  unfold SignaturesHandler.hide_signatures, SignaturesHandler.try_acquire,
    SignaturesHandler.set_activated, SignaturesHandler.set_view,
    SignaturesHandler.set_call, SignaturesHandler.release, hide_popup, when,
    bind, gets, emit, modify, ret.
  destruct w as [a b c d e f lock tr]. destruct lock; cbn; [ reflexivity | ].
  unfold set_trace; cbn. rewrite <- !app_assoc. reflexivity.
Qed.

Lemma pres_invariant_hide_signatures (view : View) :
  pres signatures_invariant (SignaturesHandler.hide_signatures view).
Proof.
  intros w [Hcall Hlocked]. unfold world_after.
  rewrite hide_signatures_run. cbn [snd].
  destruct (SH_lock w); [ split; assumption | ].
  split.
  - unfold call_iff_activated. cbn. split; [ congruence | discriminate ].
  - cbn [trace]. rewrite locked_writes_app, Hlocked.
    now destruct (held_after false (trace w)).
Qed.

Section Signatures.
Context `{Host}.

(** The section of [_request_signatures] under the lock, followed by
    whatever the handler does with the rendered content. *)
Lemma pres_invariant_store (view : View) (call : json) (rest : option string -> M unit) :
  call <> JNull ->
  (forall content, pres signatures_invariant (rest content)) ->
  pres signatures_invariant
    (acquired <- SignaturesHandler.try_acquire ;;
     content <- (if acquired
                 then (SignaturesHandler.set_activated true ;;
                       SignaturesHandler.set_view (Some view) ;;
                       SignaturesHandler.set_call call ;;
                       content <- SignaturesHandler._render call ;;
                       SignaturesHandler.release ;;
                       ret (Some content))
                 else ret None) ;;
     rest content).
Proof.
  intros some_call Hrest w [Hcall Hlocked].
  unfold world_after, SignaturesHandler.try_acquire,
    SignaturesHandler.set_activated, SignaturesHandler.set_view,
    SignaturesHandler.set_call, SignaturesHandler.release.
  unfold bind at 1 2. unfold gets at 1. cbn [fst snd].
  destruct (SH_lock w) eqn:lock.
  - (* the lock is held elsewhere: nothing is stored *)
    cbn. apply (Hrest None). split; assumption.
  - unfold bind, emit, modify, ret. cbn.
    match goal with
    | |- context [SignaturesHandler._render call ?w1] =>
        rewrite (reads_only_run (SignaturesHandler._render call) w1
                                (reads_only_render call));
        destruct (fst (SignaturesHandler._render call w1)) as [content | e]
    end; cbn.
    + apply (Hrest (Some content)). split.
      * unfold call_iff_activated. cbn. split; [ reflexivity | intros _; exact some_call ].
      * cbn. rewrite <- !app_assoc. rewrite locked_writes_app, Hlocked.
        now destruct (held_after false (trace w)).
    + split.
      * unfold call_iff_activated. cbn. split; [ reflexivity | intros _; exact some_call ].
      * cbn. rewrite <- !app_assoc. rewrite locked_writes_app, Hlocked.
        now destruct (held_after false (trace w)).
Qed.

Lemma pres_invariant_try_acquire :
  pres signatures_invariant SignaturesHandler.try_acquire.
Proof.
  unfold SignaturesHandler.try_acquire.
  pres_auto invariant_leaf.
Qed.

Lemma pres_invariant_release :
  pres signatures_invariant SignaturesHandler.release.
Proof.
  unfold SignaturesHandler.release.
  pres_auto invariant_leaf.
Qed.

Ltac unfold_callers :=
  unfold EventDispatcher.on_modified, EventDispatcher.on_selection_modified,
    EventDispatcher._handle, EventDispatcher._event_data,
    EventDispatcher.end_of, EventDispatcher.greater_than_1,
    CompletionsHandler.on_query_completions,
    CompletionsHandler.queue_completions, CompletionsHandler.hide_completions,
    CompletionsHandler._run_auto_complete, CompletionsHandler._event_data,
    CompletionsHandler._request_completions,
    SignaturesHandler.queue_signatures,
    SignaturesHandler.is_activated, SignaturesHandler._event_data,
    SignaturesHandler._request_signatures, SignaturesHandler._rerender,
    SignaturesHandler._rerender_content, SignaturesHandler._rerender_popup,
    SignaturesHandler.on_post_text_command,
    HoverHandler.on_hover, HoverHandler._event_url,
    HoverHandler._request_hover,
    StatusHandler._handle, StatusHandler.on_activated,
    StatusHandler.on_selection_modified, StatusHandler.capitalized,
    kited_post, kited_get, answer_of,
    defer, log, run_command, show_popup, hide_popup, set_status, erase_status.

Ltac stored_call_not_None :=
  let E := fresh "E" in
  intros E;
  match goal with
  | fact : py_getitem _ "arg_index" = Ret _ |- _ =>
      rewrite E in fact; discriminate fact
  end.

Ltac invariant_auto :=
  repeat first
    [ apply pres_invariant_hide_signatures
    | apply pres_invariant_try_acquire
    | apply pres_invariant_release
    | apply pres_invariant_store; [ stored_call_not_None | intros ? ]
    | match goal with
      | |- pres _ (bind (lift _) _) => apply pres_bind_lift; intros ? ?
      end
    | pres_step
    | progress cbv zeta
    | progress unfold_callers
    | invariant_leaf ].

Lemma run_op_keeps_invariant (op : Op) (w : World) :
  signatures_invariant w -> signatures_invariant (run_op op w).
Proof.
  revert w.
  destruct op; cbn [run_op];
    try match goal with
        | |- forall w, _ -> signatures_invariant (world_after ?m w) =>
            change (pres signatures_invariant m)
        end;
    try (invariant_auto; fail).
  intros w Hw. exact Hw.
Qed.

(** C9. The state of SignaturesHandler obeys its invariant in every
    reachable state: the active call is not None exactly when the activated
    flag is true, and every write to the guarded attributes happens between
    taking the handler's lock and giving it back.  The invariant holds
    initially and is kept by a fetch that comes back (whatever the answer),
    by hide, by rerender and by every other entry point. *)
Theorem signatures_state_invariant :
  signatures_invariant init_world /\
  (forall view data answer w,
     signatures_invariant w ->
     signatures_invariant
       (world_after (SignaturesHandler._request_signatures view data answer) w)) /\
  (forall view w,
     signatures_invariant w ->
     signatures_invariant (world_after (SignaturesHandler.hide_signatures view) w)) /\
  (forall w,
     signatures_invariant w ->
     signatures_invariant (world_after SignaturesHandler._rerender w)) /\
  (forall op w, signatures_invariant w -> signatures_invariant (run_op op w)) /\
  (forall w, reachable w -> signatures_invariant w).
Proof.
  assert (initially : signatures_invariant init_world).
  { split; [ | reflexivity ].
    unfold call_iff_activated. cbn. split; [ congruence | discriminate ]. }
  refine (conj initially (conj _ (conj _ (conj _ (conj _ _))))).
  - intros view data answer.
    exact (run_op_keeps_invariant (RunRequestSignatures view data answer)).
  - intros view. apply pres_invariant_hide_signatures.
  - change (pres signatures_invariant SignaturesHandler._rerender).
    invariant_auto.
  - exact run_op_keeps_invariant.
  - intros w reached. induction reached as [|w op _ IH].
    + exact initially.
    + apply run_op_keeps_invariant. exact IH.
Qed.

(** What a fetch does when the service answers 400 or 404. *)
Lemma request_signatures_not_found (view : View) (data : FetchData)
  (resp : Response) (body : bytes) (w : World) :
  status resp = 400 \/ status resp = 404 ->
  SignaturesHandler._request_signatures view data (Responded resp body) w =
  SignaturesHandler.hide_signatures view
    (set_trace (trace w ++ [HttpPost "/clientapi/editor/signatures" data])%list
               w).
Proof.
  intros not_found.
  unfold SignaturesHandler._request_signatures, kited_post, answer_of.
  unfold bind at 1 2. unfold emit, modify, ret. cbn [fst snd status].
  destruct not_found as [E | E]; rewrite E; reflexivity.
Qed.

(** C3, as the code has it.  When a signatures fetch comes back with status
    400 or 404 and the handler's lock is free, the state becomes inactive
    (activated false, view and active call None) and the popup is hidden,
    whatever the state was; when the lock is held elsewhere the state is
    left as it was and no popup is hidden. *)
Theorem signatures_force_hide (view : View) (data : FetchData)
  (resp : Response) (body : bytes) (w : World) :
  status resp = 400 \/ status resp = 404 ->
  let after :=
    snd (SignaturesHandler._request_signatures view data
                                               (Responded resp body) w) in
  (SH_lock w = false ->
   SH_activated after = false /\ SH_view after = None /\
   SH_call after = JNull /\
   trace after
   = (trace w ++ [HttpPost "/clientapi/editor/signatures" data;
                  Acquire; Write F_activated; Write F_view; Write F_call;
                  Release; HidePopup view])%list) /\
  (SH_lock w = true ->
   after
   = set_trace (trace w ++ [HttpPost "/clientapi/editor/signatures" data])%list
               w).
Proof.
  intros not_found after. subst after.
  rewrite (request_signatures_not_found view data resp body w not_found).
  rewrite hide_signatures_run. cbn [snd SH_lock set_trace].
  split; intros lock; rewrite lock.
  - cbn. rewrite <- app_assoc. repeat split.
  - reflexivity.
Qed.

End Signatures.

Lemma signatures_state_invariant_witness :
  signatures_invariant Scenario.world_with_signatures /\
  SH_activated Scenario.world_with_signatures = true /\
  SH_call Scenario.world_with_signatures <> JNull.
Proof.
  split; [ | split; [ reflexivity | discriminate ] ].
  destruct (signatures_state_invariant (H := Scenario.scenario_host))
    as (_ & fetch & _).
  apply (fetch Scenario.small_view
               (Scenario.fetch_data Scenario.small_view 5)
               (Responded (mkResponse 200) Scenario.signatures_body)
               init_world).
  split; [ | reflexivity ].
  unfold call_iff_activated. cbn. split; [ congruence | discriminate ].
Defined.

Lemma signatures_force_hide_witness :
  let after :=
    snd (SignaturesHandler._request_signatures (H := Scenario.scenario_host)
           Scenario.small_view (Scenario.fetch_data Scenario.small_view 5)
           (Responded (mkResponse 404) [])
           Scenario.world_with_signatures) in
  SH_activated Scenario.world_with_signatures = true /\
  SH_activated after = false /\ SH_view after = None /\ SH_call after = JNull.
Proof.
  split; [ reflexivity | ].
  destruct (signatures_force_hide (H := Scenario.scenario_host)
              Scenario.small_view (Scenario.fetch_data Scenario.small_view 5)
              (mkResponse 404) [] Scenario.world_with_signatures)
    as [free _]; [ right; reflexivity | ].
  destruct (free eq_refl) as (inactive & no_view & no_call & _).
  exact (conj inactive (conj no_view no_call)).
Defined.

(** C3 as stated fails: with the lock held by another thread, a 404 leaves
    the signatures active and hides no popup. *)
Lemma force_hide_skipped_when_lock_held :
  let w := set_SH_lock true Scenario.world_with_signatures in
  let view := Scenario.small_view in
  let after :=
    snd (SignaturesHandler._request_signatures (H := Scenario.scenario_host)
           view (Scenario.fetch_data view 5)
           (Responded (mkResponse 404) []) w) in
  SH_activated after = true /\
  ~ (SH_activated after = false /\ SH_call after = JNull /\
     In (HidePopup view) (trace after)).
Proof.
  split; [ reflexivity | ].
  intros [inactive _]. vm_compute in inactive. discriminate inactive.
Qed.

(** ** Responses that are not a success *)

Lemma not_2xx_not_200 (s : Z) : is_2xx s = false -> (s =? 200) = false.
Proof.
  unfold is_2xx. intros E. destruct (Z.eqb_spec s 200) as [-> | _];
    [ discriminate E | reflexivity ].
Qed.

Lemma set_trace_nothing (w : World) : w = set_trace (trace w ++ [])%list w.
Proof. destruct w. unfold set_trace. cbn. now rewrite app_nil_r. Qed.

Section NonSuccess.
Context `{Host}.

(** C5, as the code has it.  A response whose status is not 2xx is dropped
    without a trace for the user by the completions fetch, by the
    signatures fetch when the status is neither 400 nor 404, and by the
    hover fetch: no attribute changes and nothing visible is done.  The
    status handler is different: on a supported view of permitted size it
    answers such a response by showing the status text 'Server error'. *)
Theorem non_success_responses (view : View) (data : FetchData) (point : Z)
  (resp : Response) (body : bytes) (w : World) :
  is_2xx (status resp) = false ->
  silent w (snd (CompletionsHandler._request_completions
                   view data (Responded resp body) w)) /\
  (status resp <> 400 -> status resp <> 404 ->
   silent w (snd (SignaturesHandler._request_signatures
                    view data (Responded resp body) w))) /\
  silent w (snd (HoverHandler._request_hover
                   view point (Responded resp body) w)) /\
  (_is_view_supported view = true -> _check_view_size view = true ->
   exists url,
     StatusHandler._handle view (Responded resp body) w
     = (Ret tt,
        set_trace (trace w ++ [HttpGet url;
                               SetStatus view "kite" "𝕜𝕚𝕥𝕖: Server error"])%list
                  w)).
Proof.
  intros failed. apply not_2xx_not_200 in failed.
  refine (conj _ (conj _ (conj _ _))).
  - exists [HttpPost "/clientapi/editor/completions" data].
    split; [ | reflexivity ].
    unfold CompletionsHandler._request_completions, kited_post, answer_of.
    unfold bind at 1 2. unfold emit, modify, ret. cbn [fst snd status].
    rewrite failed. reflexivity.
  - intros not_400 not_404.
    exists [HttpPost "/clientapi/editor/signatures" data].
    split; [ | reflexivity ].
    unfold SignaturesHandler._request_signatures, kited_post, answer_of.
    unfold bind at 1 2. unfold emit, modify, ret. cbn [fst snd status].
    rewrite failed.
    destruct (Z.eqb_spec (status resp) 400); [ contradiction | ].
    destruct (Z.eqb_spec (status resp) 404); [ contradiction | ].
    reflexivity.
  - unfold HoverHandler._request_hover, HoverHandler._event_url, realpath_of.
    destruct (file_name view) as [f|].
    + eexists [HttpGet _]. split; [ | reflexivity ].
      unfold kited_get, answer_of, bind, emit, modify, ret.
      cbn [fst snd status]. rewrite failed. reflexivity.
    + exists []. split; [ | reflexivity ]. cbn. apply set_trace_nothing.
  - intros supported size_ok.
    unfold StatusHandler._handle. rewrite supported, size_ok. cbn [negb].
    unfold _is_view_supported in supported.
    unfold realpath_of. destruct (file_name view) as [f|]; [ | discriminate ].
    eexists.
    unfold try_except, kited_get, answer_of, set_status, bind, emit, modify, ret.
    cbn [fst snd status]. rewrite failed. cbn.
    unfold set_trace. cbn. rewrite <- app_assoc. reflexivity.
Qed.

End NonSuccess.

Lemma non_success_responses_witness :
  let view := Scenario.small_view in
  let data := Scenario.fetch_data view 5 in
  let w := Scenario.world_with_signatures in
  silent w (snd (CompletionsHandler._request_completions
                   (H := Scenario.scenario_host) view data
                   (Responded (mkResponse 500) []) w)) /\
  silent w (snd (SignaturesHandler._request_signatures
                   (H := Scenario.scenario_host) view data
                   (Responded (mkResponse 500) []) w)) /\
  silent w (snd (HoverHandler._request_hover
                   (H := Scenario.scenario_host) view 5
                   (Responded (mkResponse 500) []) w)).
Proof.
  intros view data w.
  destruct (non_success_responses (H := Scenario.scenario_host)
              view data 5 (mkResponse 500) [] w eq_refl)
    as (completions & signatures & hover & _).
  refine (conj completions (conj _ hover)).
  apply signatures; discriminate.
Defined.

(** C5 as stated fails on the status endpoint: a 500 shows 'Server error' in
    the status bar. *)
Lemma server_error_is_shown :
  let view := Scenario.small_view in
  let after :=
    snd (StatusHandler._handle (H := Scenario.scenario_host) view
           (Responded (mkResponse 500) []) init_world) in
  is_2xx 500 = false /\
  trace after
  = [HttpGet "/clientapi/status?filename=/home/user/a.py";
     SetStatus view "kite" "𝕜𝕚𝕥𝕖: Server error"] /\
  ~ silent init_world after.
Proof.
  split; [ reflexivity | split; [ reflexivity | ] ].
  intros [events [same quiet]].
  apply (f_equal trace) in same. cbn in same. subst events.
  discriminate quiet.
Qed.

(** ** The dispatcher *)

Lemma supported_file_name (view : View) :
  _is_view_supported view = true ->
  exists f, file_name view = Some f /\ endswith f ".py" = true.
Proof.
  unfold _is_view_supported. destruct (file_name view) as [f|];
    [ intros E; exists f; split; [ reflexivity | exact E ] | discriminate ].
Qed.

Lemma oversized_check (view : View) :
  size view > Z.shiftl 1 20 -> _check_view_size view = false.
Proof. unfold _check_view_size. intros big. apply Z.leb_gt. lia. Qed.

Section Dispatcher.
Context `{Host}.

Lemma event_data_run (view : View) (f : string) (action : string) (w : World) :
  file_name view = Some f ->
  EventDispatcher._event_data view action w
  = (Ret (event_record view f action), w).
Proof.
  intros named. unfold EventDispatcher._event_data, realpath_of, event_record.
  rewrite named. unfold bind, ret.
  destruct (_check_view_size view); reflexivity.
Qed.

(** What a selection event does on a supported view with one caret. *)
Lemma handle_selection_run (view : View) (f : string) (r : Region) (w : World) :
  _is_view_supported view = true ->
  file_name view = Some f ->
  sel view = [r] ->
  let region := mkViewRegion (Some f) (region_begin r) (region_end r) in
  let w1 :=
    set_ED_last_selection_region (Some region)
      (set_trace (trace w ++ [Defer (TaskKitedPost "/clientapi/editor/event"
                                       (event_record view f "selection"))])%list
                 w) in
  EventDispatcher._handle view "selection" w =
  if _in_function_call view (region_end r)
  then if SH_activated w
       then (Ret tt,
             set_trace (trace w1 ++ [Defer (TaskRequestSignatures view
                                              (request_data view f (region_end r)))])%list
                       w1)
       else (Ret tt, w1)
  else SignaturesHandler.hide_signatures view w1.
Proof.
  intros supported named one_caret region w1.
  unfold EventDispatcher._handle. rewrite supported. cbn [negb].
  change ("selection" =? "selection")%string with true.
  change ("selection" =? "edit")%string with false.
  cbn [andb].
  unfold bind at 1. rewrite (event_data_run view f "selection" w named).
  unfold EventDispatcher._view_region. rewrite one_caret, named.
  fold region.
  unfold bind at 1. unfold defer, emit, modify at 1.
  unfold bind at 1 2. unfold modify at 1.
  unfold bind at 1. unfold EventDispatcher.end_of at 1. unfold ret at 1.
  cbn [vr_end region].
  destruct (_in_function_call view (region_end r)).
  - unfold SignaturesHandler.is_activated, SignaturesHandler.queue_signatures,
      SignaturesHandler._event_data, realpath_of, EventDispatcher.end_of,
      defer, emit.
    rewrite named. unfold bind, gets, modify, ret. cbn.
    destruct (SH_activated w); reflexivity.
  - rewrite !hide_signatures_run. unfold ret. reflexivity.
Qed.

(** C7, as the code has it.  On a selection event for a supported view
    with one caret the dispatcher hands the event record to the task queue
    and remembers the region; then, when the caret is inside a function
    call, it queues a signatures request at the caret if signatures are
    active and does nothing more if they are not; when the caret is not
    inside a function call, it calls [hide_signatures]. *)
Theorem selection_drives_signatures (view : View) (f : string) (r : Region)
  (w : World) :
  _is_view_supported view = true ->
  file_name view = Some f ->
  sel view = [r] ->
  let point := region_end r in
  let region := mkViewRegion (Some f) (region_begin r) (region_end r) in
  let w1 :=
    set_ED_last_selection_region (Some region)
      (set_trace (trace w ++ [Defer (TaskKitedPost "/clientapi/editor/event"
                                       (event_record view f "selection"))])%list
                 w) in
  (_in_function_call view point = true -> SH_activated w = true ->
   EventDispatcher._handle view "selection" w
   = (Ret tt,
      set_trace (trace w1 ++ [Defer (TaskRequestSignatures view
                                       (request_data view f point))])%list
                w1)) /\
  (_in_function_call view point = true -> SH_activated w = false ->
   EventDispatcher._handle view "selection" w = (Ret tt, w1)) /\
  (_in_function_call view point = false ->
   EventDispatcher._handle view "selection" w
   = SignaturesHandler.hide_signatures view w1).
Proof.
  intros supported named one_caret point region w1.
  rewrite (handle_selection_run view f r w supported named one_caret).
  fold point region w1.
  refine (conj _ (conj _ _)).
  - intros inside active. rewrite inside, active. reflexivity.
  - intros inside inactive. rewrite inside, inactive. reflexivity.
  - intros outside. rewrite outside. reflexivity.
Qed.

(** C1 fails on selection events.  On a supported view over the size
    ceiling, with one caret inside a function call and signatures active, a
    selection event sends the event record with action 'skip' and empty
    text, and then queues a signatures request that carries the whole
    text. *)
Theorem oversized_selection_queues_signatures (view : View) (f : string)
  (r : Region) (w : World) :
  _is_view_supported view = true ->
  file_name view = Some f ->
  sel view = [r] ->
  size view > Z.shiftl 1 20 ->
  _in_function_call view (region_end r) = true ->
  SH_activated w = true ->
  let queued :=
    [Defer (TaskKitedPost "/clientapi/editor/event"
              (mkEventData "sublime3" (realpath f) "" "skip"
                           (map (fun r => (region_a r, region_b r)) (sel view))));
     Defer (TaskRequestSignatures view
              (mkFetchData (realpath f) "sublime3" (whole_text view)
                           (region_end r)))] in
  trace (snd (EventDispatcher._handle view "selection" w))
  = (trace w ++ queued)%list /\
  existsb queues_request queued = true.
Proof.
  intros supported named one_caret big inside active queued.
  rewrite (handle_selection_run view f r w supported named one_caret).
  rewrite inside, active. cbn [snd set_trace trace set_ED_last_selection_region].
  unfold event_record, request_data. rewrite (oversized_check view big).
  rewrite <- app_assoc. split; reflexivity.
Qed.

(** The rest of the guard holds: over the ceiling the event record is
    marked 'skip' with empty text, an edit event queues nothing but that
    record, and a hover trigger queues nothing. *)
Lemma oversized_event_record (view : View) (f : string) (action : string) :
  size view > Z.shiftl 1 20 ->
  ed_action (event_record view f action) = "skip" /\
  ed_text (event_record view f action) = "".
Proof.
  intros big. unfold event_record. rewrite (oversized_check view big).
  split; reflexivity.
Qed.

Lemma oversized_edit_queues_nothing (view : View) (f : string) (w : World) :
  _is_view_supported view = true ->
  file_name view = Some f ->
  size view > Z.shiftl 1 20 ->
  EventDispatcher._handle view "edit" w
  = (Ret tt,
     set_trace (trace w ++ [Defer (TaskKitedPost "/clientapi/editor/event"
                                     (event_record view f "edit"))])%list w).
Proof.
  intros supported named big.
  unfold EventDispatcher._handle. rewrite supported. cbn [negb].
  change ("edit" =? "selection")%string with false.
  rewrite (oversized_check view big), andb_false_r.
  unfold bind at 1. rewrite (event_data_run view f "edit" w named).
  reflexivity.
Qed.

Lemma oversized_hover_queues_nothing (view : View) (point zone : Z) (w : World) :
  size view > Z.shiftl 1 20 ->
  HoverHandler.on_hover view point zone w = (Ret tt, w).
Proof.
  intros big. unfold HoverHandler.on_hover.
  rewrite (oversized_check view big), andb_false_r. reflexivity.
Qed.

Lemma bind_keeps {A B : Type} (I : World -> Prop) (m : M A) (f : A -> M B)
  (w : World) :
  I (world_after m w) -> (forall a, pres I (f a)) ->
  I (world_after (bind m f) w).
Proof.
  unfold world_after, bind. intros Hm Hf.
  destruct (m w) as [[a|e] w']; cbn in *; [ apply Hf; exact Hm | exact Hm ].
Qed.

Lemma pres_completions_effect_emit (w0 : World) (actions : list Event)
  (received : json) (location : option Z) (e : Event) :
  completions_action e = false ->
  pres (completions_effect w0 actions received location) (emit e).
Proof.
  intros other w [[events [grown filtered]] [Hr Hl]].
  split; [ | split; assumption ].
  exists (events ++ [e])%list. unfold world_after, emit, modify. cbn.
  rewrite grown, <- app_assoc. split; [ reflexivity | ].
  rewrite filter_app. cbn. rewrite other, filtered. apply app_nil_r.
Qed.

Ltac effect_leaf :=
  idtac;
  match goal with
  | |- pres (completions_effect _ _ _ _) (emit _) =>
      apply pres_completions_effect_emit; reflexivity
  | |- pres (completions_effect _ _ _ _) (modify _) =>
      let w := fresh "w" in
      let E := fresh "E" in
      intros w E; exact E
  end.

(** The part of an edit event that comes after the completions: it only
    touches signatures. *)
Lemma edit_tail_keeps_effect (view : View) (edit_region : option ViewRegion)
  (w0 : World) (actions : list Event)
  (received : json) (location : option Z) :
  pres (completions_effect w0 actions received location)
       (point <- EventDispatcher.end_of edit_region ;;
        if _in_function_call view point
        then (point <- EventDispatcher.end_of edit_region ;;
              SignaturesHandler.queue_signatures view point)
        else SignaturesHandler.hide_signatures view).
Proof. pres_auto effect_leaf. Qed.

(** C8. On an edit event for a supported view of permitted size the edit is
    classified against the remembered selection.  An insertion of exactly
    one character queues one completions fetch, at the end of the edit
    region, and leaves the cache as it was; a deletion of more than one
    character hides the completions (the cache is cleared and the list
    closed) and queues nothing; any other classification takes no action on
    completions. *)
Theorem edit_drives_completions (view : View) (f : string) (w : World) :
  _is_view_supported view = true ->
  file_name view = Some f ->
  _check_view_size view = true ->
  let info := EventDispatcher._edit_info (ED_last_selection_region w)
                                         (EventDispatcher._view_region view) in
  let after := snd (EventDispatcher._handle view "edit" w) in
  (info = (Some insertion, Some 1) ->
   exists region,
     EventDispatcher._view_region view = Some region /\
     completions_effect w
       [Defer (TaskRequestCompletions view
                 (request_data view f (vr_end region)))]
       (CH_received_completions w) (CH_last_location w) after) /\
  (forall n, info = (Some deletion, Some n) -> n > 1 ->
   completions_effect w [RunCommand view "hide_auto_complete"] (JList [])
     None after) /\
  (info <> (Some insertion, Some 1) ->
   (forall n, info = (Some deletion, Some n) -> n <= 1) ->
   completions_effect w [] (CH_received_completions w) (CH_last_location w)
                      after).
Proof.
  intros supported named size_ok info after.
  assert (run : after = world_after
    ((if EventDispatcher.is_insertion (fst info) && EventDispatcher.equals_1 (snd info)
      then (point <- EventDispatcher.end_of (EventDispatcher._view_region view) ;;
            CompletionsHandler.queue_completions view point)
      else if EventDispatcher.is_deletion (fst info)
      then (more <- EventDispatcher.greater_than_1 (snd info) ;;
            if more then CompletionsHandler.hide_completions view else ret tt)
      else ret tt) ;;
     point <- EventDispatcher.end_of (EventDispatcher._view_region view) ;;
     if _in_function_call view point
     then (point <- EventDispatcher.end_of (EventDispatcher._view_region view) ;;
           SignaturesHandler.queue_signatures view point)
     else SignaturesHandler.hide_signatures view)
    (set_trace (trace w ++ [Defer (TaskKitedPost "/clientapi/editor/event"
                                     (event_record view f "edit"))])%list w)).
  { subst after. unfold EventDispatcher._handle. rewrite supported, size_ok.
    cbn [negb].
    change ("edit" =? "selection")%string with false.
    change ("edit" =? "edit")%string with true.
    cbn [andb].
    unfold bind at 1. rewrite (event_data_run view f "edit" w named).
    reflexivity. }
  rewrite run. clear run.
  set (w1 := set_trace _ w).
  assert (start : forall received location,
             CH_received_completions w = received ->
             CH_last_location w = location ->
             completions_effect w [] received location w1).
  { intros received location Hr Hl. split; [ | split; assumption ].
    eexists. split; reflexivity. }
  refine (conj _ (conj _ _)).
  - (* one character inserted *)
    intros inserted. rewrite inserted. cbn [fst snd andb
      EventDispatcher.is_insertion EventDispatcher.equals_1 Z.eqb Pos.eqb].
    destruct (EventDispatcher._view_region view) as [region|] eqn:located.
    + exists region. split; [ reflexivity | ].
      apply (bind_keeps (completions_effect w _ _ _));
        [ | intros _; apply edit_tail_keeps_effect ].
      unfold world_after, EventDispatcher.end_of,
        CompletionsHandler.queue_completions,
        CompletionsHandler._event_data, realpath_of, defer, emit.
      rewrite named. unfold bind, modify, ret. cbn.
      split; [ | split; reflexivity ].
      eexists. rewrite <- app_assoc. split; reflexivity.
    + exfalso. subst info. unfold EventDispatcher._edit_info in inserted.
      destruct (ED_last_selection_region w); discriminate inserted.
  - (* several characters deleted *)
    intros n deleted several. rewrite deleted.
    cbn [fst snd andb EventDispatcher.is_insertion EventDispatcher.is_deletion
         EventDispatcher.greater_than_1].
    apply (bind_keeps (completions_effect w _ _ _));
      [ | intros _; apply edit_tail_keeps_effect ].
    rewrite Z.gtb_ltb.
    replace (1 <? n) with true by (symmetry; apply Z.ltb_lt; lia).
    unfold world_after, CompletionsHandler.hide_completions, run_command, emit.
    unfold bind, modify, ret. cbn.
    split; [ | split; reflexivity ].
    eexists. rewrite <- app_assoc. split; reflexivity.
  - (* anything else *)
    intros not_inserted not_several.
    apply (bind_keeps (completions_effect w _ _ _));
      [ | intros _; apply edit_tail_keeps_effect ].
    destruct info as [[[|]|] [n|]] eqn:classified;
      cbn [fst snd andb EventDispatcher.is_insertion EventDispatcher.is_deletion
           EventDispatcher.equals_1 EventDispatcher.greater_than_1];
      try (apply start; reflexivity).
    + destruct (Z.eqb_spec n 1) as [-> | _];
        [ now elim not_inserted | apply start; reflexivity ].
    + specialize (not_several n eq_refl).
      rewrite Z.gtb_ltb.
      replace (1 <? n) with false by (symmetry; apply Z.ltb_ge; lia).
      apply start; reflexivity.
Qed.

End Dispatcher.

Lemma selection_drives_signatures_witness :
  let view := Scenario.small_view in
  let outside := Scenario.python_view_outside 100 5 in
  let w := Scenario.world_with_signatures in
  (exists w1,
     EventDispatcher._handle (H := Scenario.scenario_host) view "selection" w
     = (Ret tt,
        set_trace (trace w1 ++ [Defer (TaskRequestSignatures view
                                         (Scenario.fetch_data view 5))])%list
                  w1)) /\
  (exists w1,
     EventDispatcher._handle (H := Scenario.scenario_host) view "selection"
                             init_world
     = (Ret tt, w1) /\ trace w1 = [Defer (TaskKitedPost "/clientapi/editor/event"
                                            (event_record (H := Scenario.scenario_host)
                                               view "/home/user/a.py" "selection"))]) /\
  (exists w1,
     EventDispatcher._handle (H := Scenario.scenario_host) outside "selection" w
     = SignaturesHandler.hide_signatures outside w1).
Proof.
  intros view outside w.
  refine (conj _ (conj _ _)).
  - destruct (selection_drives_signatures (H := Scenario.scenario_host)
                view "/home/user/a.py" (mkRegion 5 5) w
                eq_refl eq_refl eq_refl) as (active & _).
    eexists. apply active; reflexivity.
  - destruct (selection_drives_signatures (H := Scenario.scenario_host)
                view "/home/user/a.py" (mkRegion 5 5) init_world
                eq_refl eq_refl eq_refl) as (_ & inactive & _).
    eexists. split; [ apply inactive; reflexivity | reflexivity ].
  - destruct (selection_drives_signatures (H := Scenario.scenario_host)
                outside "/home/user/a.py" (mkRegion 5 5) w
                eq_refl eq_refl eq_refl) as (_ & _ & hide).
    eexists. apply hide; reflexivity.
Defined.

(** C7 as stated fails: with the caret inside a function call and
    signatures not active, the dispatcher does not call [hide_signatures];
    no popup is hidden. *)
Lemma selection_inside_call_does_not_hide :
  let view := Scenario.small_view in
  let w := init_world in
  let w1 :=
    set_ED_last_selection_region
      (Some (mkViewRegion (Some "/home/user/a.py") 5 5))
      (set_trace [Defer (TaskKitedPost "/clientapi/editor/event"
                           (event_record (H := Scenario.scenario_host)
                              view "/home/user/a.py" "selection"))] w) in
  _in_function_call view 5 = true /\
  SH_activated w = false /\
  EventDispatcher._handle (H := Scenario.scenario_host) view "selection" w
  = (Ret tt, w1) /\
  EventDispatcher._handle (H := Scenario.scenario_host) view "selection" w
  <> SignaturesHandler.hide_signatures view w1.
Proof.
  split; [ reflexivity | split; [ reflexivity | split; [ reflexivity | ] ] ].
  intros same.
  apply (f_equal (fun r => List.length (trace (snd r)))) in same.
  vm_compute in same. discriminate same.
Qed.

Lemma oversized_selection_queues_signatures_witness :
  let view := Scenario.oversized_view in
  let w := Scenario.world_with_signatures in
  size view = 1048577 /\
  SH_activated w = true /\
  trace (snd (EventDispatcher._handle (H := Scenario.scenario_host)
                view "selection" w))
  = (trace w ++
     [Defer (TaskKitedPost "/clientapi/editor/event"
               (mkEventData "sublime3" "/home/user/a.py" "" "skip" [(5, 5)]));
      Defer (TaskRequestSignatures view
               (mkFetchData "/home/user/a.py" "sublime3" "f(x)" 5))])%list.
Proof.
  intros view w.
  split; [ reflexivity | split; [ reflexivity | ] ].
  apply (oversized_selection_queues_signatures (H := Scenario.scenario_host)
           view "/home/user/a.py" (mkRegion 5 5) w);
    reflexivity.
Defined.

Lemma edit_drives_completions_witness :
  let selected_at n :=
    run_op (H := Scenario.scenario_host)
           (OnSelectionModified (Scenario.python_view 100 n)) init_world in
  let edit_at n w :=
    snd (EventDispatcher._handle (H := Scenario.scenario_host)
           (Scenario.python_view 100 n) "edit" w) in
  completions_effect (selected_at 10)
    [Defer (TaskRequestCompletions (Scenario.python_view 100 11)
              (Scenario.fetch_data (Scenario.python_view 100 11) 11))]
    (JList []) None (edit_at 11 (selected_at 10)) /\
  completions_effect (selected_at 20)
    [RunCommand (Scenario.python_view 100 15) "hide_auto_complete"]
    (JList []) None (edit_at 15 (selected_at 20)) /\
  completions_effect (selected_at 10) [] (JList []) None
    (edit_at 12 (selected_at 10)).
Proof.
  intros selected_at edit_at.
  refine (conj _ (conj _ _)).
  - destruct (edit_drives_completions (H := Scenario.scenario_host)
                (Scenario.python_view 100 11) "/home/user/a.py"
                (selected_at 10) eq_refl eq_refl eq_refl)
      as (inserted & _).
    destruct (inserted eq_refl) as (region & located & effect).
    injection located as <-. exact effect.
  - destruct (edit_drives_completions (H := Scenario.scenario_host)
                (Scenario.python_view 100 15) "/home/user/a.py"
                (selected_at 20) eq_refl eq_refl eq_refl)
      as (_ & deleted & _).
    apply (deleted 5); reflexivity.
  - destruct (edit_drives_completions (H := Scenario.scenario_host)
                (Scenario.python_view 100 12) "/home/user/a.py"
                (selected_at 10) eq_refl eq_refl eq_refl)
      as (_ & _ & other).
    apply other; [ discriminate | intros n E; discriminate E ].
Defined.

(* ================================================================== *)
(** * Further properties of the module *)
(* ================================================================== *)

(** ** The edit classifier, both ways *)

Lemma same_file_sym (f g : option string) : same_file f g = same_file g f.
Proof.
  destruct f as [x|], g as [y|]; cbn; try reflexivity. apply String.eqb_sym.
Qed.

(** X1. When [_edit_info] classifies a pair of regions, the count is at
    least 1, and the same two regions taken the other way round give the
    other kind with the same count. *)
Theorem edit_info_mirrored (a b : option ViewRegion) (t : edit_type) (n : Z) :
  EventDispatcher._edit_info a b = (Some t, Some n) ->
  n >= 1 /\ EventDispatcher._edit_info b a = (Some (mirrored t), Some n).
Proof.
  unfold EventDispatcher._edit_info.
  destruct a as [s|], b as [e|]; try discriminate.
  rewrite (same_file_sym (vr_file e) (vr_file s)), !Z.gtb_ltb.
  destruct (same_file (vr_file s) (vr_file e)); cbn [negb]; [ | discriminate ].
  destruct (Z.ltb_spec (vr_end s) (vr_end e)),
           (Z.ltb_spec (vr_end e) (vr_end s));
    intros E; try discriminate E; try lia;
    injection E as <- <-; (split; [ lia | reflexivity ]).
Qed.

Lemma edit_info_mirrored_witness :
  let a10 := Some (mkViewRegion (Some "a.py") 10 10) in
  let a15 := Some (mkViewRegion (Some "a.py") 12 15) in
  5 >= 1 /\
  EventDispatcher._edit_info a15 a10 = (Some deletion, Some 5).
Proof.
  intros a10 a15.
  apply (edit_info_mirrored a10 a15 insertion 5). reflexivity.
Defined.


(** ** The dispatcher, beyond one caret and beyond completions *)

Lemma view_region_none (view : View) :
  List.length (sel view) <> 1%nat -> EventDispatcher._view_region view = None.
Proof.
  unfold EventDispatcher._view_region.
  destruct (sel view) as [|r [|r' rest]]; cbn; intros other;
    [ reflexivity | now elim other | reflexivity ].
Qed.

Lemma edit_info_no_region (last : option ViewRegion) :
  EventDispatcher._edit_info last None = (None, None).
Proof. now destruct last. Qed.

Section DispatcherMore.
Context `{Host}.

(** X2. With no caret or with several carets, [_view_region] gives None and
    the dispatcher fails on [region['end']]: a selection event has by then
    queued the event record and forgotten the remembered selection, an edit
    event (on a view of permitted size) has queued the event record and
    taken no action on completions; either ends in a TypeError, with no
    signatures request queued and [hide_signatures] not called. *)
Theorem without_single_caret (view : View) (f : string) (w : World) :
  _is_view_supported view = true ->
  file_name view = Some f ->
  List.length (sel view) <> 1%nat ->
  EventDispatcher._handle view "selection" w
  = (Raise TypeError,
     set_ED_last_selection_region None
       (added [Defer (TaskKitedPost "/clientapi/editor/event"
                        (event_record view f "selection"))] w)) /\
  (_check_view_size view = true ->
   EventDispatcher._handle view "edit" w
   = (Raise TypeError,
      added [Defer (TaskKitedPost "/clientapi/editor/event"
                      (event_record view f "edit"))] w)).
Proof.
  intros supported named carets.
  pose proof (view_region_none view carets) as no_region.
  split; [ | intros size_ok ];
    unfold EventDispatcher._handle; rewrite supported; cbn [negb].
  - change ("selection" =? "selection")%string with true.
    unfold bind at 1. rewrite (event_data_run view f "selection" w named).
    rewrite no_region. reflexivity.
  - rewrite size_ok.
    change ("edit" =? "selection")%string with false.
    change ("edit" =? "edit")%string with true.
    unfold bind at 1. rewrite (event_data_run view f "edit" w named).
    rewrite no_region.
    destruct w as [[region|] received location activated stored call lock tr];
      reflexivity.
Qed.

Lemma edit_info_shape (a b : option ViewRegion) :
  EventDispatcher._edit_info a b = (None, None) \/
  exists t n, EventDispatcher._edit_info a b = (Some t, Some n).
Proof.
  unfold EventDispatcher._edit_info.
  destruct a as [s|], b as [e|]; try (left; reflexivity).
  destruct (negb _); [ left; reflexivity | ].
  destruct (_ >? _); [ right; eauto | ].
  destruct (_ <? _); [ right; eauto | left; reflexivity ].
Qed.

(** X3. On an edit event for a supported view of permitted size with one
    caret, whatever was done about completions, the signatures follow the
    caret alone: inside a function call a signatures request is queued at
    the end of the edit region, whether signatures are active or not;
    outside, [hide_signatures] is called.  The completions part leaves the
    signatures state and its lock as they were. *)
Theorem edit_drives_signatures (view : View) (f : string) (r : Region)
  (w : World) :
  _is_view_supported view = true ->
  file_name view = Some f ->
  _check_view_size view = true ->
  sel view = [r] ->
  exists w2,
    (SH_activated w2 = SH_activated w /\ SH_view w2 = SH_view w /\
     SH_call w2 = SH_call w /\ SH_lock w2 = SH_lock w) /\
    EventDispatcher._handle view "edit" w
    = if _in_function_call view (region_end r)
      then (Ret tt,
            added [Defer (TaskRequestSignatures view
                            (request_data view f (region_end r)))] w2)
      else SignaturesHandler.hide_signatures view w2.
Proof.
  intros supported named size_ok one_caret.
  unfold EventDispatcher._handle. rewrite supported, size_ok. cbn [negb].
  change ("edit" =? "selection")%string with false.
  change ("edit" =? "edit")%string with true.
  cbn [andb].
  unfold bind at 1. rewrite (event_data_run view f "edit" w named).
  unfold EventDispatcher._view_region. rewrite one_caret, named.
  set (region := mkViewRegion (Some f) (region_begin r) (region_end r)).
  unfold bind at 1. unfold defer, emit, modify at 1.
  unfold bind at 1. unfold ret at 1.
  unfold bind at 1. unfold gets at 1.
  cbn [fst snd ED_last_selection_region set_trace].
  set (w1 := set_trace _ w).
  assert (tail : forall w2,
    (point <- EventDispatcher.end_of (Some region) ;;
     if _in_function_call view point
     then (point <- EventDispatcher.end_of (Some region) ;;
           SignaturesHandler.queue_signatures view point)
     else SignaturesHandler.hide_signatures view) w2
    = if _in_function_call view (region_end r)
      then (Ret tt,
            added [Defer (TaskRequestSignatures view
                            (request_data view f (region_end r)))] w2)
      else SignaturesHandler.hide_signatures view w2).
  { intros w2. unfold bind at 1. cbn [EventDispatcher.end_of ret vr_end region].
    destruct (_in_function_call view (region_end r)); [ | reflexivity ].
    unfold SignaturesHandler.queue_signatures, SignaturesHandler._event_data,
      realpath_of, defer, emit.
    rewrite named. reflexivity. }
  assert (step : forall (completions : M unit) w2,
    completions w1 = (Ret tt, w2) ->
    (SH_activated w2 = SH_activated w /\ SH_view w2 = SH_view w /\
     SH_call w2 = SH_call w /\ SH_lock w2 = SH_lock w) ->
    exists w2,
      (SH_activated w2 = SH_activated w /\ SH_view w2 = SH_view w /\
       SH_call w2 = SH_call w /\ SH_lock w2 = SH_lock w) /\
      (completions ;;
       point <- EventDispatcher.end_of (Some region) ;;
       if _in_function_call view point
       then (point <- EventDispatcher.end_of (Some region) ;;
             SignaturesHandler.queue_signatures view point)
       else SignaturesHandler.hide_signatures view) w1
      = if _in_function_call view (region_end r)
        then (Ret tt,
              added [Defer (TaskRequestSignatures view
                              (request_data view f (region_end r)))] w2)
        else SignaturesHandler.hide_signatures view w2).
  { intros completions w2 ran kept. exists w2. split; [ exact kept | ].
    unfold bind at 1. rewrite ran. apply tail. }
  destruct (edit_info_shape (ED_last_selection_region w) (Some region))
    as [none | (t & n & some)]; rewrite ?none, ?some;
    cbn [fst snd EventDispatcher.is_insertion EventDispatcher.is_deletion
         EventDispatcher.equals_1 EventDispatcher.greater_than_1 andb].
  - apply (step _ w1); [ reflexivity | repeat split ].
  - destruct t; cbn [EventDispatcher.is_insertion EventDispatcher.is_deletion andb].
    + destruct (n =? 1).
      * eapply step;
          [ unfold CompletionsHandler.queue_completions,
              CompletionsHandler._event_data, realpath_of;
            rewrite named; reflexivity
          | repeat split ].
      * apply (step _ w1); [ reflexivity | repeat split ].
    + destruct (n >? 1).
      * eapply step; [ reflexivity | repeat split ].
      * apply (step _ w1); [ reflexivity | repeat split ].
Qed.

End DispatcherMore.


Lemma without_single_caret_witness :
  let view := Session.two_caret_view in
  let record action :=
    Defer (TaskKitedPost "/clientapi/editor/event"
             (event_record (H := Scenario.scenario_host)
                           view "/home/user/a.py" action)) in
  EventDispatcher._handle (H := Scenario.scenario_host) view "selection"
                          init_world
  = (Raise TypeError, added [record "selection"] init_world) /\
  EventDispatcher._handle (H := Scenario.scenario_host) view "edit" init_world
  = (Raise TypeError, added [record "edit"] init_world).
Proof.
  intros view record.
  destruct (without_single_caret (H := Scenario.scenario_host)
              view "/home/user/a.py" init_world eq_refl eq_refl)
    as [selection edit]; [ discriminate | ].
  exact (conj selection (edit eq_refl)).
Defined.

Lemma edit_drives_signatures_witness :
  let view := Scenario.small_view in
  exists w2,
    EventDispatcher._handle (H := Scenario.scenario_host) view "edit" init_world
    = (Ret tt,
       added [Defer (TaskRequestSignatures view (Scenario.fetch_data view 5))]
             w2).
Proof.
  intros view.
  destruct (edit_drives_signatures (H := Scenario.scenario_host)
              view "/home/user/a.py" (mkRegion 5 5) init_world
              eq_refl eq_refl eq_refl eq_refl)
    as (w2 & _ & handled).
  exists w2. exact handled.
Defined.


(** ** Which views are served *)

Lemma substring_all (s : string) : substring 0 (String.length s) s = s.
Proof. induction s as [|c s IH]; cbn; [ reflexivity | now rewrite IH ]. Qed.

Lemma substring_after (p s : string) :
  substring (String.length p) (String.length s) (p ++ s) = s.
Proof. induction p as [|c p IH]; cbn; [ apply substring_all | exact IH ]. Qed.

Lemma length_append (p s : string) :
  String.length (p ++ s) = (String.length p + String.length s)%nat.
Proof. induction p as [|c p IH]; cbn; [ reflexivity | now rewrite IH ]. Qed.

Lemma substring_split (s : string) :
  forall k, (k <= String.length s)%nat ->
            s = (substring 0 k s ++ substring k (String.length s - k) s)%string.
Proof.
  induction s as [|c s IH]; intros k bound.
  - destruct k; reflexivity.
  - destruct k as [|k]; cbn.
    + now rewrite substring_all.
    + cbn in bound. rewrite <- (IH k) by lia. reflexivity.
Qed.

Lemma endswith_spec (s suffix : string) :
  endswith s suffix = true <-> exists stem, s = (stem ++ suffix)%string.
Proof.
  unfold endswith. split.
  - intros E. apply andb_prop in E. destruct E as [fits E].
    apply Nat.leb_le in fits. apply String.eqb_eq in E.
    exists (substring 0 (String.length s - String.length suffix) s).
    pose proof (substring_split s (String.length s - String.length suffix))
      as whole.
    replace (String.length s - (String.length s - String.length suffix))%nat
      with (String.length suffix) in whole by lia.
    rewrite E in whole. apply whole. lia.
  - intros [stem ->]. rewrite length_append.
    replace (String.length stem + String.length suffix - String.length suffix)%nat
      with (String.length stem) by lia.
    rewrite substring_after, String.eqb_refl, andb_true_r.
    apply Nat.leb_le. lia.
Qed.

(** X4. A view is supported exactly when it has a file name that ends with
    '.py'. *)
Theorem supported_iff_python_file (view : View) :
  _is_view_supported view = true <->
  exists stem, file_name view = Some (stem ++ ".py")%string.
Proof.
  unfold _is_view_supported. destruct (file_name view) as [f|].
  - rewrite endswith_spec. split; intros [stem E]; exists stem; congruence.
  - split; [ discriminate | intros [stem E]; discriminate E ].
Qed.

Section Unsupported.
Context `{Host}.

(** X5. A view that is not supported causes no traffic: the dispatcher does
    nothing at all on its events, not even queue an event record; a consume
    returns None and leaves the cache alone; a hover trigger queues
    nothing; the status handler only erases the status text, without a
    request. *)
Theorem unsupported_view_is_ignored (view : View) (action prefix : string)
  (locations : list Z) (point zone : Z) (answer : Answer) (w : World) :
  _is_view_supported view = false ->
  EventDispatcher._handle view action w = (Ret tt, w) /\
  CompletionsHandler.on_query_completions view prefix locations w
  = (Ret None, w) /\
  HoverHandler.on_hover view point zone w = (Ret tt, w) /\
  StatusHandler._handle view answer w
  = (Ret tt, added [EraseStatus view "kite"] w).
Proof.
  intros unsupported.
  unfold EventDispatcher._handle, CompletionsHandler.on_query_completions,
    HoverHandler.on_hover, StatusHandler._handle.
  rewrite unsupported. repeat split.
Qed.

End Unsupported.


Lemma unsupported_view_is_ignored_witness :
  let view := Session.text_view in
  let w := Scenario.world_with_completions in
  EventDispatcher._handle (H := Scenario.scenario_host) view "edit" w
  = (Ret tt, w) /\
  CompletionsHandler.on_query_completions (H := Scenario.scenario_host)
    view "fo" [5] w
  = (Ret None, w) /\
  HoverHandler.on_hover view 5 0 w = (Ret tt, w) /\
  StatusHandler._handle (H := Scenario.scenario_host) view Refused w
  = (Ret tt, added [EraseStatus view "kite"] w).
Proof.
  intros view w.
  exact (unsupported_view_is_ignored (H := Scenario.scenario_host)
           view "edit" "fo" [5] 5 0 Refused w eq_refl).
Defined.


(** ** More on the completions cache *)

Section CompletionsMore.
Context `{Host}.

(** X6. A consume that is turned away before the locked section (the view
    is not supported, or over the size ceiling, or there is not exactly one
    location) returns None and leaves the world as it is: the cache is not
    reset, so a later consume at the cached location still gets the cached
    items (each an object with a display text, a hint that is a text or
    null, and an insertion), as labels and insertions. *)
Theorem turned_away_consume_keeps_cache (view view' : View)
  (prefix prefix' : string) (locations : list Z) (L : Z)
  (entries : list json) (pairs : list (string * json)) (w : World) :
  _is_view_supported view = false \/ _check_view_size view = false \/
  List.length locations <> 1%nat ->
  _is_view_supported view' = true ->
  _check_view_size view' = true ->
  CH_last_location w = Some L ->
  CH_received_completions w = JList entries ->
  entries <> [] ->
  all_presented entries = Some pairs ->
  CompletionsHandler.on_query_completions view prefix locations w
  = (Ret None, w) /\
  fst (CompletionsHandler.on_query_completions view' prefix' [L]
         (snd (CompletionsHandler.on_query_completions view prefix locations w)))
  = Ret (Some pairs).
Proof.
  intros away supported size_ok located cached some shown.
  assert (untouched :
            CompletionsHandler.on_query_completions view prefix locations w
            = (Ret None, w)).
  { unfold CompletionsHandler.on_query_completions.
    destruct (_is_view_supported view); [ | reflexivity ].
    destruct (_check_view_size view); [ | reflexivity ].
    destruct away as [E | [E | E]]; try discriminate E.
    destruct locations as [|l [|l' rest]]; cbn in E;
      [ reflexivity | now elim E | reflexivity ]. }
  split; [ exact untouched | ].
  rewrite untouched. cbn [snd].
  now rewrite (consume_presented view' prefix' L entries pairs w
                 supported size_ok located cached some shown).
Qed.

(** X7. Of two completions fetches that both get to their store, the one
    that stores last decides: the cache holds what it received at its
    location, and the entries of the earlier one are gone, also for a
    consume at the earlier location.  A consume at location L then returns
    the later entries (objects with a display text, a hint that is a text
    or null, and an insertion) when L is the later location and there are
    entries, and None otherwise. *)
Theorem latest_stored_fetch_wins (view1 view2 view : View)
  (data1 data2 : FetchData) (resp1 resp2 : Response) (body1 body2 : bytes)
  (decoded1 decoded2 stored1 stored2 : json) (entries2 : list json)
  (pairs2 : list (string * json)) (prefix : string) (L : Z) (w : World) :
  status resp1 = 200 -> body1 <> [] ->
  json_loads body1 = inr decoded1 ->
  py_getitem decoded1 "completions" = Ret stored1 ->
  status resp2 = 200 -> body2 <> [] ->
  json_loads body2 = inr decoded2 ->
  py_getitem decoded2 "completions" = Ret stored2 ->
  or_empty_list stored2 = JList entries2 ->
  all_presented entries2 = Some pairs2 ->
  _is_view_supported view = true ->
  _check_view_size view = true ->
  let after :=
    run_ops [RunRequestCompletions view1 data1 (Responded resp1 body1);
             RunRequestCompletions view2 data2 (Responded resp2 body2)] w in
  CH_received_completions after = JList entries2 /\
  CH_last_location after = Some (fd_cursor_runes data2) /\
  fst (CompletionsHandler.on_query_completions view prefix [L] after)
  = Ret (if (fd_cursor_runes data2 =? L) && truthy (JList entries2)
         then Some pairs2
         else None).
Proof.
  intros ok1 some1 dec1 found1 ok2 some2 dec2 found2 listed shown
         supported size_ok after.
  subst after. unfold run_ops. cbn [fold_left run_op]. unfold world_after.
  rewrite (fetch_run view1 data1 resp1 body1 decoded1 stored1 w
             ok1 some1 dec1 found1).
  cbn [snd].
  rewrite (fetch_run view2 data2 resp2 body2 decoded2 stored2 _
             ok2 some2 dec2 found2).
  cbn [snd]. rewrite listed. rewrite consume_run by assumption.
  cbn [fst snd CH_received_completions CH_last_location set_trace
       set_CH_last_location set_CH_received_completions trace
       CompletionsHandler.at_location].
  refine (conj eq_refl (conj eq_refl _)).
  destruct (fd_cursor_runes data2 =? L); cbn [andb negb].
  - destruct entries2 as [|c rest]; [ reflexivity | ].
    cbn [truthy py_iter].
    now rewrite (for_each_presented (c :: rest) pairs2 _ shown).
  - destruct (truthy (JList entries2)); reflexivity.
Qed.

(** X8. [hide_completions] empties the cache and closes the completion
    list; after it, whatever else runs, a consume at any location returns no
    items as long as no completions fetch has stored a new result. *)
Theorem hide_completions_empties (view view' : View) (prefix' : string)
  (locations' : list Z) (ops : list Op) (w : World) :
  forallb (fun op => negb (fetch_completes op)) ops = true ->
  let after := snd (CompletionsHandler.hide_completions view w) in
  cache_empty after /\
  trace after = (trace w ++ [RunCommand view "hide_auto_complete"])%list /\
  fst (CompletionsHandler.on_query_completions view' prefix' locations'
                                               (run_ops ops after))
  = Ret None.
Proof.
  intros quiet after.
  assert (emptied : cache_empty after) by (split; reflexivity).
  refine (conj emptied (conj eq_refl _)).
  apply consume_nothing_cached.
  apply (run_ops_keep_cache_empty ops quiet after emptied).
Qed.

(** X25. A consume that reaches the locked section (supported view of
    permitted size, one location) and returns, with items or with None,
    has emptied the cache and forgotten its location, also when the
    requested location was not the cached one; from then on, whatever else
    runs, a consume at any location returns no items as long as no
    completions fetch has stored a new result. *)
Theorem returned_consume_has_reset (view view' : View) (prefix prefix' : string)
  (location : Z) (locations' : list Z) (ops : list Op)
  (result : option (list (string * json))) (w : World) :
  _is_view_supported view = true ->
  _check_view_size view = true ->
  fst (CompletionsHandler.on_query_completions view prefix [location] w)
  = Ret result ->
  forallb (fun op => negb (fetch_completes op)) ops = true ->
  let after := snd (CompletionsHandler.on_query_completions view prefix
                                                            [location] w) in
  CH_received_completions after = JList [] /\
  CH_last_location after = None /\
  fst (CompletionsHandler.on_query_completions view' prefix' locations'
                                               (run_ops ops after))
  = Ret None.
Proof.
  intros supported size_ok returned quiet after.
  pose proof (consume_returned_resets view prefix location result w
                supported size_ok returned) as emptied.
  fold after in emptied.
  refine (conj (proj1 emptied) (conj (proj2 emptied) _)).
  apply consume_nothing_cached.
  apply (run_ops_keep_cache_empty ops quiet after emptied).
Qed.

End CompletionsMore.


Lemma turned_away_consume_keeps_cache_witness :
  let w := Scenario.world_with_completions in
  CompletionsHandler.on_query_completions (H := Scenario.scenario_host)
    Scenario.oversized_view "fo" [5] w
  = (Ret None, w) /\
  fst (CompletionsHandler.on_query_completions (H := Scenario.scenario_host)
         Scenario.small_view "fo" [5]
         (snd (CompletionsHandler.on_query_completions
                 (H := Scenario.scenario_host)
                 Scenario.oversized_view "fo" [5] w)))
  = Ret (Some [("foo" ++ TAB ++ "function ⟠", JStr "foo()")%string]).
Proof.
  intros w.
  apply (turned_away_consume_keeps_cache (H := Scenario.scenario_host)
           Scenario.oversized_view Scenario.small_view "fo" "fo" [5] 5
           [Scenario.item_foo]
           [("foo" ++ TAB ++ "function ⟠", JStr "foo()")%string] w);
    [ right; left; reflexivity | reflexivity | reflexivity | reflexivity
    | reflexivity | discriminate | reflexivity ].
Defined.

Lemma latest_stored_fetch_wins_witness :
  let view := Scenario.small_view in
  let after :=
    run_ops (H := Scenario.scenario_host)
      [RunRequestCompletions view (Scenario.fetch_data view 7)
         (Responded (mkResponse 200) Scenario.no_completions_body);
       RunRequestCompletions view (Scenario.fetch_data view 5)
         (Responded (mkResponse 200) Scenario.completions_body)]
      init_world in
  CH_received_completions after = JList [Scenario.item_foo] /\
  CH_last_location after = Some 5 /\
  fst (CompletionsHandler.on_query_completions (H := Scenario.scenario_host)
         view "fo" [7] after)
  = Ret None /\
  fst (CompletionsHandler.on_query_completions (H := Scenario.scenario_host)
         view "fo" [5] after)
  = Ret (Some [("foo" ++ TAB ++ "function ⟠", JStr "foo()")%string]).
Proof.
  intros view after.
  pose proof (latest_stored_fetch_wins (H := Scenario.scenario_host)
                view view view
                (Scenario.fetch_data view 7) (Scenario.fetch_data view 5)
                (mkResponse 200) (mkResponse 200)
                Scenario.no_completions_body Scenario.completions_body
                Scenario.no_completions_response Scenario.completions_response
                (JList []) (JList [Scenario.item_foo]) [Scenario.item_foo]
                [("foo" ++ TAB ++ "function ⟠", JStr "foo()")%string] "fo")
    as wins.
  destruct (wins 7 init_world) as (stored & located & elsewhere);
    try reflexivity; try discriminate.
  destruct (wins 5 init_world) as (_ & _ & there);
    try reflexivity; try discriminate.
  exact (conj stored (conj located (conj elsewhere there))).
Defined.

Lemma returned_consume_has_reset_witness :
  let view := Scenario.small_view in
  let after :=
    snd (CompletionsHandler.on_query_completions (H := Scenario.scenario_host)
           view "fo" [6] Scenario.world_with_completions) in
  CH_received_completions after = JList [] /\
  CH_last_location after = None /\
  fst (CompletionsHandler.on_query_completions (H := Scenario.scenario_host)
         view "fo" [5]
         (run_ops (H := Scenario.scenario_host)
                  [OnSelectionModified view; OnHover view 5 1] after))
  = Ret None.
Proof.
  intros view after.
  apply (returned_consume_has_reset (H := Scenario.scenario_host)
           view view "fo" "fo" 6 [5]
           [OnSelectionModified view; OnHover view 5 1] None
           Scenario.world_with_completions);
    reflexivity.
Defined.

Lemma hide_completions_empties_witness :
  let view := Scenario.small_view in
  let w := Scenario.world_with_completions in
  let after := snd (CompletionsHandler.hide_completions view w) in
  cache_empty after /\
  trace after = (trace w ++ [RunCommand view "hide_auto_complete"])%list /\
  fst (CompletionsHandler.on_query_completions (H := Scenario.scenario_host)
         view "fo" [5]
         (run_ops (H := Scenario.scenario_host)
            [OnSelectionModified view;
             RunRequestCompletions view (Scenario.fetch_data view 5) Refused]
            after))
  = Ret None.
Proof.
  intros view w after.
  apply (hide_completions_empties (H := Scenario.scenario_host)
           view view "fo" [5]
           [OnSelectionModified view;
            RunRequestCompletions view (Scenario.fetch_data view 5) Refused]
           w).
  reflexivity.
Defined.


(** ** Bodies that do not decode, and bodies without content *)

Lemma getpath_run (path : list string) :
  forall o w, getpath o path w = (getpath_value o path, w).
Proof.
  induction path as [|k rest IH]; intros o w; [ reflexivity | ].
  cbn [getpath getpath_value]. unfold bind, lift.
  destruct (py_getitem o k) as [v|e]; [ apply IH | reflexivity ].
Qed.

(** Runs a handler as far as the answers of the service and the state are
    known. *)
Ltac unfold_monad :=
  unfold bind, ret, lift, raise, gets, modify, emit, when, try_except, loads,
    realpath_of, added, set_trace.

Ltac mrun :=
  repeat (progress (unfold_handlers; unfold_monad; cbn)).

Ltac same_world :=
  unfold added, set_trace, log, set_status, show_popup, hide_popup, defer,
    run_command, emit, modify, ret;
  cbn; rewrite <- ?app_assoc; reflexivity.

Section Bodies.
Context `{Host}.

Lemma not_body_false (body : bytes) : body <> [] -> not_body body = false.
Proof. destruct body; [ intros E; now elim E | reflexivity ]. Qed.

(** X9. A 200 response whose body does not decode (a ValueError of
    [json.loads]) is answered the same way by all four fetches: the error is
    logged, no attribute changes, nothing is shown or hidden, and the
    handler returns without an exception.  An earlier completions cache or
    signatures state therefore stays. *)
Theorem undecodable_body_is_logged (view : View) (f : string)
  (data : FetchData) (point : Z) (resp : Response) (body : bytes)
  (msg : string) (w : World) :
  status resp = 200 ->
  body <> [] ->
  json_loads body = inl msg ->
  file_name view = Some f ->
  CompletionsHandler._request_completions view data (Responded resp body) w
  = (Ret tt, added [HttpPost "/clientapi/editor/completions" data;
                    Log (ErrorDecodingJson msg)] w) /\
  SignaturesHandler._request_signatures view data (Responded resp body) w
  = (Ret tt, added [HttpPost "/clientapi/editor/signatures" data;
                    Log (ErrorDecodingJson msg)] w) /\
  (exists url,
     HoverHandler._request_hover view point (Responded resp body) w
     = (Ret tt, added [HttpGet url; Log (ErrorDecodingJson msg)] w)) /\
  (_is_view_supported view = true -> _check_view_size view = true ->
   exists url,
     StatusHandler._handle view (Responded resp body) w
     = (Ret tt, added [HttpGet url; Log (ErrorDecodingJson msg)] w)).
Proof.
  intros ok some_body undecoded named.
  pose proof (not_body_false body some_body) as has_body.
  refine (conj _ (conj _ (conj _ _))).
  - unfold CompletionsHandler._request_completions, kited_post, answer_of.
    unfold bind at 1 2. unfold emit, modify, ret. cbn [fst snd].
    rewrite ok, has_body. cbn [Z.eqb Pos.eqb negb orb].
    unfold try_except, loads. unfold bind at 1. rewrite undecoded. cbn.
    same_world.
  - unfold SignaturesHandler._request_signatures, kited_post, answer_of.
    unfold bind at 1 2. unfold emit, modify, ret. cbn [fst snd].
    rewrite ok, has_body. cbn [Z.eqb Pos.eqb negb orb].
    unfold try_except, loads. unfold bind at 1. rewrite undecoded. cbn.
    same_world.
  - eexists.
    unfold HoverHandler._request_hover, HoverHandler._event_url, realpath_of,
      kited_get, answer_of.
    rewrite named. unfold bind at 1 2 3 4. unfold emit, modify, ret.
    cbn [fst snd]. rewrite ok, has_body. cbn [Z.eqb Pos.eqb negb orb].
    unfold try_except, loads. unfold bind at 1. rewrite undecoded. cbn.
    same_world.
  - intros supported size_ok. eexists.
    unfold StatusHandler._handle. rewrite supported, size_ok. cbn [negb].
    unfold realpath_of, kited_get, answer_of. rewrite named.
    unfold try_except. unfold bind at 1 2 3. unfold emit, modify, ret.
    cbn [fst snd]. rewrite ok, has_body. cbn [Z.eqb Pos.eqb negb orb].
    unfold loads. unfold bind at 1. rewrite undecoded. cbn.
    same_world.
Qed.

(** X10. A 200 signatures response whose ['calls'] is null or empty changes
    nothing: no attribute is written, no popup is shown, and a popup that is
    up stays up.  A body that decodes but has no ['calls'] at all is not
    caught by the handler: it ends in a KeyError (a TypeError when the body
    is not an object), again with nothing changed. *)
Theorem signatures_without_calls (view : View) (data : FetchData)
  (resp : Response) (body : bytes) (resp_data : json) (w : World) :
  status resp = 200 ->
  body <> [] ->
  json_loads body = inr resp_data ->
  let run :=
    SignaturesHandler._request_signatures view data (Responded resp body) w in
  let requested := added [HttpPost "/clientapi/editor/signatures" data] w in
  (forall calls, py_getitem resp_data "calls" = Ret calls ->
                 truthy calls = false -> run = (Ret tt, requested)) /\
  (forall e, py_getitem resp_data "calls" = Raise e ->
             run = (Raise e, requested) /\ (e = KeyError \/ e = TypeError)).
Proof.
  intros ok some_body decoded run requested.
  pose proof (not_body_false body some_body) as has_body.
  subst run requested. unfold SignaturesHandler._request_signatures.
  mrun. rewrite ok, has_body. cbn. rewrite decoded.
  split.
  - intros calls found empty. rewrite found.
    unfold or_empty_list. rewrite empty. cbn. same_world.
  - intros e missing. rewrite missing.
    assert (which : e = KeyError \/ e = TypeError).
    { destruct resp_data; cbn in missing;
        try (injection missing as <-; right; reflexivity).
      destruct (dict_get "calls" d); [ discriminate | ].
      injection missing as <-. left. reflexivity. }
    split; [ | exact which ].
    destruct which as [-> | ->]; same_world.
Qed.

End Bodies.


Lemma undecodable_body_is_logged_witness :
  let view := Scenario.small_view in
  let data := Scenario.fetch_data view 5 in
  let answer := Responded (mkResponse 200) Session.broken_body in
  let msg := "Expecting value: line 1 column 1 (char 0)" in
  let w := Scenario.world_with_signatures in
  CompletionsHandler._request_completions (H := Session.session_host)
    view data answer w
  = (Ret tt, added [HttpPost "/clientapi/editor/completions" data;
                    Log (ErrorDecodingJson msg)] w) /\
  SignaturesHandler._request_signatures (H := Session.session_host)
    view data answer w
  = (Ret tt, added [HttpPost "/clientapi/editor/signatures" data;
                    Log (ErrorDecodingJson msg)] w).
Proof.
  intros view data answer msg w.
  destruct (undecodable_body_is_logged (H := Session.session_host)
              view "/home/user/a.py" data 5 (mkResponse 200)
              Session.broken_body msg w)
    as (completions & signatures & _);
    [ reflexivity | discriminate | reflexivity | reflexivity | ].
  exact (conj completions signatures).
Defined.

Lemma signatures_without_calls_witness :
  let view := Scenario.small_view in
  let data := Scenario.fetch_data view 5 in
  let w := Scenario.world_with_signatures in
  let requested := added [HttpPost "/clientapi/editor/signatures" data] w in
  SignaturesHandler._request_signatures (H := Session.session_host)
    view data (Responded (mkResponse 200) Session.no_calls_body) w
  = (Ret tt, requested) /\
  SignaturesHandler._request_signatures (H := Session.session_host)
    view data (Responded (mkResponse 200) Session.bare_body) w
  = (Raise KeyError, requested).
Proof.
  intros view data w requested. split.
  - destruct (signatures_without_calls (H := Session.session_host)
                view data (mkResponse 200) Session.no_calls_body
                Session.no_calls_response w)
      as [null _]; [ reflexivity | discriminate | reflexivity | ].
    exact (null JNull eq_refl eq_refl).
  - destruct (signatures_without_calls (H := Session.session_host)
                view data (mkResponse 200) Session.bare_body
                Session.bare_response w)
      as [_ missing]; [ reflexivity | discriminate | reflexivity | ].
    exact (proj1 (missing KeyError eq_refl)).
Defined.


Section CompletionsBodies.
Context `{Host}.

(** X26. A 200 completions response whose ['completions'] is null or empty
    is stored all the same: the cache becomes the empty list at the
    location of the request, so that an earlier cache is dropped, and
    'auto_complete' is run.  A body that decodes but has no ['completions']
    is not caught by the handler: it ends in a KeyError (a TypeError when
    the body is not an object) with the cache as it was and 'auto_complete'
    not run. *)
Theorem completions_without_entries (view : View) (data : FetchData)
  (resp : Response) (body : bytes) (resp_data : json) (w : World) :
  status resp = 200 ->
  body <> [] ->
  json_loads body = inr resp_data ->
  let run :=
    CompletionsHandler._request_completions view data (Responded resp body) w in
  (forall stored,
     py_getitem resp_data "completions" = Ret stored ->
     truthy stored = false ->
     run = (Ret tt,
            added [HttpPost "/clientapi/editor/completions" data;
                   RunCommand view "auto_complete"]
                  (set_CH_last_location (Some (fd_cursor_runes data))
                     (set_CH_received_completions (JList []) w)))) /\
  (forall e,
     py_getitem resp_data "completions" = Raise e ->
     run = (Raise e, added [HttpPost "/clientapi/editor/completions" data] w) /\
     (e = KeyError \/ e = TypeError)).
Proof.
  intros ok some_body decoded run.
  pose proof (not_body_false body some_body) as has_body.
  subst run. split.
  - intros stored found empty.
    rewrite (fetch_run view data resp body resp_data stored w
               ok some_body decoded found).
    unfold or_empty_list. rewrite empty. reflexivity.
  - intros e missing.
    unfold CompletionsHandler._request_completions.
    mrun. rewrite ok, has_body. cbn. rewrite decoded. cbn. rewrite missing.
    assert (which : e = KeyError \/ e = TypeError).
    { destruct resp_data; cbn in missing;
        try (injection missing as <-; right; reflexivity).
      destruct (dict_get "completions" d); [ discriminate | ].
      injection missing as <-. left. reflexivity. }
    split; [ | exact which ].
    destruct which as [-> | ->]; same_world.
Qed.

End CompletionsBodies.

Lemma completions_without_entries_witness :
  let view := Scenario.small_view in
  let data := Scenario.fetch_data view 7 in
  let w := Scenario.world_with_completions in
  CH_received_completions w = JList [Scenario.item_foo] /\
  CompletionsHandler._request_completions (H := Session.session_host)
    view data (Responded (mkResponse 200) Scenario.no_completions_body) w
  = (Ret tt,
     added [HttpPost "/clientapi/editor/completions" data;
            RunCommand view "auto_complete"]
           (set_CH_last_location (Some 7)
              (set_CH_received_completions (JList []) w))) /\
  CompletionsHandler._request_completions (H := Session.session_host)
    view data (Responded (mkResponse 200) Session.bare_body) w
  = (Raise KeyError, added [HttpPost "/clientapi/editor/completions" data] w).
Proof.
  intros view data w.
  split; [ reflexivity | split ].
  - destruct (completions_without_entries (H := Session.session_host)
                view data (mkResponse 200) Scenario.no_completions_body
                Scenario.no_completions_response w)
      as [empty _]; [ reflexivity | discriminate | reflexivity | ].
    exact (empty (JList []) eq_refl eq_refl).
  - destruct (completions_without_entries (H := Session.session_host)
                view data (mkResponse 200) Session.bare_body
                Session.bare_response w)
      as [_ missing]; [ reflexivity | discriminate | reflexivity | ].
    exact (proj1 (missing KeyError eq_refl)).
Defined.


(** ** Hover and status *)

Section HoverStatus.
Context `{Host}.


(** X12. What the status handler shows for a supported view.  Over the
    size ceiling it makes no request and shows 'File too large'.  Otherwise a
    200 response with a decoded string in ASCII under ['status'] shows that
    string, capitalized (first letter in upper case, the others in lower
    case), behind the 'kite: ' brand; a refused connection shows
    'Connection error'; when the request cannot be sent, the failure is only
    logged and the status text is left as it was.  None of these lets an
    exception out. *)
Theorem status_handler_outcomes (view : View) (f : string) (w : World) :
  _is_view_supported view = true ->
  file_name view = Some f ->
  let url := ("/clientapi/status?filename=" ++ realpath f)%string in
  (_check_view_size view = false ->
   forall answer,
     StatusHandler._handle view answer w
     = (Ret tt, added [SetStatus view "kite" "𝕜𝕚𝕥𝕖: File too large"] w)) /\
  (_check_view_size view = true ->
   (forall resp body resp_data text,
      status resp = 200 -> body <> [] ->
      json_loads body = inr resp_data ->
      py_getitem resp_data "status" = Ret (JStr text) ->
      ascii_only text = true ->
      StatusHandler._handle view (Responded resp body) w
      = (Ret tt,
         added [HttpGet url;
                SetStatus view "kite" ("𝕜𝕚𝕥𝕖: " ++ capitalize text)] w)) /\
   StatusHandler._handle view Refused w
   = (Ret tt,
      added [HttpGet url; SetStatus view "kite" "𝕜𝕚𝕥𝕖: Connection error"] w) /\
   (forall msg,
      StatusHandler._handle view (CannotSend msg) w
      = (Ret tt, added [HttpGet url; Log (CouldNotRequestStatus msg)] w))).
Proof.
  intros supported named url. split.
  - intros big answer.
    unfold StatusHandler._handle. rewrite supported, big. reflexivity.
  - intros size_ok.
    unfold StatusHandler._handle. rewrite supported, size_ok. mrun.
    rewrite named. cbn.
    refine (conj _ (conj _ _)).
    + intros resp body resp_data text ok some_body decoded its_status plain.
      rewrite ok, (not_body_false body some_body). cbn.
      rewrite decoded, its_status. cbn. rewrite plain. same_world.
    + same_world.
    + intros msg. same_world.
Qed.

End HoverStatus.



Lemma status_handler_outcomes_witness :
  let w := init_world in
  let url := "/clientapi/status?filename=/home/user/a.py" in
  StatusHandler._handle (H := Session.session_host) Scenario.oversized_view
    Refused w
  = (Ret tt,
     added [SetStatus Scenario.oversized_view "kite" "𝕜𝕚𝕥𝕖: File too large"]
           w) /\
  StatusHandler._handle (H := Session.session_host) Scenario.small_view
    (Responded (mkResponse 200) Session.status_body) w
  = (Ret tt,
     added [HttpGet url; SetStatus Scenario.small_view "kite" "𝕜𝕚𝕥𝕖: Ready"]
           w) /\
  StatusHandler._handle (H := Session.session_host) Scenario.small_view
    Refused w
  = (Ret tt,
     added [HttpGet url;
            SetStatus Scenario.small_view "kite" "𝕜𝕚𝕥𝕖: Connection error"]
           w).
Proof.
  intros w url.
  destruct (status_handler_outcomes (H := Session.session_host)
              Scenario.oversized_view "/home/user/a.py" w eq_refl eq_refl)
    as [too_large _].
  destruct (status_handler_outcomes (H := Session.session_host)
              Scenario.small_view "/home/user/a.py" w eq_refl eq_refl)
    as [_ served].
  destruct (served eq_refl) as (answered & refused & _).
  refine (conj (too_large eq_refl Refused) (conj _ refused)).
  exact (answered (mkResponse 200) Session.status_body
                  Session.status_response "ready"
                  eq_refl ltac:(discriminate) eq_refl eq_refl eq_refl).
Defined.


(** ** Dicts *)

Lemma dict_get_set_same (k : string) (v : json) (d : list (string * json)) :
  dict_get k (dict_set k v d) = Some v.
Proof.
  induction d as [|[k' v'] d IH]; cbn.
  - now rewrite String.eqb_refl.
  - destruct (String.eqb_spec k' k) as [-> | differ]; cbn.
    + now rewrite String.eqb_refl.
    + destruct (String.eqb_spec k' k); [ contradiction | exact IH ].
Qed.

Lemma dict_get_set_other (k k' : string) (v : json) (d : list (string * json)) :
  k <> k' -> dict_get k' (dict_set k v d) = dict_get k' d.
Proof.
  intros differ. induction d as [|[k0 v0] d IH]; cbn.
  - destruct (String.eqb_spec k k'); [ contradiction | reflexivity ].
  - destruct (String.eqb_spec k0 k) as [-> | other]; cbn.
    + destruct (String.eqb_spec k k'); [ contradiction | reflexivity ].
    + destruct (String.eqb_spec k0 k'); [ reflexivity | exact IH ].
Qed.

Lemma dict_set_set_same (k : string) (v v' : json) (d : list (string * json)) :
  dict_set k v' (dict_set k v d) = dict_set k v' d.
Proof.
  induction d as [|[k0 v0] d IH]; cbn.
  - now rewrite String.eqb_refl.
  - destruct (String.eqb_spec k0 k) as [-> | other]; cbn.
    + now rewrite String.eqb_refl.
    + destruct (String.eqb_spec k0 k); [ contradiction | now rewrite IH ].
Qed.

Lemma dict_set_present (k : string) (v : json) (d : list (string * json)) :
  dict_get k d = Some v -> dict_set k v d = d.
Proof.
  induction d as [|[k0 v0] d IH]; cbn; [ discriminate | ].
  destruct (String.eqb_spec k0 k) as [-> | other].
  - intros E. injection E as ->. reflexivity.
  - intros E. now rewrite (IH E).
Qed.

Lemma dict_set_swap (k k' : string) (v v' : json) (d : list (string * json)) :
  k <> k' -> dict_get k d <> None ->
  dict_set k v (dict_set k' v' d) = dict_set k' v' (dict_set k v d).
Proof.
  intros differ. induction d as [|[k0 v0] d IH]; cbn; [ congruence | ].
  destruct (String.eqb_spec k0 k) as [-> | other]; intros present.
  - destruct (String.eqb_spec k k'); [ contradiction | ]. cbn.
    rewrite String.eqb_refl.
    destruct (String.eqb_spec k k'); [ contradiction | reflexivity ].
  - destruct (String.eqb_spec k0 k') as [-> | other']; cbn.
    + destruct (String.eqb_spec k' k); [ congruence | ].
      now rewrite String.eqb_refl.
    + destruct (String.eqb_spec k0 k); [ contradiction | ].
      destruct (String.eqb_spec k0 k'); [ contradiction | ].
      now rewrite (IH present).
Qed.

(** ** The two groups of parameters *)

Section Parameters.
Context `{Host}.

Lemma keyword_only_flag_split (param v : json) :
  keyword_only_flag param = Ret v ->
  exists details,
    getpath_value param ["language_details"; "python"] = Ret details /\
    py_getitem details "keyword_only" = Ret v.
Proof.
  unfold keyword_only_flag. cbn [getpath_value].
  destruct (py_getitem param "language_details") as [ld|]; [ | discriminate ].
  destruct (py_getitem ld "python") as [details|]; [ | discriminate ].
  destruct (py_getitem details "keyword_only") as [flag|] eqn:E;
    [ | discriminate ].
  intros same. injection same as <-. exists details. split; [ reflexivity | exact E ].
Qed.

Lemma partition_parameters_run (params : list json) :
  forall (func : list (string * json)) (positional keyword_only : list json)
         (w : World),
    dict_get "positional_parameters" func = Some (JList positional) ->
    dict_get "keyword_only_parameters" func = Some (JList keyword_only) ->
    Forall has_keyword_only_flag params ->
    SignaturesHandler.partition_parameters params (JDict func) w
    = (Ret (with_groups (positional ++ filter is_positional params)
                        (keyword_only ++ filter is_keyword_only params)
                        func),
       w).
Proof.
  induction params as [|param rest IH];
    intros func positional keyword_only w Hpos Hkw flagged.
  - cbn [SignaturesHandler.partition_parameters filter]. unfold with_groups.
    rewrite !app_nil_r.
    rewrite (dict_set_present "positional_parameters" _ func Hpos).
    rewrite (dict_set_present "keyword_only_parameters" _ func Hkw).
    reflexivity.
  - inversion flagged as [|? ? [v flag] flagged_rest]; subst.
    destruct (keyword_only_flag_split param v flag) as (details & found & its_flag).
    assert (kw : is_keyword_only param = truthy v)
      by (unfold is_keyword_only; now rewrite flag).
    cbn [SignaturesHandler.partition_parameters filter].
    unfold is_positional at 1. rewrite kw.
    unfold bind at 1. rewrite getpath_run, found.
    unfold bind at 1. unfold lift at 1. rewrite its_flag.
    destruct (truthy v); cbn [negb].
    + (* keyword-only *)
      unfold bind at 1. unfold lift at 1. cbn [py_getitem]. rewrite Hkw.
      unfold bind at 1. unfold lift at 1. cbn [py_setitem].
      rewrite (IH _ positional (keyword_only ++ [param])%list w).
      * unfold with_groups. do 3 f_equal.
        rewrite (dict_set_swap "positional_parameters"
                               "keyword_only_parameters" _ _ func)
          by first [ discriminate | rewrite Hpos; discriminate ].
        rewrite dict_set_set_same, <- app_assoc. reflexivity.
      * rewrite dict_get_set_other by discriminate. exact Hpos.
      * apply dict_get_set_same.
      * exact flagged_rest.
    + (* positional *)
      unfold bind at 1. unfold lift at 1. cbn [py_getitem]. rewrite Hpos.
      unfold bind at 1. unfold lift at 1. cbn [py_setitem].
      rewrite (IH _ (positional ++ [param])%list keyword_only w).
      * unfold with_groups. do 3 f_equal.
        rewrite dict_set_set_same, <- app_assoc. reflexivity.
      * apply dict_get_set_same.
      * rewrite dict_get_set_other by discriminate. exact Hkw.
      * exact flagged_rest.
Qed.

(** X13. The loop that separates the keyword-only parameters.  When the
    function object holds its two lists and every parameter carries a
    keyword-only flag, the loop returns the function object with each
    parameter appended to exactly one list: to the keyword-only list when
    its flag is true, to the positional list otherwise, in the order of the
    parameters; every other key of the function object is as before. *)
Theorem parameters_are_partitioned (params : list json)
  (func : list (string * json)) (positional keyword_only : list json)
  (w : World) :
  dict_get "positional_parameters" func = Some (JList positional) ->
  dict_get "keyword_only_parameters" func = Some (JList keyword_only) ->
  Forall has_keyword_only_flag params ->
  exists func',
    SignaturesHandler.partition_parameters params (JDict func) w
    = (Ret (JDict func'), w) /\
    dict_get "positional_parameters" func'
    = Some (JList (positional ++ filter is_positional params)) /\
    dict_get "keyword_only_parameters" func'
    = Some (JList (keyword_only ++ filter is_keyword_only params)) /\
    (forall key, key <> "positional_parameters" ->
                 key <> "keyword_only_parameters" ->
                 dict_get key func' = dict_get key func) /\
    (List.length (filter is_positional params) +
     List.length (filter is_keyword_only params)
     = List.length params)%nat.
Proof.
  intros Hpos Hkw flagged. eexists.
  split; [ apply (partition_parameters_run params func positional keyword_only
                    w Hpos Hkw flagged) | ].
  split; [ | split; [ | split ] ].
  - rewrite dict_get_set_other by discriminate. apply dict_get_set_same.
  - apply dict_get_set_same.
  - intros key not_pos not_kw.
    rewrite !dict_get_set_other by congruence. reflexivity.
  - clear. unfold is_positional.
    induction params as [|p ps IH]; cbn; [ reflexivity | ].
    destruct (is_keyword_only p); cbn; lia.
Qed.

End Parameters.


Lemma parameters_are_partitioned_witness :
  let x := Scenario.call_parameter "x" false in
  let key := Scenario.call_parameter "key" true in
  let y := Scenario.call_parameter "y" false in
  let func := [("name", JStr "f");
               ("positional_parameters", JList []);
               ("keyword_only_parameters", JList [])] in
  exists func',
    SignaturesHandler.partition_parameters [x; key; y] (JDict func) init_world
    = (Ret (JDict func'), init_world) /\
    dict_get "positional_parameters" func' = Some (JList [x; y]) /\
    dict_get "keyword_only_parameters" func' = Some (JList [key]) /\
    dict_get "name" func' = Some (JStr "f").
Proof.
  intros x key y func.
  destruct (parameters_are_partitioned [x; key; y] func [] [] init_world)
    as (func' & run & positional & keyword_only & others & _);
    [ reflexivity | reflexivity
    | repeat constructor; eexists; reflexivity | ].
  exists func'.
  refine (conj run (conj positional (conj keyword_only _))).
  rewrite others; [ reflexivity | discriminate | discriminate ].
Defined.


(** ** A signatures fetch that succeeds *)

Lemma getpath_value_other_head (k k' : string) (rest path : list string)
  (v o : json) :
  k <> k' ->
  getpath_value (set_path (k :: rest) v o) (k' :: path)
  = getpath_value o (k' :: path).
Proof.
  intros differ. cbn [getpath_value set_path].
  destruct o; try reflexivity.
  destruct (dict_get k d) as [child|] eqn:E.
  - cbn [py_getitem]. now rewrite dict_get_set_other.
  - destruct rest; [ | reflexivity ].
    cbn [py_getitem]. now rewrite dict_get_set_other.
Qed.

Lemma getpath_value_set_path (path : list string) (v : json) :
  forall o d,
    path <> [] ->
    getpath_value o (removelast path) = Ret (JDict d) ->
    getpath_value (set_path path v o) path = Ret v.
Proof.
  induction path as [|k rest IH]; intros o d some parent; [ now elim some | ].
  destruct rest as [|k2 rest].
  - cbn in parent. injection parent as ->. cbn [set_path].
    destruct (dict_get k d); cbn; now rewrite dict_get_set_same.
  - change (removelast (k :: k2 :: rest)) with (k :: removelast (k2 :: rest))
      in parent.
    cbn [getpath_value] in parent.
    destruct o as [| | | | | |fields]; try discriminate parent.
    cbn [py_getitem] in parent.
    destruct (dict_get k fields) as [child|] eqn:E; [ | discriminate parent ].
    cbn [set_path]. rewrite E.
    cbn [getpath_value py_getitem]. rewrite dict_get_set_same.
    apply (IH child d); [ discriminate | exact parent ].
Qed.

Section Stored.
Context `{Host}.

Lemma kwarg_highlighted_run (in_kwargs arg_index : json) (w : World) :
  SH_activated w = true ->
  getpath_value (SH_call w) in_kwargs_path = Ret in_kwargs ->
  py_getitem (SH_call w) "arg_index" = Ret arg_index ->
  SignaturesHandler._kwarg_highlighted w
  = (Ret (highlighted in_kwargs arg_index), w).
Proof.
  intros active its_kwargs its_index.
  unfold SignaturesHandler._kwarg_highlighted, highlighted.
  unfold bind at 1. unfold gets at 1. rewrite active. cbn [negb].
  unfold bind at 1. unfold gets at 1.
  unfold bind at 1. rewrite getpath_run.
  fold in_kwargs_path. rewrite its_kwargs.
  destruct (truthy in_kwargs); cbn [negb]; [ | reflexivity ].
  unfold bind, lift, ret. rewrite its_index. reflexivity.
Qed.

Lemma render_run (in_kwargs arg_index call : json) (w : World) :
  SH_activated w = true ->
  getpath_value (SH_call w) in_kwargs_path = Ret in_kwargs ->
  py_getitem (SH_call w) "arg_index" = Ret arg_index ->
  SignaturesHandler._render call w = (Ret (panel in_kwargs arg_index call), w).
Proof.
  intros active its_kwargs its_index.
  unfold SignaturesHandler._render. unfold bind.
  rewrite (kwarg_highlighted_run in_kwargs arg_index w active its_kwargs
                                 its_index).
  reflexivity.
Qed.

(** The section under the lock, with the lock free and a call that
    renders. *)
Lemma store_run (view : View) (call in_kwargs arg_index : json) (w : World) :
  SH_lock w = false ->
  getpath_value call in_kwargs_path = Ret in_kwargs ->
  py_getitem call "arg_index" = Ret arg_index ->
  (acquired <- SignaturesHandler.try_acquire ;;
   content <- (if acquired
               then (SignaturesHandler.set_activated true ;;
                     SignaturesHandler.set_view (Some view) ;;
                     SignaturesHandler.set_call call ;;
                     content <- SignaturesHandler._render call ;;
                     SignaturesHandler.release ;;
                     ret (Some content))
               else ret None) ;;
   match content with
   | Some c => show_popup view c None
   | None => ret tt
   end) w
  = (Ret tt,
     mkWorld (ED_last_selection_region w) (CH_received_completions w)
             (CH_last_location w) true (Some view) call false
             (trace w ++ [Acquire; Write F_activated; Write F_view;
                          Write F_call; Release;
                          ShowPopup view (panel in_kwargs arg_index call) None])).
Proof.
  intros free its_kwargs its_index.
  unfold SignaturesHandler.try_acquire, SignaturesHandler.set_activated,
    SignaturesHandler.set_view, SignaturesHandler.set_call,
    SignaturesHandler.release, show_popup.
  unfold bind at 1 2. unfold gets at 1. cbn [fst snd]. rewrite free.
  unfold bind, emit, modify, ret. cbn.
  match goal with
  | |- context [SignaturesHandler._render call ?w1] =>
      rewrite (render_run in_kwargs arg_index call w1 eq_refl its_kwargs
                          its_index)
  end.
  cbn. rewrite <- !app_assoc. reflexivity.
Qed.

Lemma bind_ret_run {A B : Type} (m : M A) (f : A -> M B) (a : A)
  (w w' : World) :
  m w = (Ret a, w') -> bind m f w = f a w'.
Proof. intros ran. unfold bind. now rewrite ran. Qed.

Lemma bind_lift_run {A B : Type} (o : outcome A) (f : A -> M B) (a : A)
  (w : World) :
  o = Ret a -> bind (lift o) f w = f a w.
Proof. intros ->. reflexivity. Qed.

Lemma bind_getpath_run {B : Type} (o : json) (path : list string)
  (f : json -> M B) (a : json) (w : World) :
  getpath_value o path = Ret a -> bind (getpath o path) f w = f a w.
Proof. intros found. unfold bind. now rewrite getpath_run, found. Qed.

Lemma kited_post_run (path : string) (data : FetchData) (resp : Response)
  (body : bytes) (w : World) :
  kited_post path data (Responded resp body) w
  = (Ret (resp, body), added [HttpPost path data] w).
Proof. reflexivity. Qed.

Lemma bind_log_run {B : Type} (m : LogMessage) (f : unit -> M B) (w : World) :
  bind (log m) f w = f tt (added [Log m] w).
Proof. reflexivity. Qed.

Lemma bind_of_ret {A B : Type} (a : A) (f : A -> M B) (w : World) :
  bind (ret a) f w = f a w.
Proof. reflexivity. Qed.

Lemma loads_run (body : bytes) (v : json) (w : World) :
  json_loads body = inr v -> loads body w = (Ret v, w).
Proof. intros decoded. unfold loads. now rewrite decoded. Qed.

(** X14. A signatures fetch that succeeds for a function.  When the first
    call of a 200 response has a callee that is not a type, a function
    object with parameters that all carry their keyword-only flag, an
    ['in_kwargs'] and an ['arg_index'], and the lock is free, then the call is
    logged, the state becomes active with the view and with the call in
    which the function object has its parameters split into the positional
    and the keyword-only ones, and the popup is shown on the view with the
    panel rendered for that call.  Nothing else of the call is changed. *)
Theorem signatures_stored_for_function (view : View) (data : FetchData)
  (resp : Response) (body : bytes) (resp_data call kind parameters : json)
  (others params : list json) (func : list (string * json))
  (in_kwargs arg_index : json) (w : World) :
  status resp = 200 ->
  body <> [] ->
  json_loads body = inr resp_data ->
  py_getitem resp_data "calls" = Ret (JList (call :: others)) ->
  getpath_value call ["callee"; "kind"] = Ret kind ->
  py_eq_str kind "type" = false ->
  getpath_value call function_path = Ret (JDict func) ->
  dict_get "parameters" func = Some parameters ->
  py_iter (or_empty_list parameters) = Ret params ->
  Forall has_keyword_only_flag params ->
  getpath_value call in_kwargs_path = Ret in_kwargs ->
  py_getitem call "arg_index" = Ret arg_index ->
  SH_lock w = false ->
  let stored :=
    set_path function_path
             (with_groups (filter is_positional params)
                          (filter is_keyword_only params) func)
             call in
  SignaturesHandler._request_signatures view data (Responded resp body) w
  = (Ret tt,
     mkWorld (ED_last_selection_region w) (CH_received_completions w)
             (CH_last_location w) true (Some view) stored false
             (trace w ++ [HttpPost "/clientapi/editor/signatures" data;
                          Log (CallIndex (truthy in_kwargs) arg_index);
                          Acquire; Write F_activated; Write F_view;
                          Write F_call; Release;
                          ShowPopup view (panel in_kwargs arg_index stored)
                                    None])).
Proof.
  intros ok some_body decoded its_calls its_kind no_type its_function
         its_parameters iterated flagged its_kwargs its_index free stored.
  pose proof (not_body_false body some_body) as has_body.
  assert (stored_kwargs : getpath_value stored in_kwargs_path = Ret in_kwargs).
  { unfold stored, function_path, in_kwargs_path.
    rewrite getpath_value_other_head by discriminate. exact its_kwargs. }
  assert (stored_index : py_getitem stored "arg_index" = Ret arg_index).
  { pose proof (getpath_value_other_head "callee" "arg_index"
                  ["details"; "function"] []
                  (with_groups (filter is_positional params)
                               (filter is_keyword_only params) func)
                  call) as same.
    cbn [getpath_value] in same. unfold stored, function_path.
    destruct (py_getitem (set_path _ _ call) "arg_index") eqn:E1,
             (py_getitem call "arg_index") eqn:E2;
      try (specialize (same ltac:(discriminate)); congruence). }
  unfold SignaturesHandler._request_signatures.
  rewrite (bind_ret_run _ _ _ _ _ (kited_post_run _ data resp body w)).
  cbn [fst snd]. rewrite ok, has_body. cbn [Z.eqb Pos.eqb negb orb].
  unfold try_except.
  match goal with
  | |- (let (o, w') := ?m ?w1 in _) = _ =>
      assert (ran : m w1 = (Ret tt,
        mkWorld (ED_last_selection_region w) (CH_received_completions w)
                (CH_last_location w) true (Some view) stored false
                (trace w ++ [HttpPost "/clientapi/editor/signatures" data;
                             Log (CallIndex (truthy in_kwargs) arg_index);
                             Acquire; Write F_activated; Write F_view;
                             Write F_call; Release;
                             ShowPopup view (panel in_kwargs arg_index stored)
                                       None])));
      [ | rewrite ran; reflexivity ]
  end.
  rewrite (bind_ret_run _ _ _ _ _ (loads_run body resp_data _ decoded)).
  rewrite (bind_lift_run _ _ _ _ its_calls).
  cbv zeta. unfold or_empty_list at 1 2. cbn [truthy py_len py_getitem0].
  rewrite (bind_lift_run _ _ _ _ eq_refl).
  cbn [List.length Z.of_nat Z.eqb].
  rewrite (bind_lift_run _ _ _ _ eq_refl).
  rewrite (bind_getpath_run _ _ _ _ _ its_kind).
  rewrite no_type.
  rewrite bind_of_ret.
  rewrite (bind_getpath_run _ _ _ _ _ its_function).
  cbn [py_update fold_left fst snd].
  rewrite (bind_lift_run _ _ _ _ eq_refl).
  set (func0 := dict_set "keyword_only_parameters" (JList [])
                  (dict_set "positional_parameters" (JList []) func)).
  assert (lookup0 : py_getitem (JDict func0) "parameters" = Ret parameters).
  { cbn [py_getitem]. unfold func0.
    rewrite !dict_get_set_other by discriminate. now rewrite its_parameters. }
  rewrite (bind_lift_run _ _ _ _ lookup0).
  rewrite (bind_lift_run _ _ _ _ iterated).
  assert (split_up :
            SignaturesHandler.partition_parameters params (JDict func0)
              (added [HttpPost "/clientapi/editor/signatures" data] w)
            = (Ret (with_groups (filter is_positional params)
                                (filter is_keyword_only params) func),
               added [HttpPost "/clientapi/editor/signatures" data] w)).
  { rewrite (partition_parameters_run params func0 [] [] _);
      [ | unfold func0; rewrite dict_get_set_other by discriminate;
          apply dict_get_set_same
        | unfold func0; apply dict_get_set_same
        | exact flagged ].
    cbn [app]. unfold with_groups, func0. do 3 f_equal.
    rewrite (dict_set_swap "positional_parameters" "keyword_only_parameters")
      by first [ discriminate | rewrite dict_get_set_same; discriminate ].
    now rewrite !dict_set_set_same. }
  rewrite (bind_ret_run _ _ _ _ _ split_up).
  fold function_path. fold stored. fold in_kwargs_path.
  rewrite (bind_getpath_run _ _ _ _ _ stored_kwargs).
  rewrite (bind_lift_run _ _ _ _ stored_index).
  rewrite bind_log_run.
  rewrite (store_run view stored in_kwargs arg_index);
    [ same_world | exact free | exact stored_kwargs | exact stored_index ].
Qed.

End Stored.


Lemma signatures_stored_for_function_witness :
  let view := Scenario.small_view in
  let data := Scenario.fetch_data view 5 in
  let x := Scenario.call_parameter "x" false in
  let key := Scenario.call_parameter "key" true in
  let run :=
    SignaturesHandler._request_signatures (H := Scenario.scenario_host)
      view data (Responded (mkResponse 200) Scenario.signatures_body)
      init_world in
  fst run = Ret tt /\
  SH_activated (snd run) = true /\
  SH_view (snd run) = Some view /\
  getpath_value (SH_call (snd run))
                (function_path ++ ["positional_parameters"])
  = Ret (JList [x]) /\
  getpath_value (SH_call (snd run))
                (function_path ++ ["keyword_only_parameters"])
  = Ret (JList [key]) /\
  trace (snd run)
  = [HttpPost "/clientapi/editor/signatures" data;
     Log (CallIndex false (JInt 0));
     Acquire; Write F_activated; Write F_view; Write F_call; Release;
     ShowPopup view "<div>f(x, *, key)</div>" None].
Proof.
  intros view data x key run. subst run.
  rewrite (signatures_stored_for_function (H := Scenario.scenario_host)
             view data (mkResponse 200) Scenario.signatures_body
             Scenario.signatures_response Scenario.call_f (JStr "function")
             (JList [x; key]) [] [x; key]
             [("parameters", JList [x; key])]
             (JBool false) (JInt 0) init_world);
    [ repeat split | reflexivity | discriminate | reflexivity | reflexivity
    | reflexivity | reflexivity | reflexivity | reflexivity | reflexivity
    | repeat constructor; eexists; reflexivity
    | reflexivity | reflexivity | reflexivity ].
Defined.

(** ** A signatures fetch that succeeds for a type *)

Lemma getpath_value_app (p q : list string) :
  forall o,
    getpath_value o (p ++ q)
    = match getpath_value o p with
      | Ret v => getpath_value v q
      | Raise e => Raise e
      end.
Proof.
  induction p as [|k p IH]; intros o; [ reflexivity | ].
  cbn [app getpath_value].
  destruct (py_getitem o k) as [child|e]; [ apply IH | reflexivity ].
Qed.

Lemma set_path_app (p q : list string) (v : json) :
  forall o child,
    getpath_value o p = Ret child ->
    set_path (p ++ q) v o = set_path p (set_path q v child) o.
Proof.
  induction p as [|k p IH]; intros o child found.
  - cbn in found. injection found as ->. reflexivity.
  - cbn [getpath_value] in found.
    destruct o as [| | | | | |fields]; try discriminate found.
    cbn [py_getitem] in found.
    destruct (dict_get k fields) as [below|] eqn:E; [ | discriminate found ].
    cbn [app set_path]. rewrite E.
    now rewrite (IH below child found).
Qed.

Lemma getpath_value_set_there (p : list string) (v : json) :
  forall o child,
    getpath_value o p = Ret child ->
    getpath_value (set_path p v o) p = Ret v.
Proof.
  induction p as [|k p IH]; intros o child found; [ reflexivity | ].
  cbn [getpath_value] in found.
  destruct o as [| | | | | |fields]; try discriminate found.
  cbn [py_getitem] in found.
  destruct (dict_get k fields) as [below|] eqn:E; [ | discriminate found ].
  cbn [set_path]. rewrite E. cbn [getpath_value py_getitem].
  rewrite dict_get_set_same. exact (IH below child found).
Qed.

Lemma py_getitem_other_head (k k' : string) (rest : list string) (v o : json) :
  k <> k' ->
  py_getitem (set_path (k :: rest) v o) k' = py_getitem o k'.
Proof.
  intros differ.
  pose proof (getpath_value_other_head k k' rest [] v o differ) as same.
  cbn [getpath_value] in same.
  destruct (py_getitem (set_path (k :: rest) v o) k'),
           (py_getitem o k'); congruence.
Qed.

(** Setting one key of a dict, whether it is there or not. *)
Lemma set_path_key (k : string) (v : json) (d : list (string * json)) :
  set_path [k] v (JDict d) = JDict (dict_set k v d).
Proof. cbn [set_path]. now destruct (dict_get k d). Qed.

Section StoredType.
Context `{Host}.

(** X15. A signatures fetch that succeeds for a type.  When the callee of
    the first call of a 200 response is of kind 'type', the constructor of
    the type is put in the place of the function object, and it is one
    object in both places: in the call that is stored and rendered, the
    function object and the constructor are both the constructor with its
    parameters split into the positional and the keyword-only ones.  The
    call is otherwise unchanged; the state becomes active with the view, and
    one popup is shown. *)
Theorem signatures_stored_for_type (view : View) (data : FetchData)
  (resp : Response) (body : bytes) (resp_data call kind parameters : json)
  (others params : list json) (func : list (string * json))
  (in_kwargs arg_index : json) (w : World) :
  status resp = 200 ->
  body <> [] ->
  json_loads body = inr resp_data ->
  py_getitem resp_data "calls" = Ret (JList (call :: others)) ->
  getpath_value call ["callee"; "kind"] = Ret kind ->
  py_eq_str kind "type" = true ->
  getpath_value call constructor_path = Ret (JDict func) ->
  dict_get "parameters" func = Some parameters ->
  py_iter (or_empty_list parameters) = Ret params ->
  Forall has_keyword_only_flag params ->
  getpath_value call in_kwargs_path = Ret in_kwargs ->
  py_getitem call "arg_index" = Ret arg_index ->
  SH_lock w = false ->
  let grouped :=
    with_groups (filter is_positional params)
                (filter is_keyword_only params) func in
  let stored :=
    set_path constructor_path grouped
      (set_path function_path grouped
         (set_path function_path (JDict func) call)) in
  getpath_value stored function_path = Ret grouped /\
  getpath_value stored constructor_path = Ret grouped /\
  SignaturesHandler._request_signatures view data (Responded resp body) w
  = (Ret tt,
     mkWorld (ED_last_selection_region w) (CH_received_completions w)
             (CH_last_location w) true (Some view) stored false
             (trace w ++ [HttpPost "/clientapi/editor/signatures" data;
                          Log (CallIndex (truthy in_kwargs) arg_index);
                          Acquire; Write F_activated; Write F_view;
                          Write F_call; Release;
                          ShowPopup view (panel in_kwargs arg_index stored)
                                    None])).
Proof.
  intros ok some_body decoded its_calls its_kind is_type its_constructor
         its_parameters iterated flagged its_kwargs its_index free
         grouped stored.
  pose proof (not_body_false body some_body) as has_body.
  set (place := ["callee"; "details"]).
  set (inner := ["type"; "language_details"; "python"; "constructor"]).
  assert (its_details :
            exists fields,
              getpath_value call place = Ret (JDict fields) /\
              getpath_value (JDict fields) inner = Ret (JDict func)).
  { change constructor_path with (place ++ inner)%list in its_constructor.
    rewrite getpath_value_app in its_constructor.
    destruct (getpath_value call place) as [details|] eqn:E;
      [ | discriminate its_constructor ].
    destruct details as [| | | | | |fields];
      try discriminate its_constructor.
    now exists fields. }
  destruct its_details as (fields & its_details & its_inner).
  set (call1 := set_path function_path (JDict func) call) in *.
  set (call2 := set_path function_path grouped call1) in *.
  (* the three calls below [place] *)
  assert (shape1 :
            call1 = set_path place
                      (JDict (dict_set "function" (JDict func) fields)) call).
  { unfold call1. change function_path with (place ++ ["function"])%list.
    rewrite (set_path_app place ["function"] _ call _ its_details).
    now rewrite set_path_key. }
  assert (details1 :
            getpath_value call1 place
            = Ret (JDict (dict_set "function" (JDict func) fields))).
  { rewrite shape1. exact (getpath_value_set_there place _ call _ its_details). }
  assert (function1 : getpath_value call1 function_path = Ret (JDict func)).
  { change function_path with (place ++ ["function"])%list.
    rewrite getpath_value_app, details1. cbn [getpath_value py_getitem].
    now rewrite dict_get_set_same. }
  set (fields2 := dict_set "function" grouped
                    (dict_set "function" (JDict func) fields)).
  assert (details2 : getpath_value call2 place = Ret (JDict fields2)).
  { unfold call2. change function_path with (place ++ ["function"])%list.
    rewrite (set_path_app place ["function"] _ call1 _ details1).
    rewrite set_path_key.
    exact (getpath_value_set_there place _ call1 _ details1). }
  assert (inner2 : getpath_value (JDict fields2) inner = Ret (JDict func)).
  { unfold inner in *. cbn [getpath_value py_getitem] in *. unfold fields2.
    rewrite !dict_get_set_other by discriminate. exact its_inner. }
  assert (details3 :
            getpath_value stored place
            = Ret (set_path inner grouped (JDict fields2))).
  { unfold stored. fold call1. fold call2.
    change constructor_path with (place ++ inner)%list.
    rewrite (set_path_app place inner _ call2 _ details2).
    exact (getpath_value_set_there place _ call2 _ details2). }
  assert (stored_function : getpath_value stored function_path = Ret grouped).
  { change function_path with (place ++ ["function"])%list.
    rewrite getpath_value_app, details3. unfold inner.
    rewrite getpath_value_other_head by discriminate.
    cbn [getpath_value py_getitem]. unfold fields2.
    now rewrite dict_get_set_same. }
  assert (stored_constructor :
            getpath_value stored constructor_path = Ret grouped).
  { change constructor_path with (place ++ inner)%list.
    rewrite getpath_value_app, details3.
    exact (getpath_value_set_there inner _ _ _ inner2). }
  assert (stored_kwargs : getpath_value stored in_kwargs_path = Ret in_kwargs).
  { unfold stored, call2, call1, function_path, constructor_path,
      in_kwargs_path.
    rewrite !getpath_value_other_head by discriminate. exact its_kwargs. }
  assert (stored_index : py_getitem stored "arg_index" = Ret arg_index).
  { unfold stored, call2, call1, function_path, constructor_path.
    rewrite !py_getitem_other_head by discriminate. exact its_index. }
  refine (conj stored_function (conj stored_constructor _)).
  unfold SignaturesHandler._request_signatures.
  rewrite (bind_ret_run _ _ _ _ _ (kited_post_run _ data resp body w)).
  cbn [fst snd]. rewrite ok, has_body. cbn [Z.eqb Pos.eqb negb orb].
  unfold try_except.
  match goal with
  | |- (let (o, w') := ?m ?w1 in _) = _ =>
      assert (ran : m w1 = (Ret tt,
        mkWorld (ED_last_selection_region w) (CH_received_completions w)
                (CH_last_location w) true (Some view) stored false
                (trace w ++ [HttpPost "/clientapi/editor/signatures" data;
                             Log (CallIndex (truthy in_kwargs) arg_index);
                             Acquire; Write F_activated; Write F_view;
                             Write F_call; Release;
                             ShowPopup view (panel in_kwargs arg_index stored)
                                       None])));
      [ | rewrite ran; reflexivity ]
  end.
  rewrite (bind_ret_run _ _ _ _ _ (loads_run body resp_data _ decoded)).
  rewrite (bind_lift_run _ _ _ _ its_calls).
  cbv zeta. unfold or_empty_list at 1 2. cbn [truthy py_len py_getitem0].
  rewrite (bind_lift_run _ _ _ _ eq_refl).
  cbn [List.length Z.of_nat Z.eqb].
  rewrite (bind_lift_run _ _ _ _ eq_refl).
  rewrite (bind_getpath_run _ _ _ _ _ its_kind).
  rewrite is_type.
  match goal with
  | |- bind ?block _ ?w1 = _ =>
      assert (replaced : block w1 = (Ret call1, w1))
  end.
  { fold constructor_path.
    rewrite (bind_getpath_run _ _ _ _ _ its_constructor).
    fold place.
    rewrite (bind_getpath_run _ _ _ _ _ its_details).
    cbn [py_setitem].
    rewrite (bind_lift_run _ _ _ _ eq_refl).
    reflexivity. }
  rewrite (bind_ret_run _ _ _ _ _ replaced).
  fold function_path.
  rewrite (bind_getpath_run _ _ _ _ _ function1).
  cbn [py_update fold_left fst snd].
  rewrite (bind_lift_run _ _ _ _ eq_refl).
  set (func0 := dict_set "keyword_only_parameters" (JList [])
                  (dict_set "positional_parameters" (JList []) func)).
  assert (lookup0 : py_getitem (JDict func0) "parameters" = Ret parameters).
  { cbn [py_getitem]. unfold func0.
    rewrite !dict_get_set_other by discriminate. now rewrite its_parameters. }
  rewrite (bind_lift_run _ _ _ _ lookup0).
  rewrite (bind_lift_run _ _ _ _ iterated).
  assert (split_up :
            SignaturesHandler.partition_parameters params (JDict func0)
              (added [HttpPost "/clientapi/editor/signatures" data] w)
            = (Ret grouped,
               added [HttpPost "/clientapi/editor/signatures" data] w)).
  { rewrite (partition_parameters_run params func0 [] [] _);
      [ | unfold func0; rewrite dict_get_set_other by discriminate;
          apply dict_get_set_same
        | unfold func0; apply dict_get_set_same
        | exact flagged ].
    cbn [app]. unfold grouped, with_groups, func0. do 3 f_equal.
    rewrite (dict_set_swap "positional_parameters" "keyword_only_parameters")
      by first [ discriminate | rewrite dict_get_set_same; discriminate ].
    now rewrite !dict_set_set_same. }
  rewrite (bind_ret_run _ _ _ _ _ split_up).
  fold function_path. fold call2. fold constructor_path. fold stored.
  fold in_kwargs_path.
  rewrite (bind_getpath_run _ _ _ _ _ stored_kwargs).
  rewrite (bind_lift_run _ _ _ _ stored_index).
  rewrite bind_log_run.
  rewrite (store_run view stored in_kwargs arg_index);
    [ same_world | exact free | exact stored_kwargs | exact stored_index ].
Qed.

End StoredType.

Lemma signatures_stored_for_type_witness :
  let view := Scenario.small_view in
  let data := Scenario.fetch_data view 5 in
  let x := Scenario.call_parameter "x" false in
  let key := Scenario.call_parameter "key" true in
  let run :=
    SignaturesHandler._request_signatures (H := Session.session_host)
      view data (Responded (mkResponse 200) Session.type_body) init_world in
  fst run = Ret tt /\
  SH_activated (snd run) = true /\
  getpath_value (SH_call (snd run))
                (function_path ++ ["positional_parameters"])
  = Ret (JList [x]) /\
  getpath_value (SH_call (snd run))
                (constructor_path ++ ["keyword_only_parameters"])
  = Ret (JList [key]) /\
  getpath_value (SH_call (snd run)) function_path
  = getpath_value (SH_call (snd run)) constructor_path.
Proof.
  intros view data x key run. subst run.
  destruct (signatures_stored_for_type (H := Session.session_host)
              view data (mkResponse 200) Session.type_body
              Session.type_response Session.call_C (JStr "type")
              (JList [x; key]) [] [x; key]
              [("parameters", JList [x; key])]
              (JBool false) (JInt 0) init_world)
    as (_ & _ & ran);
    [ reflexivity | discriminate | reflexivity | reflexivity | reflexivity
    | reflexivity | reflexivity | reflexivity | reflexivity
    | repeat constructor; eexists; reflexivity
    | reflexivity | reflexivity | reflexivity | ].
  rewrite ran. repeat split.
Defined.


(** ** The lock is given back, and rendering cannot fail *)

Ltac stored_call_renders :=
  match goal with
  | its_kwargs : getpath_value ?c ["language_details"; "python"; "in_kwargs"]
                 = Ret ?k,
    its_index : py_getitem ?c "arg_index" = Ret ?i |- renders ?c =>
      exists k, i; split; [ exact its_kwargs | exact its_index ]
  end.

Ltac unfold_entry_points :=
  unfold EventDispatcher.on_modified, EventDispatcher.on_selection_modified,
    EventDispatcher._handle, EventDispatcher._event_data,
    EventDispatcher.end_of, EventDispatcher.greater_than_1,
    CompletionsHandler.on_query_completions,
    CompletionsHandler.queue_completions, CompletionsHandler.hide_completions,
    CompletionsHandler._run_auto_complete, CompletionsHandler._event_data,
    CompletionsHandler._request_completions,
    SignaturesHandler.queue_signatures,
    SignaturesHandler.is_activated, SignaturesHandler._event_data,
    SignaturesHandler._request_signatures,
    SignaturesHandler.on_post_text_command,
    HoverHandler.on_hover, HoverHandler._event_url,
    HoverHandler._request_hover,
    StatusHandler._handle, StatusHandler.on_activated,
    StatusHandler.on_selection_modified, StatusHandler.capitalized,
    kited_post, kited_get, answer_of,
    defer, log, run_command, show_popup, hide_popup, set_status, erase_status.

Section Ready.
Context `{Host}.

(** The section of [_request_signatures] under the lock, followed by [rest],
    for a call that renders. *)
Lemma store_then_run (view : View) (call in_kwargs arg_index : json)
  {B : Type} (rest : option string -> M B) (w : World) :
  getpath_value call in_kwargs_path = Ret in_kwargs ->
  py_getitem call "arg_index" = Ret arg_index ->
  (acquired <- SignaturesHandler.try_acquire ;;
   content <- (if acquired
               then (SignaturesHandler.set_activated true ;;
                     SignaturesHandler.set_view (Some view) ;;
                     SignaturesHandler.set_call call ;;
                     content <- SignaturesHandler._render call ;;
                     SignaturesHandler.release ;;
                     ret (Some content))
               else ret None) ;;
   rest content) w
  = if SH_lock w
    then rest None w
    else rest (Some (panel in_kwargs arg_index call))
              (mkWorld (ED_last_selection_region w) (CH_received_completions w)
                       (CH_last_location w) true (Some view) call false
                       (trace w ++ [Acquire; Write F_activated; Write F_view;
                                    Write F_call; Release])).
Proof.
  intros its_kwargs its_index.
  unfold SignaturesHandler.try_acquire, SignaturesHandler.set_activated,
    SignaturesHandler.set_view, SignaturesHandler.set_call,
    SignaturesHandler.release.
  unfold bind at 1 2. unfold gets at 1. cbn [fst snd].
  destruct (SH_lock w) eqn:lock; [ reflexivity | ].
  unfold bind, emit, modify, ret. cbn.
  match goal with
  | |- context [SignaturesHandler._render call ?w1] =>
      rewrite (render_run in_kwargs arg_index call w1 eq_refl its_kwargs
                          its_index)
  end.
  cbn. rewrite <- !app_assoc. reflexivity.
Qed.

(** What the two parts of [_rerender] do, the first in a ready state. *)
Lemma rerender_content_run (w : World) :
  signatures_ready w ->
  SignaturesHandler._rerender_content w
  = (Ret (rerender_content w), rerender_released w).
Proof.
  intros ready.
  unfold SignaturesHandler._rerender_content, SignaturesHandler.try_acquire,
    SignaturesHandler.release, rerender_content, rerender_released,
    stored_panel.
  unfold bind at 1 2. unfold gets at 1. cbn [fst snd].
  destruct (SH_lock w) eqn:lock; [ reflexivity | ].
  unfold signatures_ready in ready.
  destruct (SH_activated w) eqn:active.
  - destruct (ready eq_refl) as (some_view & in_kwargs & arg_index & its_kwargs
                                 & its_index).
    rewrite its_kwargs, its_index.
    unfold bind, emit, modify, gets, ret. cbn. rewrite active.
    match goal with
    | |- context [SignaturesHandler._render ?c ?w1] =>
        rewrite (render_run in_kwargs arg_index c w1 active its_kwargs
                            its_index)
    end.
    cbn. unfold added, set_trace. cbn.
    rewrite <- !app_assoc, lock. reflexivity.
  - unfold bind, emit, modify, gets, ret. cbn. rewrite active. cbn.
    unfold added, set_trace. cbn. rewrite <- !app_assoc, lock.
    reflexivity.
Qed.

Lemma rerender_popup_run (content : option string) (w : World) :
  SignaturesHandler._rerender_popup content w
  = match content with
    | None => (Ret tt, w)
    | Some c =>
        match SH_view w with
        | Some view => (Ret tt, added [ShowPopup view c None] w)
        | None => (Raise AttributeError, w)
        end
    end.
Proof.
  unfold SignaturesHandler._rerender_popup.
  destruct content as [c|]; [ | reflexivity ].
  unfold bind, gets. cbn [fst snd].
  destruct (SH_view w); reflexivity.
Qed.

Lemma rerender_amid_run (others : World -> World) (w : World) :
  signatures_ready w ->
  SignaturesHandler._rerender_amid others w
  = SignaturesHandler._rerender_popup (rerender_content w)
                                      (others (rerender_released w)).
Proof.
  intros ready. unfold SignaturesHandler._rerender_amid.
  unfold bind at 1. rewrite (rerender_content_run w ready).
  reflexivity.
Qed.

Lemma rerender_run (w : World) :
  signatures_ready w ->
  SignaturesHandler._rerender w =
  (Ret tt,
   if SH_lock w then w
   else match SH_activated w, SH_view w with
        | true, Some view =>
            added [Acquire; Release; ShowPopup view (stored_panel w) None] w
        | _, _ => added [Acquire; Release] w
        end).
Proof.
  intros ready. unfold SignaturesHandler._rerender.
  unfold bind at 1. rewrite (rerender_content_run w ready).
  rewrite rerender_popup_run.
  unfold rerender_content, rerender_released.
  destruct (SH_lock w) eqn:lock; [ reflexivity | ].
  destruct (SH_activated w) eqn:active; [ | reflexivity ].
  destruct (ready active) as (some_view & _).
  destruct (SH_view w) as [view|] eqn:stored; [ | now elim some_view ].
  cbn [SH_view added set_trace]. rewrite stored.
  unfold added, set_trace. cbn. rewrite <- !app_assoc. reflexivity.
Qed.

Lemma pres_bind_getpath (I : World -> Prop) {B : Type} (o : json)
  (path : list string) (f : json -> M B) :
  (forall a, getpath_value o path = Ret a -> pres I (f a)) ->
  pres I (bind (getpath o path) f).
Proof.
  intros Hf w Hw. unfold world_after, bind. rewrite getpath_run.
  destruct (getpath_value o path) as [a|e] eqn:found; cbn;
    [ apply (Hf a eq_refl); exact Hw | exact Hw ].
Qed.

Lemma pres_ready_hide_signatures (held : bool) (view : View) :
  pres (ready_with_lock held) (SignaturesHandler.hide_signatures view).
Proof.
  intros w [ready lock]. unfold world_after. rewrite hide_signatures_run.
  cbn [snd]. rewrite lock. destruct held; [ split; assumption | ].
  split; [ intros active; discriminate active | reflexivity ].
Qed.

Lemma pres_ready_store (held : bool) (view : View) (call : json)
  (rest : option string -> M unit) :
  renders call ->
  (forall content, pres (ready_with_lock held) (rest content)) ->
  pres (ready_with_lock held)
    (acquired <- SignaturesHandler.try_acquire ;;
     content <- (if acquired
                 then (SignaturesHandler.set_activated true ;;
                       SignaturesHandler.set_view (Some view) ;;
                       SignaturesHandler.set_call call ;;
                       content <- SignaturesHandler._render call ;;
                       SignaturesHandler.release ;;
                       ret (Some content))
                 else ret None) ;;
     rest content).
Proof.
  intros (in_kwargs & arg_index & its_kwargs & its_index) Hrest w [ready lock].
  unfold world_after.
  rewrite (store_then_run view call in_kwargs arg_index rest w its_kwargs
                          its_index).
  rewrite lock. destruct held.
  - apply (Hrest None). split; assumption.
  - apply (Hrest (Some _)). split; [ | reflexivity ].
    intros _. split; [ discriminate | ].
    exists in_kwargs, arg_index. split; assumption.
Qed.

Lemma pres_ready_rerender (held : bool) :
  pres (ready_with_lock held) SignaturesHandler._rerender.
Proof.
  intros w [ready lock]. unfold world_after.
  rewrite (rerender_run w ready). cbn [snd]. rewrite lock.
  destruct held; [ split; assumption | ].
  destruct (SH_activated w), (SH_view w);
    (split; [ exact ready | exact lock ]).
Qed.

Ltac ready_leaf :=
  idtac;
  match goal with
  | |- pres (ready_with_lock _) (emit _) =>
      let w := fresh "w" in let E := fresh "E" in intros w E; exact E
  | |- pres (ready_with_lock _) (modify _) =>
      let w := fresh "w" in let E := fresh "E" in intros w E; exact E
  end.

Ltac ready_auto :=
  repeat first
    [ apply pres_ready_hide_signatures
    | apply pres_ready_rerender
    | apply pres_ready_store; [ stored_call_renders | intros ? ]
    | match goal with
      | |- pres _ (bind (lift _) _) => apply pres_bind_lift; intros ? ?
      | |- pres _ (bind (getpath _ _) _) => apply pres_bind_getpath; intros ? ?
      end
    | pres_step
    | progress cbv zeta
    | progress unfold_entry_points
    | ready_leaf ].

(** Every entry point keeps the state ready and leaves the lock as it found
    it. *)
Lemma run_op_keeps_ready (held : bool) (op : Op) (w : World) :
  ready_with_lock held w ->
  ready_with_lock (match op with OtherThreadLock b => b | _ => held end)
                  (run_op op w).
Proof.
  revert w.
  destruct op; cbn [run_op];
    try match goal with
        | |- forall w, _ -> ready_with_lock _ (world_after ?m w) =>
            change (pres (ready_with_lock held) m)
        end;
    try (ready_auto; fail).
  intros w [ready _]. split; [ exact ready | reflexivity ].
Qed.

Lemma reachable_ready (w : World) : reachable w -> signatures_ready w.
Proof.
  intros reached. induction reached as [|w op _ IH].
  - intros active. discriminate active.
  - apply (run_op_keeps_ready (SH_lock w) op w). split; [ exact IH | reflexivity ].
Qed.

(** X16. In every reachable state in which signatures are active, a view to
    show them on is stored and the stored call has the ['in_kwargs'] and the
    ['arg_index'] that rendering reads. *)
Theorem active_signatures_can_render (w : World) :
  reachable w ->
  SH_activated w = true ->
  (exists view, SH_view w = Some view) /\
  (exists in_kwargs arg_index,
     getpath_value (SH_call w) in_kwargs_path = Ret in_kwargs /\
     py_getitem (SH_call w) "arg_index" = Ret arg_index).
Proof.
  intros reached active.
  destruct (reachable_ready w reached active) as [some_view renders].
  split; [ | exact renders ].
  destruct (SH_view w) as [view|]; [ now exists view | now elim some_view ].
Qed.

(** X17. No entry point keeps the lock of SignaturesHandler: from a
    reachable state, whatever the entry point and whatever the service
    answers, also when the handler ends in an exception, the lock is
    afterwards held exactly if it was held (by another thread) before.
    (The rendering of the template is taken to return.) *)
Theorem lock_is_given_back (op : Op) (w : World) :
  reachable w ->
  SH_lock (run_op op w)
  = match op with OtherThreadLock held => held | _ => SH_lock w end.
Proof.
  intros reached.
  apply (run_op_keeps_ready (SH_lock w) op w).
  split; [ apply reachable_ready; exact reached | reflexivity ].
Qed.

(** X18. [_rerender] writes no attribute and requests nothing.  With the
    lock held, or with signatures not active, it shows nothing and returns,
    whatever other threads do meanwhile.  With the lock free and signatures
    active, in a reachable state, it renders the panel of the stored call
    under the lock; the popup is then shown on the view that is stored once
    the lock has been given back.  With no other thread in between, that is
    the view stored before and the call returns without an exception.  When
    another thread has set the view to None in between (a [hide_signatures]),
    the call ends in an AttributeError; when it has stored another view, the
    panel of the earlier call is shown on that view. *)
Theorem rerender_only_shows (others : World -> World) (w : World) :
  reachable w ->
  let released := if SH_lock w then w else added [Acquire; Release] w in
  (SH_lock w = true \/ SH_activated w = false ->
   SignaturesHandler._rerender_amid others w = (Ret tt, others released)) /\
  (SH_lock w = false -> SH_activated w = true ->
   exists view in_kwargs arg_index,
     SH_view w = Some view /\
     getpath_value (SH_call w) in_kwargs_path = Ret in_kwargs /\
     py_getitem (SH_call w) "arg_index" = Ret arg_index /\
     let content := panel in_kwargs arg_index (SH_call w) in
     SignaturesHandler._rerender w
     = (Ret tt, added [Acquire; Release; ShowPopup view content None] w) /\
     (forall view',
        SH_view (others released) = Some view' ->
        SignaturesHandler._rerender_amid others w
        = (Ret tt, added [ShowPopup view' content None] (others released))) /\
     (SH_view (others released) = None ->
      SignaturesHandler._rerender_amid others w
      = (Raise AttributeError, others released))).
Proof.
  intros reached released.
  pose proof (reachable_ready w reached) as ready.
  rewrite (rerender_amid_run others w ready), (rerender_run w ready).
  rewrite rerender_popup_run.
  unfold rerender_content, rerender_released. fold released.
  split.
  - intros [held | inactive].
    + now rewrite held.
    + rewrite inactive. now destruct (SH_lock w).
  - intros free active. subst released. rewrite free, active.
    destruct (ready active) as (some_view & in_kwargs & arg_index & its_kwargs
                                & its_index).
    destruct (SH_view w) as [view|] eqn:stored; [ | now elim some_view ].
    exists view, in_kwargs, arg_index.
    unfold stored_panel. rewrite its_kwargs, its_index.
    refine (conj eq_refl (conj eq_refl (conj eq_refl (conj eq_refl _)))).
    split.
    + intros view' later. now rewrite later.
    + intros later. now rewrite later.
Qed.

End Ready.


Lemma active_signatures_can_render_witness :
  let w := Scenario.world_with_signatures in
  (exists view, SH_view w = Some view) /\
  (exists in_kwargs arg_index,
     getpath_value (SH_call w) in_kwargs_path = Ret in_kwargs /\
     py_getitem (SH_call w) "arg_index" = Ret arg_index).
Proof.
  intros w.
  apply (active_signatures_can_render (H := Scenario.scenario_host) w);
    [ apply reachable_step, reachable_init | reflexivity ].
Defined.

Lemma lock_is_given_back_witness :
  let view := Scenario.small_view in
  SH_lock (run_op (H := Scenario.scenario_host)
             (RunRequestSignatures view (Scenario.fetch_data view 5)
                                   (Responded (mkResponse 404) []))
             Scenario.world_with_signatures)
  = false.
Proof.
  intros view.
  rewrite (lock_is_given_back (H := Scenario.scenario_host)
             (RunRequestSignatures view (Scenario.fetch_data view 5)
                                   (Responded (mkResponse 404) []))
             Scenario.world_with_signatures);
    [ reflexivity | apply reachable_step, reachable_init ].
Defined.

Lemma rerender_only_shows_witness :
  let w := Scenario.world_with_signatures in
  let view := Scenario.small_view in
  let not_found :=
    run_op (H := Scenario.scenario_host)
           (RunRequestSignatures view (Scenario.fetch_data view 5)
                                 (Responded (mkResponse 404) [])) in
  let released := added [Acquire; Release] w in
  SignaturesHandler._rerender (H := Scenario.scenario_host) w
  = (Ret tt,
     added [Acquire; Release; ShowPopup view "<div>f(x, *, key)</div>" None]
           w) /\
  SignaturesHandler._rerender_amid (H := Scenario.scenario_host) not_found w
  = (Raise AttributeError, not_found released).
Proof.
  intros w view not_found released.
  destruct (rerender_only_shows (H := Scenario.scenario_host) not_found w)
    as (_ & active); [ apply reachable_step, reachable_init | ].
  destruct (active eq_refl eq_refl)
    as (view0 & in_kwargs & arg_index & its_view & _ & _ & alone & _ & raced).
  injection its_view as <-.
  split; [ rewrite alone; reflexivity | exact (raced eq_refl) ].
Defined.


(** ** Exceptions leave nothing half done *)

Section Clean.
Context `{Host}.
Variable I : World -> Prop.

Lemma raises_clean_pres {A : Type} (m : M A) : pres I m -> raises_clean I m.
Proof.
  intros Hm w Hw e w' ran. specialize (Hm w Hw). unfold world_after in Hm.
  now rewrite ran in Hm.
Qed.

Lemma raises_clean_returns {A : Type} (m : M A) : returns m -> raises_clean I m.
Proof.
  intros Hm w _ e w' ran. destruct (Hm w) as (a & w2 & ran').
  rewrite ran in ran'. discriminate ran'.
Qed.

Lemma raises_clean_bind {A B : Type} (m : M A) (f : A -> M B) :
  pres I m -> (forall a, raises_clean I (f a)) -> raises_clean I (bind m f).
Proof.
  intros Hm Hf w Hw e w' ran. unfold bind in ran.
  specialize (Hm w Hw). unfold world_after in Hm.
  destruct (m w) as [[a|e0] w1]; cbn in Hm.
  - exact (Hf a w1 Hm e w' ran).
  - injection ran as <- <-. exact Hm.
Qed.

Lemma raises_clean_bind_lift {A B : Type} (o : outcome A) (f : A -> M B) :
  (forall a, o = Ret a -> raises_clean I (f a)) ->
  raises_clean I (bind (lift o) f).
Proof.
  intros Hf w Hw e w' ran. unfold bind, lift in ran.
  destruct o as [a|e0].
  - exact (Hf a eq_refl w Hw e w' ran).
  - injection ran as <- <-. exact Hw.
Qed.

Lemma raises_clean_bind_getpath {B : Type} (o : json) (path : list string)
  (f : json -> M B) :
  (forall a, getpath_value o path = Ret a -> raises_clean I (f a)) ->
  raises_clean I (bind (getpath o path) f).
Proof.
  intros Hf w Hw e w' ran. unfold bind in ran. rewrite getpath_run in ran.
  destruct (getpath_value o path) as [a|e0] eqn:found.
  - exact (Hf a eq_refl w Hw e w' ran).
  - injection ran as <- <-. exact Hw.
Qed.

Lemma raises_clean_try_except {A : Type} (m : M A) (h : exn -> option (M A)) :
  raises_clean I m ->
  (forall e k, h e = Some k -> returns k) ->
  raises_clean I (try_except m h).
Proof.
  intros Hm Hh w Hw e w' ran. unfold try_except in ran.
  destruct (m w) as [[a|e0] w1] eqn:inner; [ discriminate ran | ].
  destruct (h e0) as [k|] eqn:caught.
  - destruct (Hh e0 k caught w1) as (a & w2 & ran'). rewrite ran in ran'.
    discriminate ran'.
  - injection ran as <- <-. exact (Hm w Hw e0 w1 inner).
Qed.

End Clean.

Lemma pres_untouched_emit (w0 : World) (e : Event) :
  user_visible e = false -> pres (signatures_untouched w0) (emit e).
Proof.
  intros hidden w (Ha & Hv & Hc & Hl & events & grown & quiet).
  repeat (split; [ assumption | ]).
  exists (events ++ [e])%list. unfold world_after, emit, modify. cbn.
  rewrite grown, <- app_assoc. split; [ reflexivity | ].
  rewrite filter_app. cbn. rewrite hidden, quiet. reflexivity.
Qed.

Ltac untouched_leaf :=
  idtac;
  match goal with
  | |- pres (signatures_untouched _) (emit _) =>
      apply pres_untouched_emit; reflexivity
  | |- pres (signatures_untouched _) (modify _) =>
      let w := fresh "w" in let E := fresh "E" in intros w E; exact E
  end.

Section CleanSignatures.
Context `{Host}.

Lemma returns_emit (e : Event) : returns (emit e).
Proof. intros w. now exists tt, (added [e] w). Qed.

Lemma returns_hide_signatures (view : View) :
  returns (SignaturesHandler.hide_signatures view).
Proof. intros w. rewrite hide_signatures_run. eexists tt, _. reflexivity. Qed.

Lemma returns_store (view : View) (call : json) :
  renders call ->
  returns
    (acquired <- SignaturesHandler.try_acquire ;;
     content <- (if acquired
                 then (SignaturesHandler.set_activated true ;;
                       SignaturesHandler.set_view (Some view) ;;
                       SignaturesHandler.set_call call ;;
                       content <- SignaturesHandler._render call ;;
                       SignaturesHandler.release ;;
                       ret (Some content))
                 else ret None) ;;
     match content with
     | Some c => show_popup view c None
     | None => ret tt
     end).
Proof.
  intros (in_kwargs & arg_index & its_kwargs & its_index) w.
  rewrite (store_then_run view call in_kwargs arg_index _ w its_kwargs
                          its_index).
  destruct (SH_lock w); [ exists tt, w | eexists tt, _ ]; reflexivity.
Qed.

Ltac handler_returns :=
  let e := fresh "e" in let k := fresh "k" in let E := fresh "E" in
  intros e k E; destruct e; cbn in E; try discriminate E;
  injection E as <-; apply returns_emit.

Ltac clean_auto :=
  repeat first
    [ apply raises_clean_returns, returns_store; stored_call_renders
    | match goal with
      | |- raises_clean _ (when _ (SignaturesHandler.hide_signatures _)) =>
          apply raises_clean_returns; unfold when;
          match goal with |- returns (if ?b then _ else _) => destruct b end;
          [ apply returns_hide_signatures
          | let w := fresh "w" in intros w; exists tt, w; reflexivity ]
      | |- raises_clean _ (bind (lift _) _) =>
          apply raises_clean_bind_lift; intros ? ?
      | |- raises_clean _ (bind (getpath _ _) _) =>
          apply raises_clean_bind_getpath; intros ? ?
      | |- raises_clean _ (bind _ _) =>
          apply raises_clean_bind;
          [ solve [ pres_auto untouched_leaf ] | intros ? ]
      | |- raises_clean _ (try_except _ _) =>
          apply raises_clean_try_except; [ | handler_returns ]
      | |- raises_clean _ (if ?b then _ else _) => destruct b
      | |- raises_clean _ (match ?x with _ => _ end) => destruct x
      | |- raises_clean _ (ret _) =>
          apply raises_clean_pres, pres_ret
      end
    | progress cbv zeta ].

(** X19. A signatures fetch that ends in an exception has changed nothing:
    whatever the answer of the service, if [_request_signatures] raises,
    then the activated flag, the view, the active call and the lock are as
    before, and no popup was shown or hidden.  (The only section that
    writes the state cannot fail once it is entered, the rendering of the
    template being taken to return.) *)
Theorem failed_signatures_fetch_changes_nothing (view : View)
  (data : FetchData) (answer : Answer) (w : World) (e : exn) (w' : World) :
  SignaturesHandler._request_signatures view data answer w = (Raise e, w') ->
  signatures_untouched w w'.
Proof.
  assert (start : signatures_untouched w w).
  { repeat (split; [ reflexivity | ]). exists []. now rewrite app_nil_r. }
  revert e w'.
  change (forall e w', SignaturesHandler._request_signatures view data answer w
                       = (Raise e, w') -> signatures_untouched w w')
    with ((fun m => forall e w', m w = (Raise e, w') -> signatures_untouched w w')
            (SignaturesHandler._request_signatures view data answer)).
  cbv beta.
  assert (clean : raises_clean (signatures_untouched w)
                    (SignaturesHandler._request_signatures view data answer)).
  { unfold SignaturesHandler._request_signatures. clean_auto. }
  exact (clean w start).
Qed.

End CleanSignatures.


Lemma failed_signatures_fetch_changes_nothing_witness :
  let view := Scenario.small_view in
  let data := Scenario.fetch_data view 5 in
  let w := Scenario.world_with_signatures in
  signatures_untouched w
    (added [HttpPost "/clientapi/editor/signatures" data] w).
Proof.
  intros view data w.
  apply (failed_signatures_fetch_changes_nothing (H := Session.session_host)
           view data (Responded (mkResponse 200) Session.bare_body) w
           KeyError).
  reflexivity.
Defined.


(** ** With the lock held elsewhere *)

Section Contended.
Context `{Host}.

Lemma pres_bind_of_ret (I : World -> Prop) {A B : Type} (a : A) (f : A -> M B) :
  pres I (f a) -> pres I (bind (ret a) f).
Proof. intros Hf w Hw. exact (Hf w Hw). Qed.

Lemma pres_held_try_acquire (w0 : World) {B : Type} (f : bool -> M B) :
  SH_lock w0 = true ->
  pres (signatures_untouched w0) (f false) ->
  pres (signatures_untouched w0) (bind SignaturesHandler.try_acquire f).
Proof.
  intros held Hf w Hw. pose proof Hw as (_ & _ & _ & lock & _).
  rewrite held in lock.
  unfold world_after, SignaturesHandler.try_acquire.
  unfold bind at 1 2. unfold gets at 1. cbn [fst snd]. rewrite lock.
  exact (Hf w Hw).
Qed.

Lemma pres_held_hide_signatures (w0 : World) (view : View) :
  SH_lock w0 = true ->
  pres (signatures_untouched w0) (SignaturesHandler.hide_signatures view).
Proof.
  intros held w Hw. pose proof Hw as (_ & _ & _ & lock & _).
  rewrite held in lock.
  unfold world_after. rewrite hide_signatures_run, lock. exact Hw.
Qed.

Ltac held_auto held :=
  repeat first
    [ apply (pres_held_hide_signatures _ _ held)
    | apply (pres_held_try_acquire _ _ held); cbv beta iota
    | match goal with
      | |- pres _ (bind (ret _) _) => apply pres_bind_of_ret; cbv beta iota
      end
    | pres_step
    | progress cbv zeta
    | progress unfold_entry_points
    | untouched_leaf ].

(** X20. While another thread holds the lock of SignaturesHandler, the
    handler skips instead of waiting: [hide_signatures] and [_rerender] do
    nothing at all, and a signatures fetch, whatever the service answers
    (also 400, 404 or a well-formed call), leaves the activated flag, the
    view and the active call as they were and shows or hides no popup. *)
Theorem signatures_skip_when_lock_held (view : View) (data : FetchData)
  (answer : Answer) (w : World) :
  SH_lock w = true ->
  SignaturesHandler.hide_signatures view w = (Ret tt, w) /\
  SignaturesHandler._rerender w = (Ret tt, w) /\
  signatures_untouched w
    (snd (SignaturesHandler._request_signatures view data answer w)).
Proof.
  intros held. refine (conj _ (conj _ _)).
  - rewrite hide_signatures_run, held. reflexivity.
  - unfold SignaturesHandler._rerender, SignaturesHandler._rerender_content,
      SignaturesHandler.try_acquire.
    unfold bind at 1 2 3. unfold gets at 1. cbn [fst snd]. rewrite held.
    reflexivity.
  - assert (start : signatures_untouched w w).
    { repeat (split; [ reflexivity | ]). exists []. now rewrite app_nil_r. }
    assert (kept : pres (signatures_untouched w)
                     (SignaturesHandler._request_signatures view data answer)).
    { unfold SignaturesHandler._request_signatures. held_auto held. }
    exact (kept w start).
Qed.

End Contended.


Lemma signatures_skip_when_lock_held_witness :
  let view := Scenario.small_view in
  let data := Scenario.fetch_data view 5 in
  let w := set_SH_lock true Scenario.world_with_signatures in
  SignaturesHandler.hide_signatures view w = (Ret tt, w) /\
  SignaturesHandler._rerender (H := Scenario.scenario_host) w = (Ret tt, w) /\
  signatures_untouched w
    (snd (SignaturesHandler._request_signatures (H := Scenario.scenario_host)
            view data (Responded (mkResponse 404) []) w)).
Proof.
  intros view data w.
  apply (signatures_skip_when_lock_held (H := Scenario.scenario_host)
           view data (Responded (mkResponse 404) []) w).
  reflexivity.
Defined.


(** ** How signatures become active *)

Section Activation.
Context `{Host}.

Ltac inactive_leaf :=
  idtac;
  match goal with
  | |- pres signatures_inactive (emit _) =>
      let w := fresh "w" in let E := fresh "E" in intros w E; exact E
  | |- pres signatures_inactive (modify _) =>
      let w := fresh "w" in let E := fresh "E" in
      intros w E; first [ exact E | reflexivity ]
  end.

(** X21. Signatures become active in one way only: through a signatures
    fetch whose response has status 200 and a body.  Every other entry
    point, and a signatures fetch with any other answer, leaves inactive
    signatures inactive; so until such a response has come in, a selection
    event never queues a signatures request. *)
Theorem only_a_fetch_activates (op : Op) (w : World) :
  signatures_answered op = false ->
  SH_activated w = false ->
  SH_activated (run_op op w) = false.
Proof.
  intros unanswered. revert w.
  change (forall w, signatures_inactive w -> signatures_inactive (run_op op w)).
  destruct op; cbn [run_op];
    try match goal with
        | |- forall w, _ -> signatures_inactive (world_after ?m w) =>
            change (pres signatures_inactive m)
        end;
    try (pres_auto inactive_leaf; fail).
  - (* a signatures fetch that is not answered with 200 and a body *)
    unfold SignaturesHandler._request_signatures.
    destruct answer as [resp body | | msg];
      [ | intros w inactive; exact inactive
        | intros w inactive; exact inactive ].
    cbn [signatures_answered] in unanswered.
    intros w inactive. unfold world_after.
    rewrite (bind_ret_run _ _ _ _ _ (kited_post_run _ data resp body w)).
    cbn [fst snd].
    replace (negb (status resp =? 200) || not_body body) with true
      by (destruct (status resp =? 200), (not_body body);
          cbn in unanswered |- *; congruence).
    assert (kept : pres signatures_inactive
                     (when ((status resp =? 400) || (status resp =? 404))
                           (SignaturesHandler.hide_signatures view)))
      by pres_auto inactive_leaf.
    exact (kept (added [HttpPost "/clientapi/editor/signatures" data] w)
                inactive).
  - intros w inactive. exact inactive.
Qed.

End Activation.


Lemma only_a_fetch_activates_witness :
  let view := Scenario.small_view in
  SH_activated (run_op (H := Scenario.scenario_host)
                  (RunRequestSignatures view (Scenario.fetch_data view 5)
                                        (Responded (mkResponse 500)
                                                   Scenario.signatures_body))
                  init_world)
  = false /\
  SH_activated (run_op (H := Scenario.scenario_host)
                  (OnSelectionModified view) init_world)
  = false.
Proof.
  intros view. split.
  - apply (only_a_fetch_activates (H := Scenario.scenario_host)
             (RunRequestSignatures view (Scenario.fetch_data view 5)
                                   (Responded (mkResponse 500)
                                              Scenario.signatures_body))
             init_world);
      reflexivity.
  - apply (only_a_fetch_activates (H := Scenario.scenario_host)
             (OnSelectionModified view) init_world);
      reflexivity.
Defined.


(** ** Clicks on links *)

Lemma find_char_lower (c : ascii) (s : string) : -1 <= find_char c s.
Proof.
  induction s as [|x s IH]; cbn; [ lia | ].
  destruct (Ascii.eqb x c); [ lia | ].
  destruct (Z.eqb_spec (find_char c s) (-1)); lia.
Qed.

Lemma find_char_append (c : ascii) (a b : string) :
  find_char c a = -1 ->
  find_char c (a ++ String c b) = Z.of_nat (String.length a).
Proof.
  induction a as [|x a IH]; cbn [append find_char String.length].
  - intros _. now rewrite Ascii.eqb_refl.
  - destruct (Ascii.eqb x c); [ discriminate | ].
    destruct (Z.eqb_spec (find_char c a) (-1)) as [none | some];
      [ | pose proof (find_char_lower c a); lia ].
    intros _. rewrite (IH none).
    destruct (Z.eqb_spec (Z.of_nat (String.length a)) (-1)); lia.
Qed.

Lemma rfind_char_lower (c : ascii) (s : string) : -1 <= rfind_char c s.
Proof.
  induction s as [|x s IH]; cbn; [ lia | ].
  destruct (Z.eqb_spec (rfind_char c s) (-1)); [ | lia ].
  destruct (Ascii.eqb x c); lia.
Qed.

Lemma rfind_char_none (c : ascii) (s : string) :
  find_char c s = -1 -> rfind_char c s = -1.
Proof.
  induction s as [|x s IH]; cbn; [ reflexivity | ].
  destruct (Ascii.eqb x c); [ discriminate | ].
  destruct (Z.eqb_spec (find_char c s) (-1)) as [none | some].
  - intros _. now rewrite (IH none).
  - pose proof (find_char_lower c s). lia.
Qed.

Lemma rfind_char_append (c : ascii) (a b : string) :
  find_char c b = -1 ->
  rfind_char c (a ++ String c b) = Z.of_nat (String.length a).
Proof.
  intros none. induction a as [|x a IH]; cbn [append rfind_char String.length].
  - rewrite (rfind_char_none c b none). cbn. now rewrite Ascii.eqb_refl.
  - rewrite IH.
    destruct (Z.eqb_spec (Z.of_nat (String.length a)) (-1)); lia.
Qed.

Lemma slice_to_append (a b : string) :
  slice_to (Z.of_nat (String.length a)) (a ++ b) = a.
Proof.
  unfold slice_to. rewrite Nat2Z.id.
  induction a as [|x a IH]; cbn.
  - now destruct b.
  - now rewrite IH.
Qed.

Lemma slice_from_append (a : string) (c : ascii) (b : string) :
  slice_from (Z.of_nat (String.length a) + 1) (a ++ String c b) = b.
Proof.
  unfold slice_from.
  replace (Z.to_nat (Z.of_nat (String.length a) + 1))
    with (S (String.length a)) by lia.
  rewrite length_append. cbn [String.length].
  replace (String.length a + S (String.length b) - S (String.length a))%nat
    with (String.length b) by lia.
  induction a as [|x a IH]; cbn; [ apply substring_all | exact IH ].
Qed.

Lemma slice_from_start (s : string) : slice_from 0 s = s.
Proof.
  unfold slice_from. cbn. rewrite Nat.sub_0_r. apply substring_all.
Qed.

(** What the shared part does with 'action:ident'. *)
Lemma open_link_run (action ident : string) (d : Desk) :
  find_char ":"%char action = -1 ->
  open_link (action ++ String ":"%char ident) d
  = (Ret tt,
     mkDesk (desk_world d)
            (desk_calls d ++
             [if (action =? "open_browser")%string
              then OpenBrowser ident else OpenCopilot ident])).
Proof.
  intros plain. unfold open_link.
  rewrite (find_char_append ":"%char action ident plain).
  destruct (Z.eqb_spec (Z.of_nat (String.length action)) (-1)); [ lia | ].
  rewrite slice_to_append, slice_from_append.
  destruct (action =? "open_browser")%string; reflexivity.
Qed.

Lemma open_link_without_colon (target : string) (d : Desk) :
  find_char ":"%char target = -1 ->
  open_link target d
  = (Ret tt, mkDesk (desk_world d) (desk_calls d ++ [LogInvalidLink target])).
Proof. intros plain. unfold open_link. now rewrite plain. Qed.

Lemma open_target_starts_with_o (target : string) :
  startswith target "open_browser" || startswith target "open_copilot" = true ->
  exists rest, target = String "o"%char rest.
Proof.
  unfold startswith. destruct target as [|c rest]; [ discriminate | ].
  cbn [prefix]. destruct (ascii_dec "o" c) as [<- | differ];
    [ intros _; now exists rest | discriminate ].
Qed.

Lemma signatures_click_opens (host_after : list LinkCall -> Host)
  (others : World -> World) (target : string) :
  startswith target "open_browser" || startswith target "open_copilot" = true ->
  SignaturesLinks._handle_link_click host_after others target
  = open_link target.
Proof.
  intros open. destruct (open_target_starts_with_o target open) as [rest ->].
  unfold SignaturesLinks._handle_link_click. rewrite open. reflexivity.
Qed.

Lemma hover_click_opens (target : string) :
  startswith target "open_browser" || startswith target "open_copilot" = true ->
  HoverLinks._handle_link_click target = open_link target.
Proof.
  intros open. unfold HoverLinks._handle_link_click. now rewrite open.
Qed.

(** X22. Open links, in the signatures popup and in the hover popup alike.
    A target that starts with 'open_browser' or 'open_copilot' is split at
    its first colon: when the part before is exactly 'open_browser' the
    browser is opened on all that follows the colon, further colons
    included; otherwise the companion app is opened on it (so also for a
    target like 'open_browserX:...').  Without a colon the target is logged
    as invalid and nothing is opened.  In no case does an attribute of a
    handler change or is anything requested, shown or hidden. *)
Theorem link_targets_open (host_after : list LinkCall -> Host)
  (others : World -> World) (target : string) (d : Desk) :
  startswith target "open_browser" || startswith target "open_copilot" = true ->
  (forall action ident,
     target = (action ++ String ":"%char ident)%string ->
     find_char ":"%char action = -1 ->
     let opened :=
       (Ret tt,
        mkDesk (desk_world d)
               (desk_calls d ++
                [if (action =? "open_browser")%string
                 then OpenBrowser ident else OpenCopilot ident])) in
     SignaturesLinks._handle_link_click host_after others target d = opened /\
     HoverLinks._handle_link_click target d = opened) /\
  (find_char ":"%char target = -1 ->
   let refused :=
     (Ret tt,
      mkDesk (desk_world d) (desk_calls d ++ [LogInvalidLink target])) in
   SignaturesLinks._handle_link_click host_after others target d = refused /\
   HoverLinks._handle_link_click target d = refused).
Proof.
  intros open.
  rewrite (signatures_click_opens host_after others target open),
          (hover_click_opens target open).
  split.
  - intros action ident -> plain opened.
    split; apply (open_link_run action ident d plain).
  - intros plain refused.
    split; apply (open_link_without_colon target d plain).
Qed.

Lemma startswith_cons (target : string) (a : ascii) (p : string) :
  startswith target (String a p) = true ->
  exists rest, target = String a rest /\ startswith rest p = true.
Proof.
  unfold startswith. destruct target as [|c rest]; [ discriminate | ].
  cbn [prefix]. destruct (ascii_dec a c) as [<- | differ];
    [ intros E; now exists rest | discriminate ].
Qed.

Lemma definition_target_is_no_open_link (target : string) :
  startswith target "open_definition" = true ->
  startswith target "open_browser" || startswith target "open_copilot" = false.
Proof.
  intros E.
  do 6 (apply startswith_cons in E; destruct E as (? & -> & E)).
  reflexivity.
Qed.

(** X23. The 'open_definition' links of the hover popup.  The target is
    split at its first colon and what follows is the destination; the
    destination is opened, as it stands, exactly when what follows its last
    colon (the whole destination when it has no colon) is a non-empty run
    of digits, and otherwise the target is logged as invalid.  So
    'open_definition:path:12' opens 'path:12', and only the last field is
    checked.  A target without any colon is logged as invalid.  No
    attribute of a handler changes.  (Stated for targets in ASCII, where
    [isdigit] is the test for the digits 0 to 9.) *)
Theorem definition_links_open (target : string) (d : Desk) :
  startswith target "open_definition" = true ->
  ascii_only target = true ->
  (forall action dest,
     target = (action ++ String ":"%char dest)%string ->
     find_char ":"%char action = -1 ->
     (forall path line,
        dest = (path ++ String ":"%char line)%string ->
        find_char ":"%char line = -1 ->
        HoverLinks._handle_link_click target d
        = (Ret tt,
           mkDesk (desk_world d)
                  (desk_calls d ++
                   [if isdigit line then OpenFile dest
                    else LogInvalidDefinition target]))) /\
     (find_char ":"%char dest = -1 ->
      HoverLinks._handle_link_click target d
      = (Ret tt,
         mkDesk (desk_world d)
                (desk_calls d ++
                 [if isdigit dest then OpenFile dest
                  else LogInvalidDefinition target])))) /\
  (find_char ":"%char target = -1 ->
   HoverLinks._handle_link_click target d
   = (Ret tt,
      mkDesk (desk_world d) (desk_calls d ++ [LogInvalidDefinition target]))).
Proof.
  intros definition _.
  unfold HoverLinks._handle_link_click.
  rewrite (definition_target_is_no_open_link target definition), definition.
  split.
  - intros action dest -> plain.
    rewrite (find_char_append ":"%char action dest plain).
    destruct (Z.eqb_spec (Z.of_nat (String.length action)) (-1)); [ lia | ].
    rewrite slice_from_append.
    split.
    + intros path line -> last_field.
      rewrite (rfind_char_append ":"%char path line last_field).
      rewrite slice_from_append.
      destruct (isdigit line); reflexivity.
    + intros no_field. rewrite (rfind_char_none ":"%char dest no_field).
      cbn [Z.add]. rewrite slice_from_start.
      destruct (isdigit dest); reflexivity.
  - intros plain. rewrite plain. reflexivity.
Qed.


Lemma link_targets_open_witness :
  let target := "open_browser:https://kite.com/docs" in
  let opened :=
    (Ret tt,
     mkDesk (desk_world Session.desk) [OpenBrowser "https://kite.com/docs"]) in
  SignaturesLinks._handle_link_click Session.host_after_clicks
    (fun w => w) target Session.desk
  = opened /\
  HoverLinks._handle_link_click target Session.desk = opened.
Proof.
  intros target opened.
  destruct (link_targets_open Session.host_after_clicks (fun w => w) target
                              Session.desk eq_refl)
    as [split_at_colon _].
  exact (split_at_colon "open_browser" "https://kite.com/docs"
                        eq_refl eq_refl).
Defined.

Lemma definition_links_open_witness :
  let target := "open_definition:/home/user/b.py:12" in
  HoverLinks._handle_link_click target Session.desk
  = (Ret tt,
     mkDesk (desk_world Session.desk) [OpenFile "/home/user/b.py:12"]).
Proof.
  intros target.
  destruct (definition_links_open target Session.desk eq_refl eq_refl)
    as [with_colon _].
  destruct (with_colon "open_definition" "/home/user/b.py:12"
                       eq_refl eq_refl)
    as [with_line _].
  exact (with_line "/home/user/b.py" "12" eq_refl eq_refl).
Defined.


(** X24. The four toggle links of the signatures popup.  Each sets its
    display setting ('show_popular_patterns' or 'show_keyword_arguments', to
    False for 'hide_...' and to True for 'show_...') once and then
    re-renders with the settings as they are after that, requesting nothing
    and writing no attribute.  In a ready state: with the lock held
    elsewhere, or with signatures not active, nothing is shown and the click
    returns; with the lock free and signatures active the panel of the
    active call is rendered under the lock and shown on the view that is
    stored once the lock has been given back.  With no other thread in
    between, that is the view stored before and the click returns without
    an exception; when another thread has set the view to None in between,
    the click ends in an AttributeError, the setting staying set. *)
Theorem toggle_links_rerender (host_after : list LinkCall -> Host)
  (others : World -> World) (target key : string) (value : bool) (d : Desk) :
  In (target, key, value)
     [("hide_popular_patterns", "show_popular_patterns", false);
      ("show_popular_patterns", "show_popular_patterns", true);
      ("hide_keyword_arguments", "show_keyword_arguments", false);
      ("show_keyword_arguments", "show_keyword_arguments", true)] ->
  signatures_ready (desk_world d) ->
  let w := desk_world d in
  let calls := (desk_calls d ++ [SettingsSet key value])%list in
  let released := if SH_lock w then w else added [Acquire; Release] w in
  let click := SignaturesLinks._handle_link_click host_after others target d in
  (SH_lock w = true \/ SH_activated w = false ->
   click = (Ret tt, mkDesk (others released) calls)) /\
  (SH_lock w = false -> SH_activated w = true ->
   exists view in_kwargs arg_index,
     SH_view w = Some view /\
     getpath_value (SH_call w) in_kwargs_path = Ret in_kwargs /\
     py_getitem (SH_call w) "arg_index" = Ret arg_index /\
     let content :=
       panel (H := host_after calls) in_kwargs arg_index (SH_call w) in
     (forall view',
        SH_view (others released) = Some view' ->
        click
        = (Ret tt,
           mkDesk (added [ShowPopup view' content None] (others released))
                  calls)) /\
     (SH_view (others released) = None ->
      click = (Raise AttributeError, mkDesk (others released) calls))).
Proof.
  intros listed ready w calls released click. subst w click.
  set (w := desk_world d) in *.
  assert (clicked :
            SignaturesLinks._handle_link_click host_after others target d
            = (fst (SignaturesHandler._rerender_amid (H := host_after calls)
                      others w),
               mkDesk (snd (SignaturesHandler._rerender_amid
                              (H := host_after calls) others w))
                      calls)).
  { cbn [In] in listed.
    destruct listed as [E | [E | [E | [E | []]]]];
      injection E as <- <- <-; reflexivity. }
  rewrite clicked. clear clicked.
  rewrite (rerender_amid_run (H := host_after calls) others w ready).
  rewrite rerender_popup_run.
  unfold rerender_content, rerender_released. fold released.
  split.
  - intros [held | inactive].
    + now rewrite held.
    + rewrite inactive. now destruct (SH_lock w).
  - intros free active. rewrite active.
    assert (no_hold : SH_lock w = false) by exact free.
    rewrite no_hold.
    destruct (ready active) as (some_view & in_kwargs & arg_index & its_kwargs
                                & its_index).
    destruct (SH_view w) as [view|] eqn:its_view; [ | now elim some_view ].
    exists view, in_kwargs, arg_index.
    unfold stored_panel. rewrite its_kwargs, its_index.
    refine (conj eq_refl (conj eq_refl (conj eq_refl _))).
    split.
    + intros view' later. now rewrite later.
    + intros later. now rewrite later.
Qed.


Lemma toggle_links_rerender_witness :
  let w := desk_world Session.desk in
  let view := Scenario.small_view in
  let not_found :=
    run_op (H := Scenario.scenario_host)
           (RunRequestSignatures view (Scenario.fetch_data view 5)
                                 (Responded (mkResponse 404) [])) in
  let released := added [Acquire; Release] w in
  SignaturesLinks._handle_link_click Session.host_after_clicks (fun w => w)
    "hide_popular_patterns" Session.desk
  = (Ret tt,
     mkDesk (added [ShowPopup view "<div>f(x, *, key)</div>" None] released)
            [SettingsSet "show_popular_patterns" false]) /\
  SignaturesLinks._handle_link_click Session.host_after_clicks not_found
    "hide_popular_patterns" Session.desk
  = (Raise AttributeError,
     mkDesk (not_found released) [SettingsSet "show_popular_patterns" false]).
Proof.
  intros w view not_found released.
  assert (ready : signatures_ready (desk_world Session.desk)).
  { intros _. split; [ discriminate | ].
    exists (JBool false), (JInt 0). split; reflexivity. }
  split.
  - destruct (toggle_links_rerender Session.host_after_clicks (fun w => w)
                "hide_popular_patterns" "show_popular_patterns" false
                Session.desk (or_introl eq_refl) ready)
      as (_ & active).
    destruct (active eq_refl eq_refl)
      as (view0 & in_kwargs & arg_index & _ & _ & _ & alone & _).
    rewrite (alone view eq_refl). reflexivity.
  - destruct (toggle_links_rerender Session.host_after_clicks not_found
                "hide_popular_patterns" "show_popular_patterns" false
                Session.desk (or_introl eq_refl) ready)
      as (_ & active).
    destruct (active eq_refl eq_refl)
      as (view0 & in_kwargs & arg_index & _ & _ & _ & _ & raced).
    exact (raced eq_refl).
Defined.
